(** * TableauAPI: a shallow embedding of the metadata, storage, auth,
      retry and export code, and the properties stated about it.

    The development follows the layout of the Python package:
    - [tableauapi/utils/exceptions.py]  the error taxonomy,
    - [tableauapi/core/metadata.py]     the dataclasses and [MetadataProcessor],
    - [tableauapi/core/storage.py]      [LocalStorage] and [S3Storage],
    - [tableauapi/core/auth.py]         the environment resolver and the authenticator,
    - [tableauapi/core/client.py], [tableauapi/utils/helpers.py]  the retry loops,
    - [tableauapi/cli/commands/export.py]  the CSV export.

    Python values the code handles dynamically are embedded as [pyval];
    fallible code returns [result]; code that touches the file system, the
    object store, the vendor session or the clock threads that state
    explicitly. *)

From Stdlib Require Import ZArith QArith Qcanon List String Ascii Bool Lia.
From stdpp Require Import gmap strings list fin_maps numbers.

Local Open Scope string_scope.
Local Open Scope Z_scope.
Local Open Scope list_scope.

Set Warnings "-register-all".

(* ===================================================================== *)
(** * Exceptions and the result monad                                     *)
(* ===================================================================== *)

(** The classes of [utils/exceptions.py] and the built-in classes the
    modelled code can meet.  Every class here derives from Python's
    [Exception]; interrupts of the process are outside the model. *)
Inductive exc_class :=
  | TableauAPIError | AuthenticationError | ConfigurationError
  | ConnectionError | MetadataError | StorageError
  | TypeError | ValueError | KeyError | AttributeError | OSError
  | ClientError | MarkupError.

Global Instance exc_class_eq_dec : EqDecision exc_class.
Proof. solve_decision. Defined.

(** An exception instance: its class and [str(e)]. *)
Record exn := Exn { exn_class : exc_class; exn_str : string }.

Global Instance exn_eq_dec : EqDecision exn.
Proof. solve_decision. Defined.

Inductive result (A : Type) :=
  | Ok (a : A)
  | Raise (e : exn).
Arguments Ok {A} a.
Arguments Raise {A} e.

Definition rbind {A B} (m : result A) (k : A -> result B) : result B :=
  match m with
  | Ok a => k a
  | Raise e => Raise e
  end.

Notation "x <- m ;; k" := (rbind m (fun x => k))
  (at level 100, m at next level, right associativity).

(** [try: body  except Exception as e: raise cls(prefix + str(e))] *)
Definition reraise_as {A} (cls : exc_class) (prefix : string)
    (body : result A) : result A :=
  match body with
  | Ok a => Ok a
  | Raise e => Raise (Exn cls (prefix +:+ exn_str e))
  end.

Fixpoint rmap {A B} (f : A -> result B) (l : list A) : result (list B) :=
  match l with
  | [] => Ok []
  | x :: l' => y <- f x ;; ys <- rmap f l' ;; Ok (y :: ys)
  end.

(** A list comprehension [[x for x in l if p(x)]] whose condition can raise. *)
Fixpoint rfilter {A} (p : A -> result bool) (l : list A) : result (list A) :=
  match l with
  | [] => Ok []
  | x :: l' =>
      b <- p x ;;
      ys <- rfilter p l' ;;
      Ok (if b then x :: ys else ys)
  end.

(* ===================================================================== *)
(** * [datetime]                                                          *)
(* ===================================================================== *)

Module datetime.

(** A [datetime.datetime] value.  [tzoffset] is [None] for a naive value
    and the UTC offset of its [tzinfo], in microseconds, for an aware one. *)
Record t := mk {
  year : Z; month : Z; day : Z;
  hour : Z; minute : Z; second : Z; microsecond : Z;
  tzoffset : option Z
}.

Global Instance eq_dec : EqDecision t.
Proof. solve_decision. Defined.

Definition is_leap (y : Z) : bool :=
  (y mod 4 =? 0) && (negb (y mod 100 =? 0) || (y mod 400 =? 0)).

Definition days_in_month (y m : Z) : Z :=
  if m =? 2 then (if is_leap y then 29 else 28)
  else if (m =? 4) || (m =? 6) || (m =? 9) || (m =? 11) then 30
  else 31.

Definition day_us : Z := 86400 * 1000000.

(** The range checks of the [datetime] and [timezone] constructors. *)
Definition offset_ok (o : option Z) : bool :=
  match o with
  | None => true
  | Some off => (- day_us <? off) && (off <? day_us)
  end.

Definition valid (d : t) : bool :=
  (1 <=? year d) && (year d <=? 9999) &&
  (1 <=? month d) && (month d <=? 12) &&
  (1 <=? day d) && (day d <=? days_in_month (year d) (month d)) &&
  (0 <=? hour d) && (hour d <=? 23) &&
  (0 <=? minute d) && (minute d <=? 59) &&
  (0 <=? second d) && (second d <=? 59) &&
  (0 <=? microsecond d) && (microsecond d <=? 999999) &&
  offset_ok (tzoffset d).

(** [datetime.min] *)
Definition min : t := mk 1 1 1 0 0 0 0 None.

(** ** Formatting: [isoformat(sep)] and [__str__] *)

Definition digit_char (k : Z) : ascii :=
  ascii_of_N (48 + Z.to_N k).

(** ["%0wd" % n] for [0 <= n < 10^w]. *)
Fixpoint fmt_digits (w : nat) (n : Z) : list ascii :=
  match w with
  | O => []
  | S w' => fmt_digits w' (n / 10) ++ [digit_char (n mod 10)]
  end.

Definition fmt_time (hh mm ss us : Z) : list ascii :=
  fmt_digits 2 hh ++ ":"%char :: fmt_digits 2 mm ++ ":"%char :: fmt_digits 2 ss
  ++ (if us =? 0 then [] else "."%char :: fmt_digits 6 us).

Definition hour_us : Z := 3600 * 1000000.
Definition minute_us : Z := 60 * 1000000.

(** The offset once its sign is written: [HH:MM[:SS[.ffffff]]]. *)
Definition fmt_offset_abs (a : Z) : list ascii :=
  let hh := a / hour_us in
  let r := a mod hour_us in
  let mm := r / minute_us in
  let ss := r mod minute_us in
  fmt_digits 2 hh ++ ":"%char :: fmt_digits 2 mm
  ++ (if ss =? 0 then []
      else ":"%char :: fmt_digits 2 (ss / 1000000)
           ++ (if ss mod 1000000 =? 0 then []
               else "."%char :: fmt_digits 6 (ss mod 1000000))).

Definition fmt_offset (o : option Z) : list ascii :=
  match o with
  | None => []
  | Some off =>
      (if off <? 0 then "-"%char else "+"%char) :: fmt_offset_abs (Z.abs off)
  end.

Definition isoformat_chars (sep : ascii) (d : t) : list ascii :=
  fmt_digits 4 (year d) ++ "-"%char :: fmt_digits 2 (month d)
  ++ "-"%char :: fmt_digits 2 (day d)
  ++ sep :: fmt_time (hour d) (minute d) (second d) (microsecond d)
  ++ fmt_offset (tzoffset d).

(** [d.isoformat()] *)
Definition isoformat (d : t) : string :=
  string_of_list_ascii (isoformat_chars "T" d).

(** [str(d)], which is [d.isoformat(sep=' ')] *)
Definition str (d : t) : string :=
  string_of_list_ascii (isoformat_chars " " d).

(** ** Parsing: [datetime.fromisoformat]

    The parser reads the grammar that [isoformat] writes,
    [YYYY-MM-DD?HH:MM:SS[.ffffff][+HH:MM[:SS[.ffffff]]]] with any single
    separator character, and answers [ValueError] on anything else. *)

Definition digit_val (c : ascii) : option Z :=
  let n := N_of_ascii c in
  if ((48 <=? n) && (n <=? 57))%N then Some (Z.of_N n - 48) else None.

Fixpoint parse_digits_acc (acc : Z) (l : list ascii) : option Z :=
  match l with
  | [] => Some acc
  | c :: l' =>
      match digit_val c with
      | Some k => parse_digits_acc (10 * acc + k) l'
      | None => None
      end
  end.

Definition parse_digits (l : list ascii) : option Z := parse_digits_acc 0 l.

(** [HH:MM:SS[.ffffff]] with nothing after it: the four components. *)
Definition parse_hh_mm_ss_ff (l : list ascii) : option (Z * Z * Z * Z) :=
  match l with
  | h1 :: h2 :: ":"%char :: m1 :: m2 :: ":"%char :: s1 :: s2 :: rest =>
      match parse_digits [h1; h2], parse_digits [m1; m2], parse_digits [s1; s2] with
      | Some hh, Some mm, Some ss =>
          match rest with
          | [] => Some (hh, mm, ss, 0)
          | ["."%char; u1; u2; u3; u4; u5; u6] =>
              match parse_digits [u1; u2; u3; u4; u5; u6] with
              | Some us => Some (hh, mm, ss, us)
              | None => None
              end
          | _ => None
          end
      | _, _, _ => None
      end
  | _ => None
  end.

(** [HH:MM[:SS[.ffffff]]] after the sign of a UTC offset. *)
Definition parse_tz (l : list ascii) : option Z :=
  match l with
  | [h1; h2; ":"%char; m1; m2] =>
      match parse_digits [h1; h2], parse_digits [m1; m2] with
      | Some hh, Some mm => Some (hh * hour_us + mm * minute_us)
      | _, _ => None
      end
  | h1 :: h2 :: ":"%char :: m1 :: m2 :: ":"%char :: rest =>
      match parse_hh_mm_ss_ff l with
      | Some (hh, mm, ss, us) =>
          Some (hh * hour_us + mm * minute_us + ss * 1000000 + us)
      | None => None
      end
  | _ => None
  end.

(** Split a time string at its first ['-'] or ['+']. *)
Fixpoint split_tz (l : list ascii) : list ascii * option (bool * list ascii) :=
  match l with
  | [] => ([], None)
  | c :: l' =>
      if Ascii.eqb c "-" then ([], Some (true, l'))
      else if Ascii.eqb c "+" then ([], Some (false, l'))
      else let '(t, z) := split_tz l' in (c :: t, z)
  end.

Definition parse_chars (l : list ascii) : option t :=
  match l with
  | y1 :: y2 :: y3 :: y4 :: "-"%char :: m1 :: m2 :: "-"%char :: d1 :: d2
      :: _sep :: tstr =>
      match parse_digits [y1; y2; y3; y4], parse_digits [m1; m2],
            parse_digits [d1; d2] with
      | Some y, Some m, Some dd =>
          let '(timestr, tz) := split_tz tstr in
          match parse_hh_mm_ss_ff timestr with
          | Some (hh, mm, ss, us) =>
              let off :=
                match tz with
                | None => Some None
                | Some (neg, tzstr) =>
                    match parse_tz tzstr with
                    | Some a => Some (Some (if neg then - a else a))
                    | None => None
                    end
                end in
              match off with
              | Some o =>
                  let d := mk y m dd hh mm ss us o in
                  if valid d then Some d else None
              | None => None
              end
          | None => None
          end
      | _, _, _ => None
      end
  | _ => None
  end.



Definition fromisoformat (s : string) : result t :=
  match parse_chars (list_ascii_of_string s) with
  | Some d => Ok d
  | None => Raise (Exn ValueError ("Invalid isoformat string: " +:+ s))
  end.

(** ** Ordering

    Two naive values compare by their fields, two aware values by the
    instants they denote; comparing a naive with an aware value raises
    [TypeError]. *)

(** Days before 1 January of year [y], counted from year 1. *)
Definition days_before_year (y : Z) : Z :=
  let y' := y - 1 in y' * 365 + y' / 4 - y' / 100 + y' / 400.

Fixpoint days_before_month_nat (y : Z) (m : nat) : Z :=
  match m with
  | O => 0
  | S m' => days_before_month_nat y m' + days_in_month y (Z.of_nat m)
  end.

(** Days of year [y] before the first of month [m]. *)
Definition days_before_month (y m : Z) : Z :=
  days_before_month_nat y (Z.to_nat (m - 1)).

Definition toordinal (d : t) : Z :=
  days_before_year (year d) + days_before_month (year d) (month d) + day d.

(** Microseconds since the start of day 0, before the offset is applied. *)
Definition wall_us (d : t) : Z :=
  ((toordinal d * 86400 + hour d * 3600 + minute d * 60 + second d) * 1000000)
  + microsecond d.

Definition cmp_error : exn :=
  Exn TypeError "can't compare offset-naive and offset-aware datetimes".

(** [a >= b] *)
Definition ge (a b : t) : result bool :=
  match tzoffset a, tzoffset b with
  | None, None => Ok (wall_us b <=? wall_us a)
  | Some oa, Some ob => Ok (wall_us b - ob <=? wall_us a - oa)
  | _, _ => Raise cmp_error
  end.

(** [a < b] *)
Definition lt (a b : t) : result bool :=
  match tzoffset a, tzoffset b with
  | None, None => Ok (wall_us a <? wall_us b)
  | Some oa, Some ob => Ok (wall_us a - oa <? wall_us b - ob)
  | _, _ => Raise cmp_error
  end.

End datetime.

(* ===================================================================== *)
(** * Dynamically typed values and JSON documents                         *)
(* ===================================================================== *)

(** The Python values that travel through [Dict[str, Any]] fields and
    through [json.loads].  A [PDict] lists its items in insertion order. *)
Inductive pyval :=
  | PNone
  | PBool (b : bool)
  | PInt (z : Z)
  | PStr (s : string)
  | PDatetime (d : datetime.t)
  | PList (l : list pyval)
  | PDict (kv : list (string * pyval)).

Definition pydict := list (string * pyval).

(** [d.get(k)]: the value bound to [k]; with repeated keys the last
    binding wins, as when a dict is built item by item. *)
Fixpoint dict_get (k : string) (kv : pydict) : option pyval :=
  match kv with
  | [] => None
  | (k', v) :: kv' =>
      match dict_get k kv' with
      | Some w => Some w
      | None => if String.eqb k k' then Some v else None
      end
  end.

(** [repr] of a string key, as [KeyError] prints it. *)
Definition repr_str (s : string) : string := "'" +:+ s +:+ "'".

(** [v[k]] on a value expected to be a dict. *)
Definition getitem (v : pyval) (k : string) : result pyval :=
  match v with
  | PDict kv =>
      match dict_get k kv with
      | Some w => Ok w
      | None => Raise (Exn KeyError (repr_str k))
      end
  | _ => Raise (Exn TypeError "object is not subscriptable")
  end.

(** [v.get(k, dflt)] on a value expected to be a dict. *)
Definition get_default (v : pyval) (k : string) (dflt : pyval) : result pyval :=
  match v with
  | PDict kv =>
      match dict_get k kv with
      | Some w => Ok w
      | None => Ok dflt
      end
  | _ => Raise (Exn AttributeError "object has no attribute 'get'")
  end.

(** Truth value of a Python object. *)
Definition truthy (v : pyval) : bool :=
  match v with
  | PNone => false
  | PBool b => b
  | PInt z => negb (z =? 0)
  | PStr s => negb (String.eqb s "")
  | PDatetime _ => true
  | PList l => match l with [] => false | _ => true end
  | PDict kv => match kv with [] => false | _ => true end
  end.

(** A JSON document, the content of a [.json] file. *)
Inductive json :=
  | JNull
  | JBool (b : bool)
  | JInt (z : Z)
  | JString (s : string)
  | JArray (l : list json)
  | JObject (kv : list (string * json)).

(** [json.dumps(v, default=str)]: a [datetime] is not serializable, so the
    [default] hook turns it into [str(d)]. *)
Fixpoint json_dumps (v : pyval) : json :=
  match v with
  | PNone => JNull
  | PBool b => JBool b
  | PInt z => JInt z
  | PStr s => JString s
  | PDatetime d => JString (datetime.str d)
  | PList l => JArray (List.map json_dumps l)
  | PDict kv => JObject (List.map (fun kx => (fst kx, json_dumps (snd kx))) kv)
  end.

(** [json.loads] *)
Fixpoint json_loads (j : json) : pyval :=
  match j with
  | JNull => PNone
  | JBool b => PBool b
  | JInt z => PInt z
  | JString s => PStr s
  | JArray l => PList (List.map json_loads l)
  | JObject kv => PDict (List.map (fun kx => (fst kx, json_loads (snd kx))) kv)
  end.

Definition opt_val {A} (f : A -> pyval) (o : option A) : pyval :=
  match o with
  | Some a => f a
  | None => PNone
  end.

Definition str_list (l : list string) : pyval := PList (List.map PStr l).
Definition dict_list (l : list pydict) : pyval := PList (List.map PDict l).

(* ===================================================================== *)
(** * [core/metadata.py]: the dataclasses                                 *)
(* ===================================================================== *)

Module WorkbookMetadata.
Record t := mk {
  id : string;
  name : string;
  description : option string;
  project_id : string;
  project_name : string;
  owner_id : string;
  owner_name : string;
  created_at : option datetime.t;
  updated_at : option datetime.t;
  size : option Z;
  webpage_url : option string;
  show_tabs : option bool;
  content_url : option string;
  views : list pydict;
  connections : list pydict;
  tags : list string;
  lineage : option pydict
}.

(** [dataclasses.asdict] *)
Definition asdict (w : t) : pyval :=
  PDict [("id", PStr (id w)); ("name", PStr (name w));
         ("description", opt_val PStr (description w));
         ("project_id", PStr (project_id w));
         ("project_name", PStr (project_name w));
         ("owner_id", PStr (owner_id w));
         ("owner_name", PStr (owner_name w));
         ("created_at", opt_val PDatetime (created_at w));
         ("updated_at", opt_val PDatetime (updated_at w));
         ("size", opt_val PInt (size w));
         ("webpage_url", opt_val PStr (webpage_url w));
         ("show_tabs", opt_val PBool (show_tabs w));
         ("content_url", opt_val PStr (content_url w));
         ("views", dict_list (views w));
         ("connections", dict_list (connections w));
         ("tags", str_list (tags w));
         ("lineage", opt_val PDict (lineage w))].
End WorkbookMetadata.

Module DatasourceMetadata.
Record t := mk {
  id : string;
  name : string;
  description : option string;
  project_id : string;
  project_name : string;
  owner_id : string;
  owner_name : string;
  created_at : option datetime.t;
  updated_at : option datetime.t;
  size : option Z;
  webpage_url : option string;
  content_url : option string;
  connections : list pydict;
  tags : list string;
  lineage : option pydict
}.

Definition asdict (d : t) : pyval :=
  PDict [("id", PStr (id d)); ("name", PStr (name d));
         ("description", opt_val PStr (description d));
         ("project_id", PStr (project_id d));
         ("project_name", PStr (project_name d));
         ("owner_id", PStr (owner_id d));
         ("owner_name", PStr (owner_name d));
         ("created_at", opt_val PDatetime (created_at d));
         ("updated_at", opt_val PDatetime (updated_at d));
         ("size", opt_val PInt (size d));
         ("webpage_url", opt_val PStr (webpage_url d));
         ("content_url", opt_val PStr (content_url d));
         ("connections", dict_list (connections d));
         ("tags", str_list (tags d));
         ("lineage", opt_val PDict (lineage d))].
End DatasourceMetadata.

Module ProjectMetadata.
Record t := mk {
  id : string;
  name : string;
  description : option string;
  parent_id : option string;
  content_permissions : option string;
  created_at : option datetime.t;
  updated_at : option datetime.t;
  workbook_count : Z;
  datasource_count : Z;
  flow_count : Z
}.

Definition asdict (p : t) : pyval :=
  PDict [("id", PStr (id p)); ("name", PStr (name p));
         ("description", opt_val PStr (description p));
         ("parent_id", opt_val PStr (parent_id p));
         ("content_permissions", opt_val PStr (content_permissions p));
         ("created_at", opt_val PDatetime (created_at p));
         ("updated_at", opt_val PDatetime (updated_at p));
         ("workbook_count", PInt (workbook_count p));
         ("datasource_count", PInt (datasource_count p));
         ("flow_count", PInt (flow_count p))].
End ProjectMetadata.

Module FlowMetadata.
Record t := mk {
  id : string;
  name : string;
  description : option string;
  project_id : string;
  project_name : string;
  owner_id : string;
  owner_name : string;
  created_at : option datetime.t;
  updated_at : option datetime.t;
  webpage_url : option string;
  tags : list string
}.

Definition asdict (f : t) : pyval :=
  PDict [("id", PStr (id f)); ("name", PStr (name f));
         ("description", opt_val PStr (description f));
         ("project_id", PStr (project_id f));
         ("project_name", PStr (project_name f));
         ("owner_id", PStr (owner_id f));
         ("owner_name", PStr (owner_name f));
         ("created_at", opt_val PDatetime (created_at f));
         ("updated_at", opt_val PDatetime (updated_at f));
         ("webpage_url", opt_val PStr (webpage_url f));
         ("tags", str_list (tags f))].
End FlowMetadata.

Module ServerMetadata.
Record t := mk {
  server_url : string;
  version : string;
  rest_api_version : string;
  site_id : string;
  site_name : string;
  timestamp : datetime.t;
  workbooks : list WorkbookMetadata.t;
  datasources : list DatasourceMetadata.t;
  projects : list ProjectMetadata.t;
  flows : list FlowMetadata.t
}.

Definition asdict (m : t) : pyval :=
  PDict [("server_url", PStr (server_url m));
         ("version", PStr (version m));
         ("rest_api_version", PStr (rest_api_version m));
         ("site_id", PStr (site_id m));
         ("site_name", PStr (site_name m));
         ("timestamp", PDatetime (timestamp m));
         ("workbooks", PList (List.map WorkbookMetadata.asdict (workbooks m)));
         ("datasources", PList (List.map DatasourceMetadata.asdict (datasources m)));
         ("projects", PList (List.map ProjectMetadata.asdict (projects m)));
         ("flows", PList (List.map FlowMetadata.asdict (flows m)))].
End ServerMetadata.

(* ===================================================================== *)
(** * [core/metadata.py]: [MetadataProcessor]                             *)
(* ===================================================================== *)

(** [x in names] for a list of strings. *)
Definition str_in (x : string) (names : list string) : bool :=
  existsb (String.eqb x) names.

(** [sorted(l, key=key, reverse=True)] for [datetime] keys: a stable sort
    into descending key order that only asks [<] of two keys, and raises
    what that comparison raises. *)
Fixpoint insert_reverse {A} (key : A -> datetime.t) (x : A) (l : list A)
    : result (list A) :=
  match l with
  | [] => Ok [x]
  | y :: l' =>
      b <- datetime.lt (key x) (key y) ;;
      if b then (r <- insert_reverse key x l' ;; Ok (y :: r))
      else Ok (x :: y :: l')
  end.

Fixpoint sorted_reverse {A} (key : A -> datetime.t) (l : list A)
    : result (list A) :=
  match l with
  | [] => Ok []
  | x :: l' => s <- sorted_reverse key l' ;; insert_reverse key x s
  end.

Module MetadataProcessor.

(** The filter dictionary, restricted to the four keys [filter_metadata]
    reads.  A key is in the dictionary when its field is [Some]; its value
    is of the type the callers pass: a list of strings, or a datetime for
    [updated_since]. *)
Record filters := mk_filters {
  project_names : option (list string);
  owner_names : option (list string);
  tags : option (list string);
  updated_since : option datetime.t
}.

(** [any(tag in own for tag in tags)] *)
Definition any_tag_in (tags own : list string) : bool :=
  existsb (fun tag => str_in tag own) tags.

(** [x.updated_at and x.updated_at >= updated_since] as a condition. *)
Definition updated_ge (u : option datetime.t) (since : datetime.t) : result bool :=
  match u with
  | None => Ok false
  | Some d => datetime.ge d since
  end.

Definition filter_metadata (metadata : ServerMetadata.t) (f : filters)
    : result ServerMetadata.t :=
  reraise_as MetadataError "Failed to filter metadata: "
    (let filtered_workbooks := ServerMetadata.workbooks metadata in
     let filtered_datasources := ServerMetadata.datasources metadata in
     let filtered_projects := ServerMetadata.projects metadata in
     let filtered_flows := ServerMetadata.flows metadata in
     let '(filtered_workbooks, filtered_datasources, filtered_projects,
           filtered_flows) :=
       match project_names f with
       | Some names =>
           (List.filter (fun wb => str_in (WorkbookMetadata.project_name wb) names)
              filtered_workbooks,
            List.filter (fun ds => str_in (DatasourceMetadata.project_name ds) names)
              filtered_datasources,
            List.filter (fun p => str_in (ProjectMetadata.name p) names)
              filtered_projects,
            List.filter (fun fl => str_in (FlowMetadata.project_name fl) names)
              filtered_flows)
       | None =>
           (filtered_workbooks, filtered_datasources, filtered_projects,
            filtered_flows)
       end in
     let '(filtered_workbooks, filtered_datasources, filtered_flows) :=
       match owner_names f with
       | Some names =>
           (List.filter (fun wb => str_in (WorkbookMetadata.owner_name wb) names)
              filtered_workbooks,
            List.filter (fun ds => str_in (DatasourceMetadata.owner_name ds) names)
              filtered_datasources,
            List.filter (fun fl => str_in (FlowMetadata.owner_name fl) names)
              filtered_flows)
       | None => (filtered_workbooks, filtered_datasources, filtered_flows)
       end in
     let '(filtered_workbooks, filtered_datasources, filtered_flows) :=
       match tags f with
       | Some tags =>
           (List.filter (fun wb => any_tag_in tags (WorkbookMetadata.tags wb))
              filtered_workbooks,
            List.filter (fun ds => any_tag_in tags (DatasourceMetadata.tags ds))
              filtered_datasources,
            List.filter (fun fl => any_tag_in tags (FlowMetadata.tags fl))
              filtered_flows)
       | None => (filtered_workbooks, filtered_datasources, filtered_flows)
       end in
     r <- match updated_since f with
          | Some since =>
              wbs <- rfilter (fun wb => updated_ge (WorkbookMetadata.updated_at wb) since)
                       filtered_workbooks ;;
              dss <- rfilter (fun ds => updated_ge (DatasourceMetadata.updated_at ds) since)
                       filtered_datasources ;;
              fls <- rfilter (fun fl => updated_ge (FlowMetadata.updated_at fl) since)
                       filtered_flows ;;
              Ok (wbs, dss, fls)
          | None => Ok (filtered_workbooks, filtered_datasources, filtered_flows)
          end ;;
     let '(filtered_workbooks, filtered_datasources, filtered_flows) := r in
     Ok (ServerMetadata.mk
           (ServerMetadata.server_url metadata)
           (ServerMetadata.version metadata)
           (ServerMetadata.rest_api_version metadata)
           (ServerMetadata.site_id metadata)
           (ServerMetadata.site_name metadata)
           (ServerMetadata.timestamp metadata)
           filtered_workbooks filtered_datasources filtered_projects
           filtered_flows)).

Definition metadata_to_dict (metadata : ServerMetadata.t) : result pyval :=
  reraise_as MetadataError "Failed to convert metadata to dict: "
    (Ok (ServerMetadata.asdict metadata)).

(** The JSON document that [metadata_to_json] writes out as text. *)
Definition metadata_to_json (metadata : ServerMetadata.t) : result json :=
  reraise_as MetadataError "Failed to convert metadata to JSON: "
    (data <- metadata_to_dict metadata ;;
     Ok (json_dumps data)).

(** One entry of a recent-updates list. *)
Definition update_entry (name : string) (updated_at : option datetime.t) : pyval :=
  PDict [("name", PStr name);
         ("updated_at", opt_val (fun d => PStr (datetime.isoformat d)) updated_at)].

Definition len {A} (l : list A) : pyval := PInt (Z.of_nat (length l)).

Definition get_metadata_summary (metadata : ServerMetadata.t) : result pyval :=
  reraise_as MetadataError "Failed to generate metadata summary: "
    (wbs <- sorted_reverse
              (fun x => default datetime.min (WorkbookMetadata.updated_at x))
              (ServerMetadata.workbooks metadata) ;;
     dss <- sorted_reverse
              (fun x => default datetime.min (DatasourceMetadata.updated_at x))
              (ServerMetadata.datasources metadata) ;;
     Ok (PDict
       [("server_url", PStr (ServerMetadata.server_url metadata));
        ("site_name", PStr (ServerMetadata.site_name metadata));
        ("timestamp", PStr (datetime.isoformat (ServerMetadata.timestamp metadata)));
        ("counts", PDict
           [("workbooks", len (ServerMetadata.workbooks metadata));
            ("datasources", len (ServerMetadata.datasources metadata));
            ("projects", len (ServerMetadata.projects metadata));
            ("flows", len (ServerMetadata.flows metadata))]);
        ("projects", PList (List.map
           (fun p => PDict [("name", PStr (ProjectMetadata.name p));
                            ("id", PStr (ProjectMetadata.id p))])
           (ServerMetadata.projects metadata)));
        ("recent_updates", PDict
           [("workbooks", PList (List.map
               (fun wb => update_entry (WorkbookMetadata.name wb)
                                       (WorkbookMetadata.updated_at wb))
               (take 5 wbs)));
            ("datasources", PList (List.map
               (fun ds => update_entry (DatasourceMetadata.name ds)
                                       (DatasourceMetadata.updated_at ds))
               (take 5 dss)))])])).

End MetadataProcessor.

(* ===================================================================== *)
(** * Stateful code: a state monad over [result]                          *)
(* ===================================================================== *)

(** A computation that reads and updates a state [S] and returns or
    raises.  The state reached is kept when it raises: what was written
    before the exception stays written. *)
Definition st (S A : Type) : Type := S -> result A * S.

Definition sret {S A} (a : A) : st S A := fun s => (Ok a, s).
Definition sraise {S A} (e : exn) : st S A := fun s => (Raise e, s).
Definition sbind {S A B} (m : st S A) (k : A -> st S B) : st S B :=
  fun s => match m s with
           | (Ok a, s') => k a s'
           | (Raise e, s') => (Raise e, s')
           end.
Definition lift {S A} (r : result A) : st S A := fun s => (r, s).

Notation "x <-- m ;; k" := (sbind m (fun x => k))
  (at level 100, m at next level, right associativity).

(** [try: m  except Exception as e: raise cls(prefix + str(e))] *)
Definition try_reraise {S A} (cls : exc_class) (prefix : string)
    (m : st S A) : st S A :=
  fun s => let '(r, s') := m s in (reraise_as cls prefix r, s').

(* ===================================================================== *)
(** * Strings and paths                                                   *)
(* ===================================================================== *)

(** [s.replace(old, new)] for a one-character [old]. *)
Fixpoint str_replace (old : ascii) (new : string) (s : string) : string :=
  match s with
  | EmptyString => EmptyString
  | String c s' =>
      if Ascii.eqb c old then new +:+ str_replace old new s'
      else String c (str_replace old new s')
  end.

(** [s.endswith(suffix)] *)
Definition endswith (s suffix : string) : bool :=
  let n := String.length s in
  let k := String.length suffix in
  (k <=? n)%nat && String.eqb (substring (n - k) k s) suffix.

Definition lower_char (c : ascii) : ascii :=
  let n := N_of_ascii c in
  if ((65 <=? n) && (n <=? 90))%N then ascii_of_N (n + 32) else c.

(** [s.lower()] on ASCII text. *)
Fixpoint lower (s : string) : string :=
  match s with
  | EmptyString => EmptyString
  | String c s' => String (lower_char c) (lower s')
  end.

(** [sep.join(l)] *)
Definition join (sep : string) (l : list string) : string :=
  String.concat sep l.

(** [Path(base) / p]: an absolute right operand replaces the left one. *)
Definition path_join (base p : string) : string :=
  if String.prefix "/" p then p else base +:+ "/" +:+ p.

Fixpoint dirname_chars (l : list ascii) : option (list ascii) :=
  match l with
  | [] => None
  | c :: l' =>
      match dirname_chars l' with
      | Some d => Some (c :: d)
      | None => if Ascii.eqb c "/" then Some [] else None
      end
  end.

(** [Path(p).parent]: the text before the last ['/']. *)
Definition path_parent (p : string) : string :=
  match dirname_chars (list_ascii_of_string p) with
  | Some [] => "/"
  | Some d => string_of_list_ascii d
  | None => "."
  end.

(* ===================================================================== *)
(** * The local file system                                               *)
(* ===================================================================== *)

Module fs.

(** What a regular file holds: the text of a JSON document, the gzip
    stream of such a text, or the rows handed to a [csv] writer (each cell
    is the value given to the writer, which prints it with [str]). *)
Inductive content :=
  | TextJson (doc : json)
  | GzipJson (doc : json)
  | CsvRows (rows : list (list pyval)).

Inductive node :=
  | File (c : content)
  | Dir.

(** The state: the nodes by path. *)
Abbreviation t := (gmap string node).

(** [Path.exists()] *)
Definition exists_ (p : string) : st t bool :=
  fun s => (Ok (bool_decide (is_Some (s !! p))), s).

(** The working directory and the root are always there. *)
Definition is_root (p : string) : bool :=
  String.eqb p "." || String.eqb p "/".

(** What a path names. *)
Definition lookup (s : t) (p : string) : option node :=
  if is_root p then Some Dir else s !! p.

Definition dir_at (s : t) (p : string) : bool :=
  match lookup s p with
  | Some Dir => true
  | _ => false
  end.

Definition file_at (s : t) (p : string) : bool :=
  match lookup s p with
  | Some (File _) => true
  | _ => false
  end.

(** [Path.mkdir(parents=True, exist_ok=True)], as [pathlib] does it.
    [os.mkdir(p)] raises [FileExistsError] when [p] is there, which is let
    pass when [p] is a directory; it raises [NotADirectoryError] when the
    parent is a regular file; when the parent is missing it raises
    [FileNotFoundError], on which the parent is made in the same way and
    [os.mkdir(p)] is called again.  [fuel] bounds the parents made; the
    length of the path is enough.  The three errors are [OSError]s. *)
Fixpoint mkdir_parents (fuel : nat) (p : string) : st t unit :=
  fun s =>
    match lookup s p with
    | Some Dir => (Ok tt, s)
    | Some (File _) => (Raise (Exn OSError ("File exists: " +:+ repr_str p)), s)
    | None =>
        match lookup s (path_parent p) with
        | Some Dir => (Ok tt, <[p := Dir]> s)
        | Some (File _) =>
            (Raise (Exn OSError ("Not a directory: " +:+ repr_str p)), s)
        | None =>
            match fuel with
            | O => (Raise (Exn OSError ("No such file or directory: "
                                        +:+ repr_str p)), s)
            | S fuel' =>
                match mkdir_parents fuel' (path_parent p) s with
                | (Ok _, s') => (Ok tt, <[p := Dir]> s')
                | (Raise e, s') => (Raise e, s')
                end
            end
        end
    end.

Definition mkdir (p : string) : st t unit :=
  mkdir_parents (String.length p) p.



(** [open(p, "w")], write [c], close: creates or truncates the file.  The
    parent must be a directory: [FileNotFoundError] when it is missing,
    [NotADirectoryError] when it is a regular file. *)
Definition write_file (p : string) (c : content) : st t unit :=
  fun s =>
    match lookup s p with
    | Some Dir => (Raise (Exn OSError ("Is a directory: " +:+ repr_str p)), s)
    | _ =>
        match lookup s (path_parent p) with
        | Some Dir => (Ok tt, <[p := File c]> s)
        | Some (File _) =>
            (Raise (Exn OSError ("Not a directory: " +:+ repr_str p)), s)
        | None =>
            (Raise (Exn OSError ("No such file or directory: " +:+ repr_str p)), s)
        end
    end.

(** [open(p, "r")] *)
Definition open_read (p : string) : st t content :=
  fun s => match s !! p with
           | Some (File c) => (Ok c, s)
           | Some Dir => (Raise (Exn OSError ("Is a directory: " +:+ repr_str p)), s)
           | None => (Raise (Exn OSError ("No such file or directory: " +:+ repr_str p)), s)
           end.

(** [Path.unlink()] *)
Definition unlink (p : string) : st t unit :=
  fun s => match s !! p with
           | Some (File _) => (Ok tt, delete p s)
           | Some Dir => (Raise (Exn OSError ("Is a directory: " +:+ repr_str p)), s)
           | None => (Raise (Exn OSError ("No such file or directory: " +:+ repr_str p)), s)
           end.

(** [json.loads(f.read())] on a file opened as UTF-8 text. *)
Definition loads_text (c : content) : result pyval :=
  match c with
  | TextJson doc => Ok (json_loads doc)
  | GzipJson _ =>
      Raise (Exn ValueError "'utf-8' codec can't decode byte 0x8b in position 1: invalid start byte")
  | CsvRows _ => Raise (Exn ValueError "Expecting value: line 1 column 1 (char 0)")
  end.

(** [json.loads(f.read())] on a file opened with [gzip.open(p, "rt")]. *)
Definition loads_gzip (c : content) : result pyval :=
  match c with
  | GzipJson doc => Ok (json_loads doc)
  | _ => Raise (Exn OSError "Not a gzipped file")
  end.

End fs.

(* ===================================================================== *)
(** * [core/storage.py]: [LocalStorage]                                   *)
(* ===================================================================== *)

(** The objects [_dict_to_metadata] builds.  Python checks no annotation
    at run time, so a field holds whatever value the document held. *)
Module Loaded.

Record WorkbookMetadata := mk_workbook {
  id : pyval;
  name : pyval;
  description : pyval;
  project_id : pyval;
  project_name : pyval;
  owner_id : pyval;
  owner_name : pyval;
  created_at : pyval;
  updated_at : pyval;
  size : pyval;
  webpage_url : pyval;
  show_tabs : pyval;
  content_url : pyval;
  views : pyval;
  connections : pyval;
  tags : pyval;
  lineage : pyval
}.

Record ServerMetadata := mk_server {
  server_url : pyval;
  version : pyval;
  rest_api_version : pyval;
  site_id : pyval;
  site_name : pyval;
  timestamp : pyval;
  workbooks : list WorkbookMetadata;
  datasources : list DatasourceMetadata.t;
  projects : list ProjectMetadata.t;
  flows : list FlowMetadata.t
}.

End Loaded.

(** [for x in v]: the items of a list, the keys of a dict, the characters
    of a string. *)
Definition iter (v : pyval) : result (list pyval) :=
  match v with
  | PList l => Ok l
  | PDict kv => Ok (List.map (fun kx => PStr (fst kx)) kv)
  | PStr s => Ok (List.map (fun c => PStr (String c EmptyString)) (list_ascii_of_string s))
  | _ => Raise (Exn TypeError "object is not iterable")
  end.

Module LocalStorage.

Record t := mk { base_path : string }.

(** The nested helper of [_dict_to_metadata]. *)
Definition parse_datetime (date_str : pyval) : result pyval :=
  if truthy date_str then
    match date_str with
    | PStr s =>
        d <- datetime.fromisoformat (str_replace "Z" "+00:00" s) ;;
        Ok (PDatetime d)
    | PDatetime _ =>
        Raise (Exn TypeError "'str' object cannot be interpreted as an integer")
    | _ => Raise (Exn AttributeError "object has no attribute 'replace'")
    end
  else Ok PNone.

Definition workbook_from_dict (wb_data : pyval) : result Loaded.WorkbookMetadata :=
  id <- getitem wb_data "id" ;;
  name <- getitem wb_data "name" ;;
  description <- get_default wb_data "description" PNone ;;
  project_id <- getitem wb_data "project_id" ;;
  project_name <- getitem wb_data "project_name" ;;
  owner_id <- getitem wb_data "owner_id" ;;
  owner_name <- getitem wb_data "owner_name" ;;
  created_at <- (v <- get_default wb_data "created_at" PNone ;; parse_datetime v) ;;
  updated_at <- (v <- get_default wb_data "updated_at" PNone ;; parse_datetime v) ;;
  size <- get_default wb_data "size" PNone ;;
  webpage_url <- get_default wb_data "webpage_url" PNone ;;
  show_tabs <- get_default wb_data "show_tabs" PNone ;;
  content_url <- get_default wb_data "content_url" PNone ;;
  views <- get_default wb_data "views" (PList []) ;;
  connections <- get_default wb_data "connections" (PList []) ;;
  tags <- get_default wb_data "tags" (PList []) ;;
  lineage <- get_default wb_data "lineage" PNone ;;
  Ok (Loaded.mk_workbook id name description project_id project_name
        owner_id owner_name created_at updated_at size webpage_url show_tabs
        content_url views connections tags lineage).

Definition _dict_to_metadata (data : pyval) : result Loaded.ServerMetadata :=
  wbs_data <- (v <- get_default data "workbooks" (PList []) ;; iter v) ;;
  workbooks <- rmap workbook_from_dict wbs_data ;;
  let datasources := [] in
  let projects := [] in
  let flows := [] in
  server_url <- getitem data "server_url" ;;
  version <- getitem data "version" ;;
  rest_api_version <- getitem data "rest_api_version" ;;
  site_id <- getitem data "site_id" ;;
  site_name <- getitem data "site_name" ;;
  timestamp <- (v <- getitem data "timestamp" ;; parse_datetime v) ;;
  Ok (Loaded.mk_server server_url version rest_api_version site_id site_name
        timestamp workbooks datasources projects flows).

Definition _get_workbook_fields : list string :=
  ["id"; "name"; "description"; "project_id"; "project_name"; "owner_id";
   "owner_name"; "created_at"; "updated_at"; "size"; "webpage_url";
   "show_tabs"; "content_url"; "tags"].

Definition _get_datasource_fields : list string :=
  ["id"; "name"; "description"; "project_id"; "project_name"; "owner_id";
   "owner_name"; "created_at"; "updated_at"; "size"; "webpage_url";
   "content_url"; "tags"].

Definition _get_project_fields : list string :=
  ["id"; "name"; "description"; "parent_id"; "content_permissions";
   "created_at"; "updated_at"; "workbook_count"; "datasource_count";
   "flow_count"].

(** [d.isoformat() if d else ""] *)
Definition iso_or_empty (d : option datetime.t) : pyval :=
  PStr (match d with Some x => datetime.isoformat x | None => "" end).

(** [",".join(tags) if tags else ""] *)
Definition tags_cell (tags : list string) : pyval :=
  PStr (match tags with [] => "" | _ => join "," tags end).

(** [s or ""] for an optional string. *)
Definition str_or_empty (s : option string) : pyval := PStr (default "" s).

Definition _workbook_to_row (wb : WorkbookMetadata.t) : pydict :=
  [("id", PStr (WorkbookMetadata.id wb));
   ("name", PStr (WorkbookMetadata.name wb));
   ("description", str_or_empty (WorkbookMetadata.description wb));
   ("project_id", PStr (WorkbookMetadata.project_id wb));
   ("project_name", PStr (WorkbookMetadata.project_name wb));
   ("owner_id", PStr (WorkbookMetadata.owner_id wb));
   ("owner_name", PStr (WorkbookMetadata.owner_name wb));
   ("created_at", iso_or_empty (WorkbookMetadata.created_at wb));
   ("updated_at", iso_or_empty (WorkbookMetadata.updated_at wb));
   ("size", PInt (default 0 (WorkbookMetadata.size wb)));
   ("webpage_url", str_or_empty (WorkbookMetadata.webpage_url wb));
   ("show_tabs", PBool (default false (WorkbookMetadata.show_tabs wb)));
   ("content_url", str_or_empty (WorkbookMetadata.content_url wb));
   ("tags", tags_cell (WorkbookMetadata.tags wb))].

Definition _datasource_to_row (ds : DatasourceMetadata.t) : pydict :=
  [("id", PStr (DatasourceMetadata.id ds));
   ("name", PStr (DatasourceMetadata.name ds));
   ("description", str_or_empty (DatasourceMetadata.description ds));
   ("project_id", PStr (DatasourceMetadata.project_id ds));
   ("project_name", PStr (DatasourceMetadata.project_name ds));
   ("owner_id", PStr (DatasourceMetadata.owner_id ds));
   ("owner_name", PStr (DatasourceMetadata.owner_name ds));
   ("created_at", iso_or_empty (DatasourceMetadata.created_at ds));
   ("updated_at", iso_or_empty (DatasourceMetadata.updated_at ds));
   ("size", PInt (default 0 (DatasourceMetadata.size ds)));
   ("webpage_url", str_or_empty (DatasourceMetadata.webpage_url ds));
   ("content_url", str_or_empty (DatasourceMetadata.content_url ds));
   ("tags", tags_cell (DatasourceMetadata.tags ds))].

Definition _project_to_row (p : ProjectMetadata.t) : pydict :=
  [("id", PStr (ProjectMetadata.id p));
   ("name", PStr (ProjectMetadata.name p));
   ("description", str_or_empty (ProjectMetadata.description p));
   ("parent_id", str_or_empty (ProjectMetadata.parent_id p));
   ("content_permissions", str_or_empty (ProjectMetadata.content_permissions p));
   ("created_at", iso_or_empty (ProjectMetadata.created_at p));
   ("updated_at", iso_or_empty (ProjectMetadata.updated_at p));
   ("workbook_count", PInt (ProjectMetadata.workbook_count p));
   ("datasource_count", PInt (ProjectMetadata.datasource_count p));
   ("flow_count", PInt (ProjectMetadata.flow_count p))].

(** [csv.DictWriter(f, fieldnames).writerow(row)]: the cells in field
    order, [""] for a missing key, [ValueError] for a key that is no field. *)
Definition dict_writer_row (fieldnames : list string) (row : pydict)
    : result (list pyval) :=
  if forallb (fun kx => str_in (fst kx) fieldnames) row
  then Ok (List.map (fun k => default (PStr "") (dict_get k row)) fieldnames)
  else Raise (Exn ValueError "dict contains fields not in fieldnames").

(** The [for x in items: writer.writerow(to_row(x))] loop: the rows written,
    and the exception that stopped the loop, if any. *)
Fixpoint writerows {A} (to_cells : A -> result (list pyval)) (items : list A)
    : list (list pyval) * option exn :=
  match items with
  | [] => ([], None)
  | x :: items' =>
      match to_cells x with
      | Ok r => let '(rs, e) := writerows to_cells items' in (r :: rs, e)
      | Raise e => ([], Some e)
      end
  end.

(** One [with open(p, "w") ...] block of [_save_as_csv]: the file is
    created even for an empty list, and is then left empty. *)
Definition write_csv {A} (p : string) (fieldnames : list string)
    (to_row : A -> pydict) (items : list A) : st fs.t unit :=
  match items with
  | [] => fs.write_file p (fs.CsvRows [])
  | _ =>
      let '(rows, err) :=
        writerows (fun x => dict_writer_row fieldnames (to_row x)) items in
      _ <-- fs.write_file p (fs.CsvRows (List.map PStr fieldnames :: rows)) ;;
      match err with
      | Some e => sraise e
      | None => sret tt
      end
  end.

Definition _save_as_csv (metadata : ServerMetadata.t) (base_path : string)
    : st fs.t unit :=
  _ <-- fs.mkdir base_path ;;
  _ <-- write_csv (path_join base_path "workbooks.csv") _get_workbook_fields
          _workbook_to_row (ServerMetadata.workbooks metadata) ;;
  _ <-- write_csv (path_join base_path "datasources.csv") _get_datasource_fields
          _datasource_to_row (ServerMetadata.datasources metadata) ;;
  write_csv (path_join base_path "projects.csv") _get_project_fields
    _project_to_row (ServerMetadata.projects metadata).

Definition save_metadata (self : t) (metadata : ServerMetadata.t)
    (path format : string) : st fs.t string :=
  try_reraise StorageError "Failed to save metadata locally: "
    (let file_path := path_join (base_path self) path in
     _ <-- fs.mkdir (path_parent file_path) ;;
     _ <-- (if String.eqb (lower format) "json" then
              content <-- lift (MetadataProcessor.metadata_to_json metadata) ;;
              fs.write_file file_path (fs.TextJson content)
            else if String.eqb (lower format) "json.gz" then
              content <-- lift (MetadataProcessor.metadata_to_json metadata) ;;
              fs.write_file file_path (fs.GzipJson content)
            else if String.eqb (lower format) "csv" then
              _save_as_csv metadata file_path
            else sraise (Exn StorageError ("Unsupported format: " +:+ format))) ;;
     sret file_path).

Definition load_metadata (self : t) (path : string)
    : st fs.t Loaded.ServerMetadata :=
  try_reraise StorageError "Failed to load metadata locally: "
    (let file_path := path_join (base_path self) path in
     found <-- fs.exists_ file_path ;;
     if negb found then
       sraise (Exn StorageError ("Metadata file not found: " +:+ file_path))
     else
       c <-- fs.open_read file_path ;;
       data <-- lift (if endswith path ".gz" then fs.loads_gzip c
                      else fs.loads_text c) ;;
       lift (_dict_to_metadata data)).

Definition delete_metadata (self : t) (path : string) : st fs.t bool :=
  try_reraise StorageError "Failed to delete metadata file: "
    (let file_path := path_join (base_path self) path in
     found <-- fs.exists_ file_path ;;
     if found then
       _ <-- fs.unlink file_path ;;
       sret true
     else sret false).

End LocalStorage.

(* ===================================================================== *)
(** * [core/storage.py]: [S3Storage]                                      *)
(* ===================================================================== *)

(** The object store behind the [boto3] client. *)
Module s3.

Record object := mk_object {
  body : fs.content;
  content_type : string;
  content_encoding : option string
}.

(** The objects by bucket and key, and the error, if any, with which the
    service answers a request (no credentials, no such bucket, outage). *)
Record t := mk {
  objects : gmap (string * string) object;
  failing : option exn
}.

(** [s3_client.delete_object(Bucket=b, Key=k)]: the service answers a
    delete of a key that holds no object like any other delete. *)
Definition delete_object (b k : string) : st t unit :=
  fun s => match failing s with
           | Some e => (Raise e, s)
           | None => (Ok tt, mk (delete (b, k) (objects s)) None)
           end.

End s3.

Module S3Storage.

Record t := mk { bucket_name : string; prefix : string }.

Definition delete_metadata (self : t) (path : string) : st s3.t bool :=
  try_reraise StorageError "Failed to delete metadata file from S3: "
    (let s3_key := prefix self +:+ path in
     _ <-- s3.delete_object (bucket_name self) s3_key ;;
     sret true).

End S3Storage.

(* ===================================================================== *)
(** * [core/auth.py]                                                      *)
(* ===================================================================== *)

Inductive AuthMethod := PERSONAL_ACCESS_TOKEN | USERNAME_PASSWORD | JWT.

Global Instance AuthMethod_eq_dec : EqDecision AuthMethod.
Proof. solve_decision. Defined.

Module AuthConfig.
Record t := mk {
  server_url : string;
  site_id : string;
  auth_method : AuthMethod;
  token_name : option string;
  token_value : option string;
  username : option string;
  password : option string;
  jwt_token : option string
}.
End AuthConfig.

(** Truth value of what [os.getenv] returns: [None] and [""] are false. *)
Definition str_truthy (o : option string) : bool :=
  match o with
  | Some s => negb (String.eqb s "")
  | None => false
  end.

(** The process environment, and [os.getenv(name)]. *)
Definition getenv (environ : gmap string string) (name : string) : option string :=
  environ !! name.

Definition create_auth_config_from_env (environ : gmap string string)
    : result AuthConfig.t :=
  let server_url := getenv environ "TABLEAU_SERVER_URL" in
  if negb (str_truthy server_url) then
    Raise (Exn ConfigurationError "TABLEAU_SERVER_URL environment variable required")
  else
    let server_url := default "" server_url in
    let site_id := default "" (getenv environ "TABLEAU_SITE_ID") in
    let token_name := getenv environ "TABLEAU_TOKEN_NAME" in
    let token_value := getenv environ "TABLEAU_TOKEN_VALUE" in
    if str_truthy token_name && str_truthy token_value then
      Ok (AuthConfig.mk server_url site_id PERSONAL_ACCESS_TOKEN
            token_name token_value None None None)
    else
      let username := getenv environ "TABLEAU_USERNAME" in
      let password := getenv environ "TABLEAU_PASSWORD" in
      if str_truthy username && str_truthy password then
        Ok (AuthConfig.mk server_url site_id USERNAME_PASSWORD
              None None username password None)
      else
        let jwt_token := getenv environ "TABLEAU_JWT_TOKEN" in
        if str_truthy jwt_token then
          Ok (AuthConfig.mk server_url site_id JWT
                None None None None jwt_token)
        else
          Raise (Exn ConfigurationError
                   "No valid authentication credentials found in environment variables").

(** The vendor SDK's server handle and the service it talks to. *)
Module TSC.

Inductive auth_object :=
  | PersonalAccessTokenAuth (token_name token_value site_id : string)
  | TableauAuth (username password site_id : string)
  | JWTAuth (jwt : string).

Inductive request :=
  | SignIn (a : auth_object)
  | SignOut.

(** The handle holds the session token; the service is given by the
    requests sent so far and by its answer to the n-th request: the new
    session token, or the exception the SDK raises. *)
Record Server := mk {
  server_address : string;
  auth_token : option string;
  sent : list request;
  reply : nat -> result string
}.

Definition post (r : request) : st Server string :=
  fun s => (reply s (length (sent s)),
            mk (server_address s) (auth_token s) (sent s ++ [r]) (reply s)).

Definition set_auth (tok : option string) : st Server unit :=
  fun s => (Ok tt, mk (server_address s) tok (sent s) (reply s)).

(** [server.is_signed_in()] *)
Definition is_signed_in : st Server bool :=
  fun s => (Ok (bool_decide (is_Some (auth_token s))), s).

(** [server.auth.sign_in(auth)] *)
Definition sign_in (a : auth_object) : st Server unit :=
  tok <-- post (SignIn a) ;;
  set_auth (Some tok).

(** [server.auth.sign_out()] *)
Definition sign_out : st Server unit :=
  b <-- is_signed_in ;;
  if b then (_ <-- post SignOut ;; set_auth None) else sret tt.

End TSC.

Module TableauAuthenticator.

Record t := mk { config : AuthConfig.t }.

Definition create_auth_object (self : t) : result TSC.auth_object :=
  let c := config self in
  match AuthConfig.auth_method c with
  | PERSONAL_ACCESS_TOKEN =>
      if negb (str_truthy (AuthConfig.token_name c))
         || negb (str_truthy (AuthConfig.token_value c))
      then Raise (Exn AuthenticationError
                    "Token name and value required for PAT authentication")
      else Ok (TSC.PersonalAccessTokenAuth
                 (default "" (AuthConfig.token_name c))
                 (default "" (AuthConfig.token_value c))
                 (AuthConfig.site_id c))
  | USERNAME_PASSWORD =>
      if negb (str_truthy (AuthConfig.username c))
         || negb (str_truthy (AuthConfig.password c))
      then Raise (Exn AuthenticationError
                    "Username and password required for credential authentication")
      else Ok (TSC.TableauAuth
                 (default "" (AuthConfig.username c))
                 (default "" (AuthConfig.password c))
                 (AuthConfig.site_id c))
  | JWT =>
      if negb (str_truthy (AuthConfig.jwt_token c))
      then Raise (Exn AuthenticationError "JWT token required for JWT authentication")
      else Ok (TSC.JWTAuth (default "" (AuthConfig.jwt_token c)))
  end.

(** Returns the server handle, here the state itself once signed in. *)
Definition authenticate (self : t) : st TSC.Server unit :=
  try_reraise AuthenticationError "Authentication failed: "
    (auth_object <-- lift (create_auth_object self) ;;
     TSC.sign_in auth_object).

Definition sign_out (self : t) : st TSC.Server unit :=
  try_reraise AuthenticationError "Sign out failed: "
    (b <-- TSC.is_signed_in ;;
     if b then TSC.sign_out else sret tt).

End TableauAuthenticator.

(* ===================================================================== *)
(** * The retry loops: [core/client.py] and [utils/helpers.py]            *)
(* ===================================================================== *)

(** The retry loops run an operation on some state [W] and sleep on the
    clock; the state of a loop is [W] with the list of the delays slept so
    far, oldest first.  Delays are exact rationals, in seconds. *)
Definition sleep {W} (seconds : Qc) : st (W * list Qc) unit :=
  fun '(w, slept) => (Ok tt, (w, slept ++ [seconds])).

(** Run an operation on the first component of the loop state. *)
Definition call {W A} (operation : st W A) : W * list Qc -> result A * (W * list Qc) :=
  fun '(w, slept) => let '(r, w') := operation w in (r, (w', slept)).

Module TableauClient.

Record t := mk { _retry_count : Z; _retry_delay : Qc }.

(** The two attributes as [__init__] sets them. *)
Definition init : t := mk 3 1%Qc.

(** The body of [for attempt in range(self._retry_count)], over the
    attempts still to run; [None] is what the function returns when the
    loop ends without a [return]. *)
Fixpoint retry_loop {W A} (self : t) (operation : st W A) (attempts : list nat)
    : st (W * list Qc) (option A) :=
  match attempts with
  | [] => sret None
  | attempt :: rest =>
      fun s =>
        match call operation s with
        | (Ok a, s') => (Ok (Some a), s')
        | (Raise e, s') =>
            if Z.of_nat attempt =? _retry_count self - 1 then (Raise e, s')
            else (_ <-- sleep (_retry_delay self * 2 ^ attempt)%Qc ;;
                  retry_loop self operation rest) s'
        end
  end.

Definition _retry_operation {W A} (self : t) (operation : st W A)
    : st (W * list Qc) (option A) :=
  retry_loop self operation (seq 0 (Z.to_nat (_retry_count self))).

End TableauClient.

(** The [rich] console of [utils/helpers.py].  A message is one of the two
    texts the retry helper prints; the attempt number, the failure text
    and the delay are what the f-strings put into them.  What the console
    does with a message is the library's: it renders the text as markup
    and so can raise ([MarkupError] for a closing tag that matches no open
    one).  What is printed is not recorded. *)
Inductive console_message :=
  | AttemptFailed (attempt : Z) (failure : string)
  | RetryingIn (delay : Qc).

Definition console : Type := console_message -> result unit.

Module helpers.

(** The loop of [retry_on_failure]; [delay] is the local variable that
    [delay *= 2] updates.  An exception of [console.print] leaves the
    [except] block it is raised in, and with it the function. *)
Fixpoint retry_loop {W A} (print : console) (func : st W A) (max_retries : Z)
    (attempts : list nat) (delay : Qc) : st (W * list Qc) (option A) :=
  match attempts with
  | [] => sret None
  | attempt :: rest =>
      fun s =>
        match call func s with
        | (Ok a, s') => (Ok (Some a), s')
        | (Raise e, s') =>
            if Z.of_nat attempt =? max_retries - 1 then (Raise e, s')
            else (_ <-- lift (print (AttemptFailed (Z.of_nat attempt + 1) (exn_str e))) ;;
                  _ <-- lift (print (RetryingIn delay)) ;;
                  _ <-- sleep delay ;;
                  retry_loop print func max_retries rest (delay * 2)%Qc) s'
        end
  end.

Definition retry_on_failure {W A} (print : console) (func : st W A)
    (max_retries : Z) (delay : Qc) : st (W * list Qc) (option A) :=
  retry_loop print func max_retries (seq 0 (Z.to_nat max_retries)) delay.

(** The defaults [max_retries=3, delay=1.0]. *)
Definition retry_on_failure_default {W A} (print : console) (func : st W A)
    : st (W * list Qc) (option A) :=
  retry_on_failure print func 3 1%Qc.

End helpers.

(* ===================================================================== *)
(** * [cli/commands/export.py]: the CSV export                            *)
(* ===================================================================== *)

Module export.

Definition workbook_header : list string :=
  ["ID"; "Name"; "Description"; "Project"; "Owner"; "Created"; "Updated";
   "Size"; "URL"; "Show Tabs"; "Tags"].

Definition datasource_header : list string :=
  ["ID"; "Name"; "Description"; "Project"; "Owner"; "Created"; "Updated";
   "Size"; "URL"; "Tags"].

Definition project_header : list string :=
  ["ID"; "Name"; "Description"; "Parent ID"; "Permissions"; "Created";
   "Updated"].

Definition workbook_row (wb : WorkbookMetadata.t) : list pyval :=
  [PStr (WorkbookMetadata.id wb);
   PStr (WorkbookMetadata.name wb);
   LocalStorage.str_or_empty (WorkbookMetadata.description wb);
   PStr (WorkbookMetadata.project_name wb);
   PStr (WorkbookMetadata.owner_name wb);
   LocalStorage.iso_or_empty (WorkbookMetadata.created_at wb);
   LocalStorage.iso_or_empty (WorkbookMetadata.updated_at wb);
   PInt (default 0 (WorkbookMetadata.size wb));
   LocalStorage.str_or_empty (WorkbookMetadata.webpage_url wb);
   PBool (default false (WorkbookMetadata.show_tabs wb));
   LocalStorage.tags_cell (WorkbookMetadata.tags wb)].

Definition datasource_row (ds : DatasourceMetadata.t) : list pyval :=
  [PStr (DatasourceMetadata.id ds);
   PStr (DatasourceMetadata.name ds);
   LocalStorage.str_or_empty (DatasourceMetadata.description ds);
   PStr (DatasourceMetadata.project_name ds);
   PStr (DatasourceMetadata.owner_name ds);
   LocalStorage.iso_or_empty (DatasourceMetadata.created_at ds);
   LocalStorage.iso_or_empty (DatasourceMetadata.updated_at ds);
   PInt (default 0 (DatasourceMetadata.size ds));
   LocalStorage.str_or_empty (DatasourceMetadata.webpage_url ds);
   LocalStorage.tags_cell (DatasourceMetadata.tags ds)].

Definition project_row (p : ProjectMetadata.t) : list pyval :=
  [PStr (ProjectMetadata.id p);
   PStr (ProjectMetadata.name p);
   LocalStorage.str_or_empty (ProjectMetadata.description p);
   LocalStorage.str_or_empty (ProjectMetadata.parent_id p);
   LocalStorage.str_or_empty (ProjectMetadata.content_permissions p);
   LocalStorage.iso_or_empty (ProjectMetadata.created_at p);
   LocalStorage.iso_or_empty (ProjectMetadata.updated_at p)].

(** One [if items: with open(...) ...] block: nothing is opened for an
    empty list. *)
Definition export_list {A} (p : string) (header : list string)
    (row : A -> list pyval) (items : list A) : st fs.t unit :=
  match items with
  | [] => sret tt
  | _ => fs.write_file p (fs.CsvRows (List.map PStr header :: List.map row items))
  end.

Definition _export_csv (metadata : ServerMetadata.t) (output_dir : string)
    : st fs.t unit :=
  _ <-- export_list (path_join output_dir "workbooks.csv") workbook_header
          workbook_row (ServerMetadata.workbooks metadata) ;;
  _ <-- export_list (path_join output_dir "datasources.csv") datasource_header
          datasource_row (ServerMetadata.datasources metadata) ;;
  export_list (path_join output_dir "projects.csv") project_header
    project_row (ServerMetadata.projects metadata).

End export.

(* ===================================================================== *)
(** * [filter_metadata] on objects                                        *)
(* ===================================================================== *)

(** [MetadataProcessor.filter_metadata] above computes on values.  Here
    the same function runs on the object store: a [ServerMetadata] instance
    and each of its lists is an object at a location, a variable holds a
    location, and a list comprehension or a constructor call allocates a
    new object.  The entity records in the lists are never written to and
    stay values. *)
Module Objects.

Inductive entity :=
  | EWorkbook (wb : WorkbookMetadata.t)
  | EDatasource (ds : DatasourceMetadata.t)
  | EProject (p : ProjectMetadata.t)
  | EFlow (fl : FlowMetadata.t).

Abbreviation loc := positive.

(** A [ServerMetadata] instance: six immediate fields and four references. *)
Record server_obj := mk_server {
  server_url : string;
  version : string;
  rest_api_version : string;
  site_id : string;
  site_name : string;
  timestamp : datetime.t;
  workbooks : loc;
  datasources : loc;
  projects : loc;
  flows : loc
}.

Inductive obj :=
  | OList (items : list entity)
  | OServer (o : server_obj).

Abbreviation heap := (gmap positive obj).

Definition alloc (o : obj) : st heap loc :=
  fun h => let l := fresh (dom h) in (Ok l, <[l := o]> h).

Definition read_list (l : loc) : st heap (list entity) :=
  fun h => match h !! l with
           | Some (OList items) => (Ok items, h)
           | _ => (Raise (Exn TypeError "object is not iterable"), h)
           end.

Definition read_server (l : loc) : st heap server_obj :=
  fun h => match h !! l with
           | Some (OServer o) => (Ok o, h)
           | _ => (Raise (Exn AttributeError "object has no attribute 'workbooks'"), h)
           end.

Definition no_attribute {A} (attr : string) : result A :=
  Raise (Exn AttributeError ("object has no attribute " +:+ repr_str attr)).

(** Attribute access on an element of a list. *)
Definition get_project_name (e : entity) : result string :=
  match e with
  | EWorkbook wb => Ok (WorkbookMetadata.project_name wb)
  | EDatasource ds => Ok (DatasourceMetadata.project_name ds)
  | EFlow fl => Ok (FlowMetadata.project_name fl)
  | EProject _ => no_attribute "project_name"
  end.

Definition get_name (e : entity) : result string :=
  match e with
  | EWorkbook wb => Ok (WorkbookMetadata.name wb)
  | EDatasource ds => Ok (DatasourceMetadata.name ds)
  | EFlow fl => Ok (FlowMetadata.name fl)
  | EProject p => Ok (ProjectMetadata.name p)
  end.

Definition get_owner_name (e : entity) : result string :=
  match e with
  | EWorkbook wb => Ok (WorkbookMetadata.owner_name wb)
  | EDatasource ds => Ok (DatasourceMetadata.owner_name ds)
  | EFlow fl => Ok (FlowMetadata.owner_name fl)
  | EProject _ => no_attribute "owner_name"
  end.

Definition get_tags (e : entity) : result (list string) :=
  match e with
  | EWorkbook wb => Ok (WorkbookMetadata.tags wb)
  | EDatasource ds => Ok (DatasourceMetadata.tags ds)
  | EFlow fl => Ok (FlowMetadata.tags fl)
  | EProject _ => no_attribute "tags"
  end.

Definition get_updated_at (e : entity) : result (option datetime.t) :=
  match e with
  | EWorkbook wb => Ok (WorkbookMetadata.updated_at wb)
  | EDatasource ds => Ok (DatasourceMetadata.updated_at ds)
  | EFlow fl => Ok (FlowMetadata.updated_at fl)
  | EProject p => Ok (ProjectMetadata.updated_at p)
  end.

(** [[x for x in <list at l> if cond(x)]]: reads the list, builds a new one. *)
Definition comprehension (cond : entity -> result bool) (l : loc) : st heap loc :=
  items <-- read_list l ;;
  kept <-- lift (rfilter cond items) ;;
  alloc (OList kept).

Definition filter_metadata (metadata : loc) (f : MetadataProcessor.filters)
    : st heap loc :=
  try_reraise MetadataError "Failed to filter metadata: "
    (m <-- read_server metadata ;;
     let filtered_workbooks := workbooks m in
     let filtered_datasources := datasources m in
     let filtered_projects := projects m in
     let filtered_flows := flows m in
     r <-- match MetadataProcessor.project_names f with
           | Some names =>
               let by_project e := (n <- get_project_name e ;; Ok (str_in n names)) in
               let by_name e := (n <- get_name e ;; Ok (str_in n names)) in
               wbs <-- comprehension by_project filtered_workbooks ;;
               dss <-- comprehension by_project filtered_datasources ;;
               ps <-- comprehension by_name filtered_projects ;;
               fls <-- comprehension by_project filtered_flows ;;
               sret (wbs, dss, ps, fls)
           | None =>
               sret (filtered_workbooks, filtered_datasources,
                     filtered_projects, filtered_flows)
           end ;;
     let '(filtered_workbooks, filtered_datasources, filtered_projects,
           filtered_flows) := r in
     r <-- match MetadataProcessor.owner_names f with
           | Some names =>
               let by_owner e := (n <- get_owner_name e ;; Ok (str_in n names)) in
               wbs <-- comprehension by_owner filtered_workbooks ;;
               dss <-- comprehension by_owner filtered_datasources ;;
               fls <-- comprehension by_owner filtered_flows ;;
               sret (wbs, dss, fls)
           | None => sret (filtered_workbooks, filtered_datasources, filtered_flows)
           end ;;
     let '(filtered_workbooks, filtered_datasources, filtered_flows) := r in
     r <-- match MetadataProcessor.tags f with
           | Some tags =>
               let by_tag e :=
                 (own <- get_tags e ;; Ok (MetadataProcessor.any_tag_in tags own)) in
               wbs <-- comprehension by_tag filtered_workbooks ;;
               dss <-- comprehension by_tag filtered_datasources ;;
               fls <-- comprehension by_tag filtered_flows ;;
               sret (wbs, dss, fls)
           | None => sret (filtered_workbooks, filtered_datasources, filtered_flows)
           end ;;
     let '(filtered_workbooks, filtered_datasources, filtered_flows) := r in
     r <-- match MetadataProcessor.updated_since f with
           | Some since =>
               let by_update e :=
                 (u <- get_updated_at e ;; MetadataProcessor.updated_ge u since) in
               wbs <-- comprehension by_update filtered_workbooks ;;
               dss <-- comprehension by_update filtered_datasources ;;
               fls <-- comprehension by_update filtered_flows ;;
               sret (wbs, dss, fls)
           | None => sret (filtered_workbooks, filtered_datasources, filtered_flows)
           end ;;
     let '(filtered_workbooks, filtered_datasources, filtered_flows) := r in
     alloc (OServer (mk_server (server_url m) (version m) (rest_api_version m)
                       (site_id m) (site_name m) (timestamp m)
                       filtered_workbooks filtered_datasources
                       filtered_projects filtered_flows))).

(** The value an instance denotes: its fields, with each list read
    through its reference.  [None] when the store does not hold a
    [ServerMetadata] with four lists of the annotated element types. *)
Definition as_workbook (e : entity) : option WorkbookMetadata.t :=
  match e with EWorkbook wb => Some wb | _ => None end.
Definition as_datasource (e : entity) : option DatasourceMetadata.t :=
  match e with EDatasource ds => Some ds | _ => None end.
Definition as_project (e : entity) : option ProjectMetadata.t :=
  match e with EProject p => Some p | _ => None end.
Definition as_flow (e : entity) : option FlowMetadata.t :=
  match e with EFlow fl => Some fl | _ => None end.

Definition typed_list {A} (cast : entity -> option A) (h : heap) (l : loc)
    : option (list A) :=
  match h !! l with
  | Some (OList items) => mapM cast items
  | _ => None
  end.

Definition value_of (h : heap) (l : loc) : option ServerMetadata.t :=
  match h !! l with
  | Some (OServer o) =>
      wbs ← typed_list as_workbook h (workbooks o);
      dss ← typed_list as_datasource h (datasources o);
      ps ← typed_list as_project h (projects o);
      fls ← typed_list as_flow h (flows o);
      Some (ServerMetadata.mk (server_url o) (version o) (rest_api_version o)
              (site_id o) (site_name o) (timestamp o) wbs dss ps fls)
  | _ => None
  end.

End Objects.

(* ===================================================================== *)
(** * Definitions used to state the properties                            *)
(* ===================================================================== *)









(** Each delay is twice the one before it. *)
Definition doubling (l : list Qc) : Prop :=
  forall (i : nat) (x y : Qc), l !! i = Some x -> l !! S i = Some y -> y = (2 * x)%Qc.

(** What a retry wrapper answers when the attempt that ends the loop
    answers [r]. *)
Definition final_answer {A} (r : result A) : result (option A) :=
  match r with
  | Ok a => Ok (Some a)
  | Raise e => Raise e
  end.

(** The delays [d, 2d, 4d, ...], [j] of them. *)
Fixpoint doubled (d : Qc) (j : nat) : list Qc :=
  match j with
  | O => []
  | S j' => d :: doubled (d * 2)%Qc j'
  end.

(** ** Filtering *)

(** A predicate that constrains only when its key is in the dictionary. *)
Definition when_given {A} (o : option A) (p : A -> bool) : bool :=
  match o with
  | Some a => p a
  | None => true
  end.

(** The three membership predicates of a filter dictionary on a workbook,
    a data source and a flow; and the one predicate applied to a project. *)
Definition workbook_matches (f : MetadataProcessor.filters) (wb : WorkbookMetadata.t) : bool :=
  when_given (MetadataProcessor.project_names f) (str_in (WorkbookMetadata.project_name wb))
  && when_given (MetadataProcessor.owner_names f) (str_in (WorkbookMetadata.owner_name wb))
  && when_given (MetadataProcessor.tags f)
       (fun tags => MetadataProcessor.any_tag_in tags (WorkbookMetadata.tags wb)).

Definition datasource_matches (f : MetadataProcessor.filters) (ds : DatasourceMetadata.t) : bool :=
  when_given (MetadataProcessor.project_names f) (str_in (DatasourceMetadata.project_name ds))
  && when_given (MetadataProcessor.owner_names f) (str_in (DatasourceMetadata.owner_name ds))
  && when_given (MetadataProcessor.tags f)
       (fun tags => MetadataProcessor.any_tag_in tags (DatasourceMetadata.tags ds)).

Definition flow_matches (f : MetadataProcessor.filters) (fl : FlowMetadata.t) : bool :=
  when_given (MetadataProcessor.project_names f) (str_in (FlowMetadata.project_name fl))
  && when_given (MetadataProcessor.owner_names f) (str_in (FlowMetadata.owner_name fl))
  && when_given (MetadataProcessor.tags f)
       (fun tags => MetadataProcessor.any_tag_in tags (FlowMetadata.tags fl)).

Definition project_matches (f : MetadataProcessor.filters) (p : ProjectMetadata.t) : bool :=
  when_given (MetadataProcessor.project_names f) (str_in (ProjectMetadata.name p)).

(** The update-time floor: met when the comparison answers [True]. *)
Definition updated_ok (u : option datetime.t) (since : datetime.t) : bool :=
  match MetadataProcessor.updated_ge u since with
  | Ok b => b
  | Raise _ => false
  end.

(** The conjunction of the predicates a filter dictionary specifies. *)
Definition keeps_workbook (f : MetadataProcessor.filters) (wb : WorkbookMetadata.t) : bool :=
  workbook_matches f wb
  && when_given (MetadataProcessor.updated_since f) (updated_ok (WorkbookMetadata.updated_at wb)).

Definition keeps_datasource (f : MetadataProcessor.filters) (ds : DatasourceMetadata.t) : bool :=
  datasource_matches f ds
  && when_given (MetadataProcessor.updated_since f) (updated_ok (DatasourceMetadata.updated_at ds)).

Definition keeps_flow (f : MetadataProcessor.filters) (fl : FlowMetadata.t) : bool :=
  flow_matches f fl
  && when_given (MetadataProcessor.updated_since f) (updated_ok (FlowMetadata.updated_at fl)).

(** The union of two filter dictionaries, and disjointness of their keys. *)
Definition opt_or {A} (a b : option A) : option A :=
  match a with
  | Some x => Some x
  | None => b
  end.

Definition filters_union (a b : MetadataProcessor.filters) : MetadataProcessor.filters :=
  MetadataProcessor.mk_filters
    (opt_or (MetadataProcessor.project_names a) (MetadataProcessor.project_names b))
    (opt_or (MetadataProcessor.owner_names a) (MetadataProcessor.owner_names b))
    (opt_or (MetadataProcessor.tags a) (MetadataProcessor.tags b))
    (opt_or (MetadataProcessor.updated_since a) (MetadataProcessor.updated_since b)).

Definition both_given {A B} (a : option A) (b : option B) : bool :=
  match a, b with
  | Some _, Some _ => true
  | _, _ => false
  end.

Definition filters_disjoint (a b : MetadataProcessor.filters) : bool :=
  negb (both_given (MetadataProcessor.project_names a) (MetadataProcessor.project_names b))
  && negb (both_given (MetadataProcessor.owner_names a) (MetadataProcessor.owner_names b))
  && negb (both_given (MetadataProcessor.tags a) (MetadataProcessor.tags b))
  && negb (both_given (MetadataProcessor.updated_since a) (MetadataProcessor.updated_since b)).

(** The same metadata with other lists. *)
Definition with_lists (m : ServerMetadata.t) (wbs : list WorkbookMetadata.t)
    (dss : list DatasourceMetadata.t) (ps : list ProjectMetadata.t)
    (fls : list FlowMetadata.t) : ServerMetadata.t :=
  ServerMetadata.mk (ServerMetadata.server_url m) (ServerMetadata.version m)
    (ServerMetadata.rest_api_version m) (ServerMetadata.site_id m)
    (ServerMetadata.site_name m) (ServerMetadata.timestamp m) wbs dss ps fls.

(** The update-time comparison is defined on an element: it answers a
    truth value instead of raising. *)
Definition comparable (since : datetime.t) (u : option datetime.t) : Prop :=
  exists b : bool, MetadataProcessor.updated_ge u since = Ok b.

(** ** CSV files *)






Definition is_file (s : fs.t) (p : string) : bool :=
  match s !! p with
  | Some (fs.File _) => true
  | _ => false
  end.



(** ** Summaries *)

(** [v[k1][k2]...] *)
Fixpoint get_path (v : pyval) (keys : list string) : result pyval :=
  match keys with
  | [] => Ok v
  | k :: keys' => w <- getitem v k ;; get_path w keys'
  end.

(** ** The environment *)

(** A variable is set: it is in the environment, with whatever value. *)
Definition is_set (environ : gmap string string) (name : string) : bool :=
  bool_decide (is_Some (environ !! name)).

(** A variable is set to a non-empty value. *)
Definition has_value (environ : gmap string string) (name : string) : bool :=
  str_truthy (getenv environ name).

Definition method_of (r : result AuthConfig.t) : result AuthMethod :=
  c <- r ;; Ok (AuthConfig.auth_method c).

(** ** Sessions *)

(** The handle after one more request was sent, holding [tok]. *)
Definition after_request (s : TSC.Server) (r : TSC.request) (tok : option string)
    : TSC.Server :=
  TSC.mk (TSC.server_address s) tok (TSC.sent s ++ [r]) (TSC.reply s).

(** The service's answer to the next request. *)
Definition next_reply (s : TSC.Server) : result string :=
  TSC.reply s (length (TSC.sent s)).

(** The taxonomy error a wrapper raises for an underlying cause. *)
Definition wrapped (cls : exc_class) (prefix : string) (cause : exn) : exn :=
  Exn cls (prefix +:+ exn_str cause).

(** ** Objects *)

(** The list object at [l] holds the elements [xs], embedded by [inj]. *)
Definition holds_list {A} (inj : A -> Objects.entity) (h : Objects.heap)
    (l : Objects.loc) (xs : list A) : Prop :=
  h !! l = Some (Objects.OList (List.map inj xs)).

(* ===================================================================== *)
(** * Sample data                                                         *)
(* ===================================================================== *)

Module sample.

(** Aware timestamps, as the server reports them (UTC). *)
Definition june_2023 : datetime.t := datetime.mk 2023 6 1 9 0 0 0 (Some 0).
Definition march_2024 : datetime.t := datetime.mk 2024 3 1 10 30 0 250000 (Some 0).
Definition new_year_2024_utc : datetime.t := datetime.mk 2024 1 1 0 0 0 0 (Some 0).

(** Naive timestamps, as [datetime.now()] or [datetime(2024, 1, 1)] give. *)
Definition collected_at : datetime.t := datetime.mk 2024 3 2 8 15 0 0 None.
Definition new_year_2024 : datetime.t := datetime.mk 2024 1 1 0 0 0 0 None.

Definition wb_sales : WorkbookMetadata.t :=
  WorkbookMetadata.mk "wb-1" "Sales" (Some "Quarterly sales") "p-1" "Finance"
    "u-1" "alice" (Some june_2023) (Some march_2024) (Some 2048)
    (Some "https://tableau.example.com/#/workbooks/1") (Some true) (Some "Sales")
    [[("id", PStr "v-1"); ("name", PStr "Overview"); ("created_at", PDatetime june_2023)]]
    [] ["kpi"; "finance"] None.

Definition wb_ops : WorkbookMetadata.t :=
  WorkbookMetadata.mk "wb-2" "Operations" None "p-2" "Ops"
    "u-2" "bob" None (Some june_2023) None None None None [] [] [] None.

Definition ds_orders : DatasourceMetadata.t :=
  DatasourceMetadata.mk "ds-1" "Orders" None "p-1" "Finance" "u-1" "alice"
    (Some june_2023) (Some march_2024) (Some 512) None (Some "Orders") [] ["kpi"] None.

Definition p_finance : ProjectMetadata.t :=
  ProjectMetadata.mk "p-1" "Finance" (Some "Finance team") None (Some "ManagedByOwner")
    (Some june_2023) (Some june_2023) 0 0 0.

Definition fl_nightly : FlowMetadata.t :=
  FlowMetadata.mk "fl-1" "Nightly load" None "p-1" "Finance" "u-1" "alice"
    (Some june_2023) (Some march_2024) None ["etl"].

(** Two workbooks, one data source, one project, one flow. *)
Definition metadata : ServerMetadata.t :=
  ServerMetadata.mk "https://tableau.example.com" "2023.3" "3.21" "site-1" "Main"
    collected_at [wb_sales; wb_ops] [ds_orders] [p_finance] [fl_nightly].

(** The same without content. *)
Definition empty_metadata : ServerMetadata.t :=
  ServerMetadata.mk "https://tableau.example.com" "2023.3" "3.21" "site-1" "Main"
    collected_at [] [] [] [].

Definition no_filters : MetadataProcessor.filters :=
  MetadataProcessor.mk_filters None None None None.

(** [{"updated_since": datetime(2024, 1, 1)}] *)
Definition since_naive : MetadataProcessor.filters :=
  MetadataProcessor.mk_filters None None None (Some new_year_2024).

(** [{"updated_since": datetime(2024, 1, 1, tzinfo=timezone.utc)}] *)
Definition since_utc : MetadataProcessor.filters :=
  MetadataProcessor.mk_filters None None None (Some new_year_2024_utc).

(** [{"project_names": []}] *)
Definition no_projects : MetadataProcessor.filters :=
  MetadataProcessor.mk_filters (Some []) None None None.

(** [{"project_names": ["Finance"]}] and [{"tags": ["kpi"]}] *)
Definition finance_only : MetadataProcessor.filters :=
  MetadataProcessor.mk_filters (Some ["Finance"]) None None None.
Definition kpi_only : MetadataProcessor.filters :=
  MetadataProcessor.mk_filters None None (Some ["kpi"]) None.

End sample.

Module sample_fs.


(** A store whose base directory holds one regular file. *)
Definition one_file : fs.t :=
  {[ "store" := fs.Dir; "store/main.json" := fs.File (fs.CsvRows []) ]}.

End sample_fs.

Module sample_env.

(** Every credential variable is set; the token name is set to the empty
    string. *)
Definition empty_token_name : gmap string string :=
  {[ "TABLEAU_SERVER_URL" := "https://tableau.example.com";
     "TABLEAU_TOKEN_NAME" := "";
     "TABLEAU_TOKEN_VALUE" := "s3cr3t";
     "TABLEAU_USERNAME" := "alice";
     "TABLEAU_PASSWORD" := "pw" ]}.

Definition token_and_password : gmap string string :=
  {[ "TABLEAU_SERVER_URL" := "https://tableau.example.com";
     "TABLEAU_TOKEN_NAME" := "ci";
     "TABLEAU_TOKEN_VALUE" := "s3cr3t";
     "TABLEAU_USERNAME" := "alice";
     "TABLEAU_PASSWORD" := "pw" ]}.

End sample_env.

Module sample_auth.

Definition pat_config : AuthConfig.t :=
  AuthConfig.mk "https://tableau.example.com" "" PERSONAL_ACCESS_TOKEN
    (Some "ci") (Some "s3cr3t") None None None.

Definition authenticator : TableauAuthenticator.t :=
  TableauAuthenticator.mk pat_config.

(** A service that refuses the first request and accepts the later ones. *)
Definition flaky (n : nat) : result string :=
  match n with
  | O => Raise (Exn ConnectionError "connection reset")
  | S _ => Ok "session-token"
  end.

Definition signed_in : TSC.Server :=
  TSC.mk "https://tableau.example.com" (Some "session-token") [] flaky.

End sample_auth.

Module sample_store.

Definition local : LocalStorage.t := LocalStorage.mk "store".

(** A store of objects that holds [sample.metadata]: its four lists at
    locations 1 to 4 and the instance at location 5. *)
Definition objects : Objects.heap :=
  {[ 1%positive := Objects.OList [Objects.EWorkbook sample.wb_sales;
                                  Objects.EWorkbook sample.wb_ops];
     2%positive := Objects.OList [Objects.EDatasource sample.ds_orders];
     3%positive := Objects.OList [Objects.EProject sample.p_finance];
     4%positive := Objects.OList [Objects.EFlow sample.fl_nightly];
     5%positive := Objects.OServer
                     (Objects.mk_server "https://tableau.example.com" "2023.3" "3.21"
                        "site-1" "Main" sample.collected_at
                        1%positive 2%positive 3%positive 4%positive) ]}.

End sample_store.

Module sample_retry.

(** A console that prints whatever it is given. *)
Definition quiet : console := fun _ => Ok tt.

(** A console that does as [rich] does on the messages of the runs below:
    the failure text [[/api/3.21/auth/signin]] is read as a closing tag,
    which matches no open tag. *)
Definition rich : console :=
  fun message =>
    match message with
    | AttemptFailed _ failure =>
        if String.eqb failure "[/api/3.21/auth/signin]" then
          Raise (Exn MarkupError
                   "closing tag '[/api/3.21/auth/signin]' at position 26 doesn't match any open tag")
        else Ok tt
    | RetryingIn _ => Ok tt
    end.

(** An operation that counts its calls and fails on the first two with
    the path of the request in its message. *)
Definition sign_in : st nat Z :=
  fun calls =>
    (if (calls <? 2)%nat
     then Raise (Exn ConnectionError "[/api/3.21/auth/signin]")
     else Ok 42,
     S calls).

(** An operation that counts its calls and fails on the first two. *)
Definition flaky : st nat Z :=
  fun calls =>
    (if (calls <? 2)%nat then Raise (Exn ConnectionError "timed out") else Ok 42,
     S calls).

End sample_retry.

(* ===================================================================== *)
(** * Further definitions                                                *)
(* ===================================================================== *)

(** ** Runs of a retried operation *)

(** The state after [k] calls of [operation], starting from [w]. *)
Fixpoint after_calls {W A} (operation : st W A) (k : nat) (w : W) : W :=
  match k with
  | O => w
  | S k' => snd (operation (after_calls operation k' w))
  end.

(** What call number [k] (counted from 0) answers. *)
Definition answer_of_call {W A} (operation : st W A) (k : nat) (w : W) : result A :=
  fst (operation (after_calls operation k w)).

Definition raises {A} (r : result A) : bool :=
  match r with
  | Raise _ => true
  | Ok _ => false
  end.

(** The delays [d * 2^0, ..., d * 2^(j-1)]. *)
Definition backoff (d : Qc) (j : nat) : list Qc :=
  List.map (fun a => (d * 2 ^ a)%Qc) (seq 0 j).

(** The sum of a list of delays. *)
Fixpoint total (l : list Qc) : Qc :=
  match l with
  | [] => 0%Qc
  | x :: l' => (x + total l')%Qc
  end.

Module sample_retry2.

(** A client configured for no attempt at all. *)
Definition no_attempts : TableauClient.t := TableauClient.mk 0 1%Qc.

End sample_retry2.

(* ===================================================================== *)
(** * [core/client.py]: the getters, the search and the connection        *)
(* ===================================================================== *)

Module client.

(** What the methods of a [TableauClient] act on: whether [self.server]
    holds a handle ([None] at first), the service behind the handle, and
    the delays slept so far. *)
Record state (W : Type) := mk_state {
  server : bool;
  service : W;
  slept : list Qc
}.
Arguments mk_state {W} server service slept.
Arguments server {W} s.
Arguments service {W} s.
Arguments slept {W} s.

(** [TSC.RequestOptions.Operator]: the attributes the vendor library
    defines on the class, each a string.  It defines no [Contains]; reading
    an attribute a class lacks raises [AttributeError]. *)
Definition Operator (name : string) : result string :=
  if String.eqb name "Equals" then Ok "eq"
  else if String.eqb name "GreaterThan" then Ok "gt"
  else if String.eqb name "GreaterThanOrEqual" then Ok "gte"
  else if String.eqb name "LessThan" then Ok "lt"
  else if String.eqb name "LessThanOrEqual" then Ok "lte"
  else if String.eqb name "In" then Ok "in"
  else if String.eqb name "Has" then Ok "has"
  else if String.eqb name "CaseInsensitiveEquals" then Ok "cieq"
  else Raise (Exn AttributeError
                ("type object 'Operator' has no attribute '" +:+ name +:+ "'")).

(** A [TSC.Filter]: field, operator, value; and the filters of a
    [TSC.RequestOptions]. *)
Definition Filter : Type := string * string * string.
Definition RequestOptions : Type := list Filter.

(** The calls the methods make on the vendor handle: [list(TSC.Pager(...))]
    over an endpoint, [get_by_id], [populate_*] on an item, and the pager
    of an endpoint under request options.  Items are dynamic values of one
    type; a [populate_*] call receives whatever [get_*_details] returned. *)
Record Endpoints (W Item : Type) := mk_endpoints {
  sites : st W (list Item);
  workbooks : st W (list Item);
  workbooks_get_by_id : string -> st W Item;
  workbooks_populate_views : option Item -> st W (list Item);
  workbooks_populate_connections : option Item -> st W (list Item);
  datasources : st W (list Item);
  datasources_get_by_id : string -> st W Item;
  datasources_populate_connections : option Item -> st W (list Item);
  projects : st W (list Item);
  flows : st W (list Item);
  users : st W (list Item);
  groups : st W (list Item);
  server_info_get : st W Item;
  workbooks_with : RequestOptions -> st W (list Item);
  datasources_with : RequestOptions -> st W (list Item);
  projects_with : RequestOptions -> st W (list Item);
  flows_with : RequestOptions -> st W (list Item)
}.
Arguments sites {W Item} e.
Arguments workbooks {W Item} e.
Arguments workbooks_get_by_id {W Item} e.
Arguments workbooks_populate_views {W Item} e.
Arguments workbooks_populate_connections {W Item} e.
Arguments datasources {W Item} e.
Arguments datasources_get_by_id {W Item} e.
Arguments datasources_populate_connections {W Item} e.
Arguments projects {W Item} e.
Arguments flows {W Item} e.
Arguments users {W Item} e.
Arguments groups {W Item} e.
Arguments server_info_get {W Item} e.
Arguments workbooks_with {W Item} e.
Arguments datasources_with {W Item} e.
Arguments projects_with {W Item} e.
Arguments flows_with {W Item} e.

(** The dictionary [search_content] returns; a value is what
    [_retry_operation] returned for its key, [[]] at first. *)
Record search_results (Item : Type) := mk_results {
  found_workbooks : option (list Item);
  found_datasources : option (list Item);
  found_projects : option (list Item);
  found_flows : option (list Item)
}.
Arguments mk_results {Item}.
Arguments found_workbooks {Item} s.
Arguments found_datasources {Item} s.
Arguments found_projects {Item} s.
Arguments found_flows {Item} s.

Definition not_connected : exn := Exn ConnectionError "Not connected to server".

Section Methods.
Context {W Item : Type}.
Variable self : TableauClient.t.
Variable sdk : Endpoints W Item.

(** [self._retry_operation(operation)] on the client's state. *)
Definition _retry_operation {A} (operation : st W A) : st (state W) (option A) :=
  fun s =>
    let '(r, (w, sl)) :=
      TableauClient._retry_operation self operation (service s, slept s) in
    (r, mk_state (server s) w sl).

(** [if not self.server: raise ConnectionError("Not connected to server")] *)
Definition connected {A} (rest : st (state W) A) : st (state W) A :=
  fun s => if server s then rest s else (Raise not_connected, s).

(** The body shared by the getters that make one retried call. *)
Definition fetch {A} (prefix : string) (operation : st W A)
    : st (state W) (option A) :=
  connected (try_reraise TableauAPIError prefix (_retry_operation operation)).

Definition get_sites := fetch "Failed to get sites: " (sites sdk).
Definition get_workbooks := fetch "Failed to get workbooks: " (workbooks sdk).
Definition get_workbook_details (workbook_id : string) :=
  fetch "Failed to get workbook details: " (workbooks_get_by_id sdk workbook_id).
Definition get_datasources := fetch "Failed to get data sources: " (datasources sdk).
Definition get_datasource_details (datasource_id : string) :=
  fetch "Failed to get data source details: "
    (datasources_get_by_id sdk datasource_id).
Definition get_projects := fetch "Failed to get projects: " (projects sdk).
Definition get_flows := fetch "Failed to get flows: " (flows sdk).
Definition get_users := fetch "Failed to get users: " (users sdk).
Definition get_groups := fetch "Failed to get groups: " (groups sdk).
Definition get_server_info := fetch "Failed to get server info: " (server_info_get sdk).

Definition get_workbook_views (workbook_id : string)
    : st (state W) (option (list Item)) :=
  connected (try_reraise TableauAPIError "Failed to get workbook views: "
    (workbook <-- get_workbook_details workbook_id ;;
     _retry_operation (workbooks_populate_views sdk workbook))).

Definition get_workbook_connections (workbook_id : string)
    : st (state W) (option (list Item)) :=
  connected (try_reraise TableauAPIError "Failed to get workbook connections: "
    (workbook <-- get_workbook_details workbook_id ;;
     _retry_operation (workbooks_populate_connections sdk workbook))).

Definition get_datasource_connections (datasource_id : string)
    : st (state W) (option (list Item)) :=
  connected (try_reraise TableauAPIError "Failed to get data source connections: "
    (datasource <-- get_datasource_details datasource_id ;;
     _retry_operation (datasources_populate_connections sdk datasource))).

(** The request options each block of [search_content] builds:
    [req_option.filter.add(TSC.Filter(TSC.RequestOptions.Field.Name,
    TSC.RequestOptions.Operator.Contains, search_term))]. *)
Definition name_contains (search_term : string) : result RequestOptions :=
  operator <- Operator "Contains" ;;
  Ok [("name", operator, search_term)].

(** One [if content_type in ["all", kind]: ...] block of [search_content]. *)
Definition search_block (search_term content_type kind : string)
    (operation : RequestOptions -> st W (list Item))
    (store : option (list Item) -> search_results Item -> search_results Item)
    (results : search_results Item) : st (state W) (search_results Item) :=
  if str_in content_type ["all"; kind] then
    req_option <-- lift (name_contains search_term) ;;
    found <-- _retry_operation (operation req_option) ;;
    sret (store found results)
  else sret results.

Definition search_content (search_term content_type : string)
    : st (state W) (search_results Item) :=
  connected
    (let results := mk_results (Some []) (Some []) (Some []) (Some []) in
     try_reraise TableauAPIError "Failed to search content: "
       (results <-- search_block search_term content_type "workbooks"
                      (workbooks_with sdk)
                      (fun v r => mk_results v (found_datasources r)
                                    (found_projects r) (found_flows r))
                      results ;;
        results <-- search_block search_term content_type "datasources"
                      (datasources_with sdk)
                      (fun v r => mk_results (found_workbooks r) v
                                    (found_projects r) (found_flows r))
                      results ;;
        results <-- search_block search_term content_type "projects"
                      (projects_with sdk)
                      (fun v r => mk_results (found_workbooks r)
                                    (found_datasources r) v (found_flows r))
                      results ;;
        results <-- search_block search_term content_type "flows"
                      (flows_with sdk)
                      (fun v r => mk_results (found_workbooks r)
                                    (found_datasources r) (found_projects r) v)
                      results ;;
        sret results)).

End Methods.

(** Run a method of the authenticator on the handle the client shares
    with it. *)
Definition on_handle {A} (m : st TSC.Server A) : st (state TSC.Server) A :=
  fun s => let '(r, w) := m (service s) in (r, mk_state (server s) w (slept s)).

(** [self.server = ...] with the handle the authenticator returned. *)
Definition set_server : st (state TSC.Server) unit :=
  fun s => (Ok tt, mk_state true (service s) (slept s)).

(** [with self.connection(): block].  The generator runs to its [yield],
    the block runs there, and an exception of the block is thrown into
    the generator at the [yield], inside its [try]. *)
Definition connection {A} (authenticator : TableauAuthenticator.t)
    (block : st (state TSC.Server) A) : st (state TSC.Server) A :=
  fun s =>
    let '(r, s1) :=
      (_ <-- on_handle (TableauAuthenticator.authenticate authenticator) ;;
       _ <-- set_server ;;
       block) s in
    let r := reraise_as ConnectionError "Failed to connect to Tableau Server: " r in
    if server s1 then
      match on_handle (TableauAuthenticator.sign_out authenticator) s1 with
      | (Ok _, s2) => (r, s2)
      | (Raise e, s2) => (Raise e, s2)
      end
    else (r, s1).

End client.

Module sample_client.

(** A service that accepts every request. *)
Definition service : TSC.Server :=
  TSC.mk "https://tableau.example.com" None [] (fun _ => Ok "session-token").

(** A service that accepts the sign-in and refuses what follows. *)
Definition closing : TSC.Server :=
  TSC.mk "https://tableau.example.com" None []
    (fun n => match n with
              | O => Ok "session-token"
              | S _ => Raise (Exn ConnectionError "connection reset")
              end).

Definition fresh : client.state TSC.Server := client.mk_state false service [].
Definition fresh_closing : client.state TSC.Server := client.mk_state false closing [].
Definition fresh_refused : client.state TSC.Server :=
  client.mk_state false
    (TSC.mk "https://tableau.example.com" None [] sample_auth.flaky) [].

(** A block that fails for a reason of its own. *)
Definition bad_block : st (client.state TSC.Server) unit :=
  sraise (Exn ValueError "invalid literal for int() with base 10: 'x'").

(** A handle whose every endpoint times out. *)
Definition timed_out {A} : st nat A :=
  fun calls => (Raise (Exn ConnectionError "timed out"), S calls).

Definition down : client.Endpoints nat Z :=
  client.mk_endpoints nat Z timed_out timed_out (fun _ => timed_out)
    (fun _ => timed_out) (fun _ => timed_out) timed_out (fun _ => timed_out)
    (fun _ => timed_out) timed_out timed_out timed_out timed_out timed_out
    (fun _ => timed_out) (fun _ => timed_out) (fun _ => timed_out)
    (fun _ => timed_out).

Definition connected : client.state nat := client.mk_state true 0%nat [].

End sample_client.

(* ===================================================================== *)
(** * [core/storage.py]: more of the local backend                        *)
(* ===================================================================== *)




Module sample_fs2.

(** A store whose base directory exists and holds nothing. *)
Definition empty_store : fs.t := {[ "store" := fs.Dir ]}.

End sample_fs2.

(* ===================================================================== *)
(** * [core/storage.py]: more of [S3Storage], and [StorageManager]        *)
(* ===================================================================== *)

(** More of the [boto3] client. *)
Module s3_client.

(** [s3_client.put_object(Bucket=b, Key=k, Body=..., ...)] *)
Definition put_object (b k : string) (o : s3.object) : st s3.t unit :=
  fun s => match s3.failing s with
           | Some e => (Raise e, s)
           | None => (Ok tt, s3.mk (<[(b, k) := o]> (s3.objects s)) None)
           end.

Definition no_such_key : exn :=
  Exn ClientError
    "An error occurred (NoSuchKey) when calling the GetObject operation: The specified key does not exist.".

(** [s3_client.get_object(Bucket=b, Key=k)] *)
Definition get_object (b k : string) : st s3.t s3.object :=
  fun s => match s3.failing s with
           | Some e => (Raise e, s)
           | None =>
               match s3.objects s !! (b, k) with
               | Some o => (Ok o, s)
               | None => (Raise no_such_key, s)
               end
           end.

End s3_client.

(** [gzip.decompress(content)] *)
Definition gzip_decompress (c : fs.content) : result fs.content :=
  match c with
  | fs.GzipJson doc => Ok (fs.TextJson doc)
  | _ => Raise (Exn OSError "Not a gzipped file")
  end.

(** The local file system and the object store side by side. *)
Definition stores : Type := fs.t * s3.t.

Definition on_fs {A} (m : st fs.t A) : st stores A :=
  fun '(l, r) => let '(a, l') := m l in (a, (l', r)).

Definition on_s3 {A} (m : st s3.t A) : st stores A :=
  fun '(l, r) => let '(a, r') := m r in (a, (l, r')).

(** [LocalStorage(base_path)]: the constructor creates the directory.
    The default [Path("./tableau_metadata")] prints as [tableau_metadata]. *)
Definition LocalStorage_default_path : string := "tableau_metadata".

Definition LocalStorage_init (base_path : string) : st fs.t LocalStorage.t :=
  _ <-- fs.mkdir base_path ;;
  sret (LocalStorage.mk base_path).

Module S3.

Definition save_metadata (self : S3Storage.t) (metadata : ServerMetadata.t)
    (path format : string) : st s3.t string :=
  try_reraise StorageError "Failed to save metadata to S3: "
    (let s3_key := S3Storage.prefix self +:+ path in
     _ <-- (if String.eqb (lower format) "json" then
              content <-- lift (MetadataProcessor.metadata_to_json metadata) ;;
              s3_client.put_object (S3Storage.bucket_name self) s3_key
                (s3.mk_object (fs.TextJson content) "application/json" None)
            else if String.eqb (lower format) "json.gz" then
              content <-- lift (MetadataProcessor.metadata_to_json metadata) ;;
              let compressed_content := fs.GzipJson content in
              s3_client.put_object (S3Storage.bucket_name self) s3_key
                (s3.mk_object compressed_content "application/json" (Some "gzip"))
            else sraise (Exn StorageError ("Unsupported format: " +:+ format))) ;;
     sret ("s3://" +:+ S3Storage.bucket_name self +:+ "/" +:+ s3_key)).

(** [S3Storage._dict_to_metadata]: builds a [LocalStorage()] to borrow its
    method. *)
Definition _dict_to_metadata (data : pyval) : st fs.t Loaded.ServerMetadata :=
  local_storage <-- LocalStorage_init LocalStorage_default_path ;;
  lift (LocalStorage._dict_to_metadata data).

Definition load_metadata (self : S3Storage.t) (path : string)
    : st stores Loaded.ServerMetadata :=
  try_reraise StorageError "Failed to load metadata from S3: "
    (let s3_key := S3Storage.prefix self +:+ path in
     response <-- on_s3 (s3_client.get_object (S3Storage.bucket_name self) s3_key) ;;
     let content := s3.body response in
     content <-- lift (if bool_decide (s3.content_encoding response = Some "gzip")
                       then gzip_decompress content
                       else Ok content) ;;
     data <-- lift (fs.loads_text content) ;;
     on_fs (_dict_to_metadata data)).

End S3.

Module StorageManager.

Record t := mk {
  local_storage : LocalStorage.t;
  s3_storage : option S3Storage.t
}.

(** The loop of [save_metadata] over the backends still to do; [results]
    is the dictionary built so far. *)
Fixpoint save_loop (self : t) (metadata : ServerMetadata.t) (filename : string)
    (backends : list string) (format : string) (results : gmap string string)
    : st stores (gmap string string) :=
  match backends with
  | [] => sret results
  | backend :: rest =>
      if String.eqb backend "local" then
        path <-- on_fs (LocalStorage.save_metadata (local_storage self) metadata
                          filename format) ;;
        save_loop self metadata filename rest format (<["local" := path]> results)
      else
        match String.eqb backend "s3", s3_storage self with
        | true, Some s3_storage =>
            path <-- on_s3 (S3.save_metadata s3_storage metadata filename format) ;;
            save_loop self metadata filename rest format (<["s3" := path]> results)
        | _, _ => sraise (Exn StorageError ("Unsupported backend: " +:+ backend))
        end
  end.

Definition save_metadata (self : t) (metadata : ServerMetadata.t)
    (filename : string) (backends : list string) (format : string)
    : st stores (gmap string string) :=
  save_loop self metadata filename backends format ∅.

Definition load_metadata (self : t) (filename backend : string)
    : st stores Loaded.ServerMetadata :=
  if String.eqb backend "local" then
    on_fs (LocalStorage.load_metadata (local_storage self) filename)
  else
    match String.eqb backend "s3", s3_storage self with
    | true, Some s3_storage => S3.load_metadata s3_storage filename
    | _, _ => sraise (Exn StorageError ("Unsupported backend: " +:+ backend))
    end.

(** [d.strftime("%Y%m%d_%H%M%S")].  The year is written with four digits,
    as the C library does from the year 1000 on; for earlier years
    platforms differ. *)
Definition strftime_compact (d : datetime.t) : string :=
  string_of_list_ascii
    (datetime.fmt_digits 4 (datetime.year d) ++ datetime.fmt_digits 2 (datetime.month d)
     ++ datetime.fmt_digits 2 (datetime.day d) ++ "_"%char
     :: datetime.fmt_digits 2 (datetime.hour d)
     ++ datetime.fmt_digits 2 (datetime.minute d)
     ++ datetime.fmt_digits 2 (datetime.second d)).

Definition generate_filename (metadata : ServerMetadata.t) (include_timestamp : bool)
    : string :=
  let site_name :=
    if String.eqb (ServerMetadata.site_name metadata) "" then "default"
    else ServerMetadata.site_name metadata in
  let site_name := str_replace "/" "_" (str_replace " " "_" site_name) in
  if include_timestamp then
    let timestamp := strftime_compact (ServerMetadata.timestamp metadata) in
    site_name +:+ "_" +:+ timestamp +:+ ".json"
  else site_name +:+ ".json".

End StorageManager.

(** No character of [s] is a space or a slash. *)
Definition plain_name (s : string) : bool :=
  forallb (fun c => negb (Ascii.eqb c " ") && negb (Ascii.eqb c "/"))
    (list_ascii_of_string s).

Module sample_s3.

Definition remote : S3Storage.t := S3Storage.mk "metadata-bucket" "tableau_metadata/".

Definition empty_bucket : s3.t := s3.mk ∅ None.

(** A working directory in which [tableau_metadata] is a regular file. *)
Definition blocked : fs.t := {[ "tableau_metadata" := fs.File (fs.CsvRows []) ]}.

Definition manager : StorageManager.t :=
  StorageManager.mk sample_store.local None.

End sample_s3.

(* ===================================================================== *)
(** * [utils/helpers.py]: strings                                         *)
(* ===================================================================== *)

(** [text[:stop]]: a negative [stop] counts from the end. *)
Definition slice_to (text : string) (stop : Z) : string :=
  let n := Z.of_nat (String.length text) in
  let stop := if stop <? 0 then Z.max 0 (n + stop) else Z.min stop n in
  substring 0 (Z.to_nat stop) text.

Definition truncate_string (text : string) (max_length : Z) : string :=
  if Z.of_nat (String.length text) <=? max_length then text
  else slice_to text (max_length - 3) +:+ "...".

(** The characters [sanitize_filename] replaces:
    less-than, greater-than, colon, double quote, slash, backslash, bar,
    question mark, star. *)
Definition invalid_chars : list ascii :=
  ["<"; ">"; ":"; "034"; "/"; "092"; "|"; "?"; "*"]%char.

Definition sanitize_filename (filename : string) : string :=
  fold_left (fun filename char => str_replace char "_" filename)
    invalid_chars filename.

(** What one pass of [sanitize_filename] does to one character. *)
Definition sanitize_step (x c : ascii) : ascii :=
  if Ascii.eqb x c then "_"%char else x.

(** The characters [str.strip()] removes, among the code points below 256:
    tab to carriage return, the four separators 28 to 31, space, next line
    and no-break space. *)
Definition is_space (c : ascii) : bool :=
  let n := N_of_ascii c in
  ((9 <=? n) && (n <=? 13) || (28 <=? n) && (n <=? 32)
   || (n =? 133) || (n =? 160))%N.

Fixpoint lstrip (l : list ascii) : list ascii :=
  match l with
  | [] => []
  | c :: l' => if is_space c then lstrip l' else l
  end.

Definition rstrip (l : list ascii) : list ascii := rev (lstrip (rev l)).

(** [s.strip()] *)
Definition strip (l : list ascii) : list ascii := rstrip (lstrip l).

(** [s.split(sep)] for a one-character separator: one piece more than
    there are separators. *)
Fixpoint split_on (sep : ascii) (l : list ascii) : list (list ascii) :=
  match l with
  | [] => [[]]
  | c :: l' =>
      if Ascii.eqb c sep then [] :: split_on sep l'
      else match split_on sep l' with
           | piece :: pieces => (c :: piece) :: pieces
           | [] => [[c]]
           end
  end.

Definition parse_tags (tags_str : string) : list string :=
  if String.eqb tags_str "" then []
  else
    List.map (fun tag => string_of_list_ascii (strip tag))
      (List.filter (fun tag => match strip tag with [] => false | _ => true end)
         (split_on "," (list_ascii_of_string tags_str))).

(** A tag as [parse_tags] returns them: not empty, without a comma, and
    without white space at either end. *)
Definition clean_tag (tag : string) : bool :=
  let l := list_ascii_of_string tag in
  negb (String.eqb tag "")
  && forallb (fun c => negb (Ascii.eqb c ",")) l
  && bool_decide (strip l = l).

(* ===================================================================== *)
(** * [core/metadata.py]: the order of the recent-updates lists           *)
(* ===================================================================== *)

(** A value carries a UTC offset. *)
Definition aware (d : datetime.t) : bool :=
  match datetime.tzoffset d with
  | Some _ => true
  | None => false
  end.

(** The number two values of the same kind are compared by: the instant
    of an aware value, the wall-clock reading of a naive one. *)
Definition instant (d : datetime.t) : Z :=
  datetime.wall_us d - default 0 (datetime.tzoffset d).

(** The key functions of the two [sorted] calls of the summary. *)
Definition workbook_sort_key (x : WorkbookMetadata.t) : datetime.t :=
  default datetime.min (WorkbookMetadata.updated_at x).

Definition datasource_sort_key (x : DatasourceMetadata.t) : datetime.t :=
  default datetime.min (DatasourceMetadata.updated_at x).

(** A list holds a naive and an aware key. *)
Definition mixed {A} (key : A -> datetime.t) (l : list A) : bool :=
  existsb (fun x => aware (key x)) l && existsb (fun x => negb (aware (key x))) l.

(** No element is later than one before it. *)
Fixpoint descending {A} (key : A -> datetime.t) (l : list A) : Prop :=
  match l with
  | [] => True
  | x :: l' =>
      Forall (fun y => instant (key y) <= instant (key x)) l' /\ descending key l'
  end.

(** The entries of a recent-updates list. *)
Definition workbook_entries (l : list WorkbookMetadata.t) : pyval :=
  PList (List.map (fun wb => MetadataProcessor.update_entry (WorkbookMetadata.name wb)
                               (WorkbookMetadata.updated_at wb)) l).

Definition datasource_entries (l : list DatasourceMetadata.t) : pyval :=
  PList (List.map (fun ds => MetadataProcessor.update_entry (DatasourceMetadata.name ds)
                               (DatasourceMetadata.updated_at ds)) l).

Module sample_summary.

(** A workbook without an update time beside one with an aware one. *)
Definition never_updated : WorkbookMetadata.t :=
  WorkbookMetadata.mk "wb-3" "Draft" None "p-1" "Finance"
    "u-1" "alice" None None None None None None [] [] [] None.

Definition with_draft : ServerMetadata.t :=
  ServerMetadata.mk "https://tableau.example.com" "2023.3" "3.21" "site-1" "Main"
    sample.collected_at [sample.wb_sales; never_updated] [] [] [].

End sample_summary.

(* ===================================================================== *)
(** * Facts about [datetime]: [fromisoformat] inverts [isoformat]         *)
(* ===================================================================== *)

Section DatetimeFacts.
Import datetime.

Lemma digit_cases (k : Z) :
  0 <= k < 10 ->
  k = 0 \/ k = 1 \/ k = 2 \/ k = 3 \/ k = 4 \/ k = 5 \/ k = 6 \/ k = 7 \/ k = 8 \/ k = 9.
Proof. lia. Qed.





















End DatetimeFacts.

Section StrFacts.
Import datetime.









End StrFacts.

(* ===================================================================== *)
(** * Facts about the state monad and the file system                     *)
(* ===================================================================== *)

Lemma sbind_ok {S A B} (m : st S A) (k : A -> st S B) (s s' : S) (a : A) :
  m s = (Ok a, s') -> sbind m k s = k a s'.
Proof. unfold sbind. now intros ->. Qed.

Lemma sbind_raise {S A B} (m : st S A) (k : A -> st S B) (s s' : S) (e : exn) :
  m s = (Raise e, s') -> sbind m k s = (Raise e, s').
Proof. unfold sbind. now intros ->. Qed.

(* ===================================================================== *)
(** * The file system: making directories and writing files               *)
(* ===================================================================== *)

Section FileSystem.








Lemma file_at_spec (s : fs.t) (p : string) :
  fs.file_at s p = negb (fs.is_root p) && is_file s p.
Proof.
  unfold fs.file_at, fs.lookup, is_file. now destruct (fs.is_root p).
Qed.

Lemma mkdir_parents_step (fuel : nat) (p : string) (s : fs.t) :
  fs.mkdir_parents fuel p s
  = match fs.lookup s p with
    | Some fs.Dir => (Ok tt, s)
    | Some (fs.File _) =>
        (Raise (Exn OSError ("File exists: " +:+ repr_str p)), s)
    | None =>
        match fs.lookup s (path_parent p) with
        | Some fs.Dir => (Ok tt, <[p := fs.Dir]> s)
        | Some (fs.File _) =>
            (Raise (Exn OSError ("Not a directory: " +:+ repr_str p)), s)
        | None =>
            match fuel with
            | O => (Raise (Exn OSError ("No such file or directory: "
                                        +:+ repr_str p)), s)
            | S fuel' =>
                match fs.mkdir_parents fuel' (path_parent p) s with
                | (Ok _, s') => (Ok tt, <[p := fs.Dir]> s')
                | (Raise e, s') => (Raise e, s')
                end
            end
        end
    end.
Proof. destruct fuel; reflexivity. Qed.











(** [mkdir] on a regular file raises. *)
Lemma mkdir_on_file (p : string) (s : fs.t) :
  fs.file_at s p = true ->
  exists e : exn, fs.mkdir p s = (Raise e, s) /\ exn_class e = OSError.
Proof.
  unfold fs.mkdir, fs.file_at. rewrite mkdir_parents_step.
  destruct (fs.lookup s p) as [[c |] |]; try discriminate.
  eexists. split; reflexivity.
Qed.



(** Writing a file where the parent is missing or is a regular file
    raises and changes nothing. *)
Lemma write_file_no_parent (p : string) (c : fs.content) (s : fs.t) :
  fs.dir_at s (path_parent p) = false ->
  exists e : exn, fs.write_file p c s = (Raise e, s) /\ exn_class e = OSError.
Proof.
  unfold fs.write_file, fs.dir_at. intros Hq.
  destruct (fs.lookup s p) as [[c' |] |];
    destruct (fs.lookup s (path_parent p)) as [[c'' |] |]; try discriminate;
    eexists; split; reflexivity.
Qed.




Lemma dir_at_kept (s s' : fs.t) (p : string) :
  (forall q, s' !! q = s !! q \/ (s !! q = None /\ s' !! q = Some fs.Dir)) ->
  fs.dir_at s p = true -> fs.dir_at s' p = true.
Proof.
  unfold fs.dir_at, fs.lookup. intros H. destruct (fs.is_root p); [trivial |].
  destruct (H p) as [-> | [-> ->]]; [trivial | discriminate].
Qed.

End FileSystem.

(* ===================================================================== *)
(** * The JSON round trip through [LocalStorage]                          *)
(* ===================================================================== *)










(** A save below a path without directories makes every directory that
    is missing above the target. *)
Lemma save_makes_directories :
  dom (snd (LocalStorage.save_metadata sample_store.local sample.metadata
              "a/b/main.json" "json" ∅))
  = ({[ "store"; "store/a"; "store/a/b"; "store/a/b/main.json" ]} : gset string)
  /\ fst (LocalStorage.save_metadata sample_store.local sample.metadata
            "a/b/main.json" "json" ∅)
     = Ok "store/a/b/main.json".
Proof. split; vm_compute; reflexivity. Qed.

(** A save below a regular file raises and changes nothing. *)
Lemma save_below_regular_file :
  exists e : exn,
    LocalStorage.save_metadata sample_store.local sample.metadata
      "main.json/a/x.json" "json" sample_fs.one_file
    = (Raise e, sample_fs.one_file)
    /\ exn_class e = StorageError.
Proof. eexists. split; [vm_compute; reflexivity | reflexivity]. Qed.

(* ===================================================================== *)
(** * The retry loops                                                     *)
(* ===================================================================== *)

Section Retry.
Context {W A : Type}.
Variable operation : st W A.

(** The delays the client's loop sleeps, from attempt [k] on. *)
Lemma client_retry_loop_slept (self : TableauClient.t) (n k : nat) (w : W)
    (slept : list Qc) :
  exists j : nat,
    (j <= n)%nat /\
    snd (snd (TableauClient.retry_loop self operation (seq k n) (w, slept)))
    = slept ++ List.map (fun a => (TableauClient._retry_delay self * 2 ^ a)%Qc) (seq k j).
Proof.
  revert k w slept. induction n as [| n IH]; intros k w slept.
  - exists 0%nat. split; [lia |]. cbn. now rewrite app_nil_r.
  - cbn [seq TableauClient.retry_loop call].
    destruct (operation w) as [[a | e] w'].
    + exists 0%nat. split; [lia |]. cbn. now rewrite app_nil_r.
    + destruct (Z.of_nat k =? TableauClient._retry_count self - 1).
      * exists 0%nat. split; [lia |]. cbn. now rewrite app_nil_r.
      * unfold sbind, sleep.
        destruct (IH (S k) w' (slept ++ [(TableauClient._retry_delay self * 2 ^ k)%Qc]))
          as (j & Hj & E).
        exists (S j). split; [lia |].
        rewrite E. cbn [seq List.map]. now rewrite <- app_assoc.
Qed.

Lemma powers_doubling (d : Qc) (k j : nat) :
  doubling (List.map (fun a => (d * 2 ^ a)%Qc) (seq k j)).
Proof.
  intros i x y Hx Hy.
  rewrite list_lookup_fmap in Hx, Hy.
  destruct (seq k j !! i) as [a |] eqn:Ea; [| discriminate].
  destruct (seq k j !! S i) as [b |] eqn:Eb; [| discriminate].
  apply lookup_seq in Ea as [-> _]. apply lookup_seq in Eb as [-> _].
  cbn in Hx, Hy. injection Hx as <-. injection Hy as <-.
  replace (k + S i)%nat with (S (k + i)) by lia.
  cbn [Qcpower]. ring.
Qed.

Lemma helper_retry_loop_slept (print : console) (max_retries : Z) (n k : nat)
    (d : Qc) (w : W) (slept : list Qc) :
  exists j : nat,
    (j <= n)%nat /\
    snd (snd (helpers.retry_loop print operation max_retries (seq k n) d (w, slept)))
    = slept ++ doubled d j.
Proof.
  revert k d w slept. induction n as [| n IH]; intros k d w slept.
  - exists 0%nat. split; [lia |]. cbn. now rewrite app_nil_r.
  - cbn [seq helpers.retry_loop call].
    destruct (operation w) as [[a | e] w'].
    + exists 0%nat. split; [lia |]. cbn. now rewrite app_nil_r.
    + destruct (Z.of_nat k =? max_retries - 1).
      * exists 0%nat. split; [lia |]. cbn. now rewrite app_nil_r.
      * unfold sbind at 1, lift.
        destruct (print (AttemptFailed (Z.of_nat k + 1) (exn_str e))) as [[] | e1].
        2:{ exists 0%nat. split; [lia |]. cbn. now rewrite app_nil_r. }
        unfold sbind at 1.
        destruct (print (RetryingIn d)) as [[] | e2].
        2:{ exists 0%nat. split; [lia |]. cbn. now rewrite app_nil_r. }
        unfold sbind, sleep.
        destruct (IH (S k) (d * 2)%Qc w' (slept ++ [d])) as (j & Hj & E).
        exists (S j). split; [lia |].
        rewrite E. cbn [doubled]. now rewrite <- app_assoc.
Qed.

Lemma doubled_doubling (d : Qc) (j : nat) : doubling (doubled d j).
Proof.
  revert d. induction j as [| j IH]; intros d i x y Hx Hy; [discriminate |].
  destruct i as [| i].
  - destruct j as [| j]; [discriminate |].
    cbn in Hx, Hy. injection Hx as <-. injection Hy as <-. ring.
  - cbn [doubled] in Hx, Hy. exact (IH _ i x y Hx Hy).
Qed.

(** Whatever the operation does and however the client is configured, the
    delays [_retry_operation] sleeps double from one to the next. *)
Lemma client_delays_double (self : TableauClient.t) (w : W) :
  doubling (snd (snd (TableauClient._retry_operation self operation (w, [])))).
Proof.
  unfold TableauClient._retry_operation.
  destruct (client_retry_loop_slept self (Z.to_nat (TableauClient._retry_count self))
              0 w []) as (j & _ & ->).
  apply powers_doubling.
Qed.

Lemma helper_delays_double (print : console) (max_retries : Z) (d : Qc) (w : W) :
  doubling (snd (snd (helpers.retry_on_failure print operation max_retries d (w, [])))).
Proof.
  unfold helpers.retry_on_failure.
  destruct (helper_retry_loop_slept print max_retries (Z.to_nat max_retries) 0 d w [])
    as (j & _ & ->).
  apply doubled_doubling.
Qed.

Lemma Qc_one_times_two : (1 * 2 ^ 1 = 2)%Qc.
Proof. apply Qc_is_canon. reflexivity. Qed.

Lemma Qc_one_times_one : (1 * 2 ^ 0 = 1)%Qc.
Proof. apply Qc_is_canon. reflexivity. Qed.

Lemma Qc_one_doubled : (1 * 2 = 2)%Qc.
Proof. apply Qc_is_canon. reflexivity. Qed.

(** With the attribute values [__init__] sets (three attempts, one second)
    and with the helper's defaults: when the operation raises on the first
    two attempts, the client's wrapper answers what the third attempt
    answers (its result when it succeeds, its own exception, class and
    message unchanged, when it raises too), having slept 1 second and then
    2 seconds; so does the helper when the console prints its four
    messages; and on every run, whatever the console does, the delays
    slept double from one to the next. *)
Lemma third_attempt_decides (print : console) (w0 w1 w2 w3 : W) (e1 e2 : exn)
    (r3 : result A) (slept : list Qc) :
  operation w0 = (Raise e1, w1) ->
  operation w1 = (Raise e2, w2) ->
  operation w2 = (r3, w3) ->
  TableauClient._retry_operation TableauClient.init operation (w0, slept)
  = (final_answer r3, (w3, slept ++ [1; 2]%Qc)) /\
  ((forall message, print message = Ok tt) ->
   helpers.retry_on_failure_default print operation (w0, slept)
   = (final_answer r3, (w3, slept ++ [1; 2]%Qc))) /\
  (forall w : W,
     doubling (snd (snd (TableauClient._retry_operation TableauClient.init
                           operation (w, [])))) /\
     doubling (snd (snd (helpers.retry_on_failure_default print operation (w, []))))).
Proof.
  intros H1 H2 H3. split; [| split].
  - unfold TableauClient._retry_operation, TableauClient.init.
    cbn [TableauClient._retry_count].
    change (Z.to_nat 3) with 3%nat.
    cbn [seq TableauClient.retry_loop call sbind sleep].
    rewrite H1. change (Z.of_nat 0 =? _) with false. cbv beta iota.
    unfold sbind at 1. cbn [sleep TableauClient.retry_loop call].
    rewrite H2. change (Z.of_nat 1 =? _) with false. cbv beta iota.
    unfold sbind at 1. cbn [sleep TableauClient.retry_loop call].
    rewrite H3. change (Z.of_nat 2 =? _) with true.
    cbn [TableauClient._retry_delay].
    rewrite Qc_one_times_one, Qc_one_times_two, <- app_assoc.
    destruct r3; reflexivity.
  - intros Hprint.
    unfold helpers.retry_on_failure_default, helpers.retry_on_failure.
    change (Z.to_nat 3) with 3%nat.
    cbn [seq helpers.retry_loop call].
    rewrite H1. change (Z.of_nat 0 =? _) with false. cbv beta iota.
    unfold sbind at 1, lift. rewrite Hprint.
    unfold sbind at 1. rewrite Hprint.
    unfold sbind at 1. cbn [sleep helpers.retry_loop call].
    rewrite H2. change (Z.of_nat 1 =? _) with false. cbv beta iota.
    unfold sbind at 1, lift. rewrite Hprint.
    unfold sbind at 1. rewrite Hprint.
    unfold sbind at 1. cbn [sleep helpers.retry_loop call].
    rewrite H3. change (Z.of_nat 2 =? _) with true.
    rewrite Qc_one_doubled, <- app_assoc.
    destruct r3; reflexivity.
  - intros w. split.
    + apply client_delays_double.
    + apply helper_delays_double.
Qed.

End Retry.

(** C2. The retry helper prints the text of a failure as console markup
    before it sleeps.  An operation whose first two calls fail with the
    message [[/api/3.21/auth/signin]] and whose third call returns 42: the
    client's wrapper returns 42 after three calls, having slept 1 second
    and then 2 seconds; the helper with its defaults calls the operation
    once, sleeps never, and raises the console's [MarkupError] in place of
    the result of the third attempt. *)
Theorem retry_on_failure_markup_error :
  TableauClient._retry_operation TableauClient.init sample_retry.sign_in (0%nat, [])
  = (Ok (Some 42), (3%nat, [1; 2]%Qc))
  /\ helpers.retry_on_failure_default sample_retry.rich sample_retry.sign_in (0%nat, [])
     = (Raise (Exn MarkupError
                 "closing tag '[/api/3.21/auth/signin]' at position 26 doesn't match any open tag"),
        (1%nat, []))
  /\ helpers.retry_on_failure_default sample_retry.quiet sample_retry.sign_in (0%nat, [])
     = (Ok (Some 42), (3%nat, [1; 2]%Qc)).
Proof.
  split; [| split].
  - destruct (third_attempt_decides sample_retry.sign_in sample_retry.quiet
                0%nat 1%nat 2%nat 3%nat
                (Exn ConnectionError "[/api/3.21/auth/signin]")
                (Exn ConnectionError "[/api/3.21/auth/signin]")
                (Ok 42) [] eq_refl eq_refl eq_refl) as [E _].
    exact E.
  - reflexivity.
  - destruct (third_attempt_decides sample_retry.sign_in sample_retry.quiet
                0%nat 1%nat 2%nat 3%nat
                (Exn ConnectionError "[/api/3.21/auth/signin]")
                (Exn ConnectionError "[/api/3.21/auth/signin]")
                (Ok 42) [] eq_refl eq_refl eq_refl) as (_ & E & _).
    apply E. reflexivity.
Qed.

(* ===================================================================== *)
(** * [filter_metadata] on values                                         *)
(* ===================================================================== *)

Section ListFilters.
Context {A : Type}.

Lemma rfilter_total (q : A -> bool) (l : list A) :
  rfilter (fun x => Ok (q x)) l = Ok (List.filter q l).
Proof.
  induction l as [| x l IH]; [reflexivity |].
  cbn [rfilter List.filter rbind]. rewrite IH. cbn [rbind]. reflexivity.
Qed.

(** A comprehension that returns kept exactly the elements on which its
    condition answered [True]. *)
Lemma rfilter_ok (p : A -> result bool) (l l' : list A) :
  rfilter p l = Ok l' ->
  l' = List.filter (fun x => match p x with Ok b => b | Raise _ => false end) l
  /\ Forall (fun x => exists b, p x = Ok b) l.
Proof.
  revert l'. induction l as [| x l IH]; intros l' H.
  - injection H as <-. split; [reflexivity | constructor].
  - cbn [rfilter] in H. destruct (p x) as [b |] eqn:E; [| discriminate].
    cbn [rbind] in H. destruct (rfilter p l) as [ys |]; [| discriminate].
    cbn [rbind] in H. injection H as <-.
    destruct (IH ys eq_refl) as [-> HF].
    split; [cbn [List.filter]; rewrite E; reflexivity |].
    constructor; [eauto | exact HF].
Qed.

Lemma rfilter_defined (p : A -> result bool) (l : list A) :
  Forall (fun x => exists b, p x = Ok b) l ->
  rfilter p l = Ok (List.filter (fun x => match p x with Ok b => b | Raise _ => false end) l).
Proof.
  induction 1 as [| x l [b E] _ IH]; [reflexivity |].
  cbn [rfilter List.filter]. rewrite E, IH. reflexivity.
Qed.

Lemma filter_filter (p q : A -> bool) (l : list A) :
  List.filter p (List.filter q l) = List.filter (fun x => q x && p x) l.
Proof.
  induction l as [| x l IH]; [reflexivity |].
  cbn [List.filter]. destruct (q x); cbn [List.filter andb]; now rewrite IH.
Qed.

Lemma filter_true (l : list A) : List.filter (fun _ => true) l = l.
Proof.
  induction l as [| x l IH]; [reflexivity |]. cbn [List.filter]. now rewrite IH.
Qed.

Lemma filter_and3 (a b c : A -> bool) (l : list A) :
  List.filter (fun x => a x && b x && c x) l
  = List.filter c (List.filter b (List.filter a l)).
Proof.
  rewrite !filter_filter. apply List.filter_ext. intros x.
  now rewrite andb_assoc.
Qed.

Lemma Forall_filter_sub (P : A -> Prop) (q q' : A -> bool) (l : list A) :
  (forall x, q' x = true -> q x = true) ->
  Forall P (List.filter q l) -> Forall P (List.filter q' l).
Proof.
  intros Hsub. induction l as [| x l IH]; [constructor |].
  cbn [List.filter]. intros H.
  destruct (q' x) eqn:E'.
  - rewrite (Hsub x E') in H. inversion H; subst. constructor; auto.
  - apply IH. destruct (q x); [now inversion H | exact H].
Qed.

End ListFilters.

(** [filter_metadata] in one step: the three membership filters select,
    then the update-time floor, if given, is evaluated on what is left, on
    workbooks, then data sources, then flows. *)
Lemma filter_metadata_unfold (m : ServerMetadata.t) (f : MetadataProcessor.filters) :
  MetadataProcessor.filter_metadata m f =
  reraise_as MetadataError "Failed to filter metadata: "
    (let wbs := List.filter (workbook_matches f) (ServerMetadata.workbooks m) in
     let dss := List.filter (datasource_matches f) (ServerMetadata.datasources m) in
     let ps := List.filter (project_matches f) (ServerMetadata.projects m) in
     let fls := List.filter (flow_matches f) (ServerMetadata.flows m) in
     match MetadataProcessor.updated_since f with
     | Some since =>
         wbs' <- rfilter (fun wb => MetadataProcessor.updated_ge
                                      (WorkbookMetadata.updated_at wb) since) wbs ;;
         dss' <- rfilter (fun ds => MetadataProcessor.updated_ge
                                      (DatasourceMetadata.updated_at ds) since) dss ;;
         fls' <- rfilter (fun fl => MetadataProcessor.updated_ge
                                      (FlowMetadata.updated_at fl) since) fls ;;
         Ok (with_lists m wbs' dss' ps fls')
     | None => Ok (with_lists m wbs dss ps fls)
     end).
Proof.
  unfold MetadataProcessor.filter_metadata, workbook_matches, datasource_matches,
    flow_matches, project_matches, with_lists.
  cbv zeta. rewrite !filter_and3.
  destruct f as [[pn |] [on |] [tg |] [since |]];
    cbn [MetadataProcessor.project_names MetadataProcessor.owner_names
         MetadataProcessor.tags MetadataProcessor.updated_since when_given rbind];
    rewrite ?filter_true; try reflexivity.
  all: f_equal.
  all: repeat match goal with
         | |- context [rfilter ?p ?l] =>
             lazymatch goal with
             | |- context [match rfilter p l with _ => _ end] => fail
             | _ => destruct (rfilter p l); cbn [rbind]; try reflexivity
             end
         end.
Qed.

(** When [filter_metadata] returns, and what. *)
Lemma filter_metadata_ok_iff (m r : ServerMetadata.t) (f : MetadataProcessor.filters) :
  MetadataProcessor.filter_metadata m f = Ok r <->
  r = with_lists m
        (List.filter (keeps_workbook f) (ServerMetadata.workbooks m))
        (List.filter (keeps_datasource f) (ServerMetadata.datasources m))
        (List.filter (project_matches f) (ServerMetadata.projects m))
        (List.filter (keeps_flow f) (ServerMetadata.flows m))
  /\ (forall since, MetadataProcessor.updated_since f = Some since ->
        Forall (fun wb => comparable since (WorkbookMetadata.updated_at wb))
          (List.filter (workbook_matches f) (ServerMetadata.workbooks m))
        /\ Forall (fun ds => comparable since (DatasourceMetadata.updated_at ds))
             (List.filter (datasource_matches f) (ServerMetadata.datasources m))
        /\ Forall (fun fl => comparable since (FlowMetadata.updated_at fl))
             (List.filter (flow_matches f) (ServerMetadata.flows m))).
Proof.
  rewrite filter_metadata_unfold. cbv zeta.
  unfold keeps_workbook, keeps_datasource, keeps_flow.
  destruct (MetadataProcessor.updated_since f) as [since |]; cbn [when_given].
  - split.
    + intros H.
      destruct (rfilter _ (List.filter (workbook_matches f) _)) as [wbs |] eqn:Ew;
        [| discriminate].
      destruct (rfilter _ (List.filter (datasource_matches f) _)) as [dss |] eqn:Ed;
        [| discriminate].
      destruct (rfilter _ (List.filter (flow_matches f) _)) as [fls |] eqn:Ef;
        [| discriminate].
      cbn [rbind reraise_as] in H. injection H as <-.
      apply rfilter_ok in Ew as [-> Hw], Ed as [-> Hd], Ef as [-> Hf].
      rewrite !filter_filter. split; [reflexivity |].
      intros s [= <-]. auto.
    + intros [-> H]. destruct (H since eq_refl) as (Hw & Hd & Hf).
      rewrite (rfilter_defined _ _ Hw), (rfilter_defined _ _ Hd), (rfilter_defined _ _ Hf).
      cbn [rbind reraise_as]. now rewrite !filter_filter.
  - cbn [reraise_as]. split.
    + intros [= <-]. split; [| discriminate].
      f_equal; apply List.filter_ext; intros x; now rewrite andb_true_r.
    + intros [-> _]. f_equal.
      f_equal; apply List.filter_ext; intros x; now rewrite andb_true_r.
Qed.

Lemma filter_metadata_raises (m : ServerMetadata.t) (f : MetadataProcessor.filters)
    (e : exn) :
  MetadataProcessor.filter_metadata m f = Raise e ->
  exn_class e = MetadataError /\ is_Some (MetadataProcessor.updated_since f).
Proof.
  rewrite filter_metadata_unfold. cbv zeta.
  destruct (MetadataProcessor.updated_since f) as [since |]; [| discriminate].
  intros H. split; [| eauto].
  destruct (rbind _ _) in H; [discriminate |].
  cbn [reraise_as] in H. now injection H as <-.
Qed.

(** C5, as the code has it, for a filter dictionary whose values are
    lists of strings and a datetime.  [filter_metadata] returns exactly
    when the update-time floor, if one is given, can be compared with the
    update time of every workbook, data source and flow that meets the
    membership predicates (an element without update time is compared
    with nothing); it then returns the metadata whose workbook,
    data-source and flow lists hold, in their original order, exactly the
    elements that meet every predicate the dictionary specifies
    (project-name membership, owner-name membership, tag intersection,
    update-time floor), and whose project list is constrained by
    project-name membership alone, tested on the project's own name; a
    predicate whose key is absent constrains nothing.  When it does not
    return it raises [MetadataError]. *)
Theorem filter_metadata_conjunction (m : ServerMetadata.t)
    (f : MetadataProcessor.filters) :
  (forall r : ServerMetadata.t,
     MetadataProcessor.filter_metadata m f = Ok r <->
     r = with_lists m
           (List.filter (keeps_workbook f) (ServerMetadata.workbooks m))
           (List.filter (keeps_datasource f) (ServerMetadata.datasources m))
           (List.filter (project_matches f) (ServerMetadata.projects m))
           (List.filter (keeps_flow f) (ServerMetadata.flows m))
     /\ (forall since, MetadataProcessor.updated_since f = Some since ->
           Forall (fun wb => comparable since (WorkbookMetadata.updated_at wb))
             (List.filter (workbook_matches f) (ServerMetadata.workbooks m))
           /\ Forall (fun ds => comparable since (DatasourceMetadata.updated_at ds))
                (List.filter (datasource_matches f) (ServerMetadata.datasources m))
           /\ Forall (fun fl => comparable since (FlowMetadata.updated_at fl))
                (List.filter (flow_matches f) (ServerMetadata.flows m))))
  /\ (forall e : exn,
        MetadataProcessor.filter_metadata m f = Raise e ->
        exn_class e = MetadataError).
Proof.
  split.
  - intros r. apply filter_metadata_ok_iff.
  - intros e E. now apply filter_metadata_raises in E.
Qed.

(** An empty filter dictionary changes nothing. *)
Lemma filter_metadata_no_filters (m : ServerMetadata.t) :
  MetadataProcessor.filter_metadata m sample.no_filters = Ok m.
Proof.
  rewrite filter_metadata_unfold. cbv zeta.
  unfold workbook_matches, datasource_matches, project_matches, flow_matches.
  cbn [sample.no_filters MetadataProcessor.project_names MetadataProcessor.owner_names
       MetadataProcessor.tags MetadataProcessor.updated_since when_given andb
       reraise_as].
  rewrite !filter_true. now destruct m.
Qed.

Section FilterUnion.
Variables a b : MetadataProcessor.filters.
Hypothesis Hdisj : filters_disjoint a b = true.

Lemma when_given_opt_or {A} (oa ob : option A) (p : A -> bool) :
  both_given oa ob = false ->
  when_given (opt_or oa ob) p = when_given oa p && when_given ob p.
Proof.
  destruct oa, ob; cbn; intros H; try discriminate;
    now rewrite ?andb_true_r.
Qed.

Lemma disjoint_fields :
  both_given (MetadataProcessor.project_names a) (MetadataProcessor.project_names b) = false
  /\ both_given (MetadataProcessor.owner_names a) (MetadataProcessor.owner_names b) = false
  /\ both_given (MetadataProcessor.tags a) (MetadataProcessor.tags b) = false
  /\ both_given (MetadataProcessor.updated_since a) (MetadataProcessor.updated_since b) = false.
Proof.
  unfold filters_disjoint in Hdisj.
  repeat (apply andb_prop in Hdisj as [Hdisj ?]).
  repeat match goal with
         | H : negb _ = true |- _ => apply negb_true_iff in H
         end.
  tauto.
Qed.

Ltac split_union :=
  destruct disjoint_fields as (Hp & Ho & Ht & Hu);
  unfold filters_union;
  cbn [MetadataProcessor.project_names MetadataProcessor.owner_names
       MetadataProcessor.tags MetadataProcessor.updated_since];
  rewrite ?(when_given_opt_or _ _ _ Hp), ?(when_given_opt_or _ _ _ Ho),
    ?(when_given_opt_or _ _ _ Ht), ?(when_given_opt_or _ _ _ Hu).

Ltac bool_cases :=
  repeat match goal with
         | |- context [when_given ?o ?p] =>
             let v := fresh "v" in
             generalize (when_given o p); intros v
         end;
  repeat match goal with
         | v : bool |- _ => destruct v
         end;
  reflexivity.

Lemma workbook_matches_union (x : WorkbookMetadata.t) :
  workbook_matches (filters_union a b) x = workbook_matches a x && workbook_matches b x.
Proof. unfold workbook_matches. split_union. bool_cases. Qed.

Lemma datasource_matches_union (x : DatasourceMetadata.t) :
  datasource_matches (filters_union a b) x
  = datasource_matches a x && datasource_matches b x.
Proof. unfold datasource_matches. split_union. bool_cases. Qed.

Lemma flow_matches_union (x : FlowMetadata.t) :
  flow_matches (filters_union a b) x = flow_matches a x && flow_matches b x.
Proof. unfold flow_matches. split_union. bool_cases. Qed.

Lemma project_matches_union (x : ProjectMetadata.t) :
  project_matches (filters_union a b) x = project_matches a x && project_matches b x.
Proof. unfold project_matches. split_union. bool_cases. Qed.

Lemma keeps_workbook_union (x : WorkbookMetadata.t) :
  keeps_workbook (filters_union a b) x = keeps_workbook a x && keeps_workbook b x.
Proof. unfold keeps_workbook, workbook_matches. split_union. bool_cases. Qed.

Lemma keeps_datasource_union (x : DatasourceMetadata.t) :
  keeps_datasource (filters_union a b) x = keeps_datasource a x && keeps_datasource b x.
Proof. unfold keeps_datasource, datasource_matches. split_union. bool_cases. Qed.

Lemma keeps_flow_union (x : FlowMetadata.t) :
  keeps_flow (filters_union a b) x = keeps_flow a x && keeps_flow b x.
Proof. unfold keeps_flow, flow_matches. split_union. bool_cases. Qed.

End FilterUnion.

(** C4, as the code has it.  For two filter dictionaries with disjoint
    keys: whenever filtering by the first and then filtering the result by
    the second returns, filtering once by their union returns an equal
    [ServerMetadata]. *)
Theorem filter_twice_is_filter_union (m m1 r : ServerMetadata.t)
    (a b : MetadataProcessor.filters) :
  filters_disjoint a b = true ->
  MetadataProcessor.filter_metadata m a = Ok m1 ->
  MetadataProcessor.filter_metadata m1 b = Ok r ->
  MetadataProcessor.filter_metadata m (filters_union a b) = Ok r.
Proof.
  intros Hdisj H1 H2.
  apply filter_metadata_ok_iff in H1 as [-> D1].
  apply filter_metadata_ok_iff in H2 as [-> D2].
  cbn [with_lists ServerMetadata.workbooks ServerMetadata.datasources
       ServerMetadata.projects ServerMetadata.flows] in D2.
  apply filter_metadata_ok_iff. split.
  - unfold with_lists.
    cbn [ServerMetadata.workbooks ServerMetadata.datasources ServerMetadata.projects
         ServerMetadata.flows ServerMetadata.server_url ServerMetadata.version
         ServerMetadata.rest_api_version ServerMetadata.site_id
         ServerMetadata.site_name ServerMetadata.timestamp].
    rewrite !filter_filter.
    f_equal; apply List.filter_ext; intros x; symmetry.
    + now apply keeps_workbook_union.
    + now apply keeps_datasource_union.
    + now apply project_matches_union.
    + now apply keeps_flow_union.
  - intros since Hs. unfold filters_union in Hs.
    cbn [MetadataProcessor.updated_since] in Hs.
    destruct (MetadataProcessor.updated_since a) as [sa |] eqn:Ea.
    + injection Hs as <-. destruct (D1 sa eq_refl) as (Hw & Hd & Hf).
      repeat split.
      * eapply Forall_filter_sub; [| exact Hw]. intros x Hx.
        rewrite workbook_matches_union in Hx by exact Hdisj.
        now apply andb_prop in Hx as [Hx _].
      * eapply Forall_filter_sub; [| exact Hd]. intros x Hx.
        rewrite datasource_matches_union in Hx by exact Hdisj.
        now apply andb_prop in Hx as [Hx _].
      * eapply Forall_filter_sub; [| exact Hf]. intros x Hx.
        rewrite flow_matches_union in Hx by exact Hdisj.
        now apply andb_prop in Hx as [Hx _].
    + cbn [opt_or] in Hs. destruct (D2 since Hs) as (Hw & Hd & Hf).
      rewrite filter_filter in Hw. rewrite filter_filter in Hd.
      rewrite filter_filter in Hf.
      unfold keeps_workbook, keeps_datasource, keeps_flow in Hw, Hd, Hf.
      rewrite Ea in Hw, Hd, Hf. cbn [when_given] in Hw, Hd, Hf.
      repeat split.
      * eapply Forall_filter_sub; [| exact Hw]. intros x Hx. cbv beta.
        rewrite workbook_matches_union in Hx by exact Hdisj.
        now rewrite andb_true_r.
      * eapply Forall_filter_sub; [| exact Hd]. intros x Hx. cbv beta.
        rewrite datasource_matches_union in Hx by exact Hdisj.
        now rewrite andb_true_r.
      * eapply Forall_filter_sub; [| exact Hf]. intros x Hx. cbv beta.
        rewrite flow_matches_union in Hx by exact Hdisj.
        now rewrite andb_true_r.
Qed.

(** C4 as stated fails: with a naive update-time floor and workbooks
    whose timestamps are aware, filtering by the floor raises, so the
    nested application raises, while the single application, which first
    empties the lists by project name, returns. *)
Lemma filter_twice_raises_where_union_returns :
  filters_disjoint sample.since_naive sample.no_projects = true /\
  (m1 <- MetadataProcessor.filter_metadata sample.metadata sample.since_naive ;;
   MetadataProcessor.filter_metadata m1 sample.no_projects)
  = Raise (Exn MetadataError
             "Failed to filter metadata: can't compare offset-naive and offset-aware datetimes") /\
  MetadataProcessor.filter_metadata sample.metadata
    (filters_union sample.since_naive sample.no_projects)
  = Ok sample.empty_metadata /\
  (m1 <- MetadataProcessor.filter_metadata sample.metadata sample.since_naive ;;
   MetadataProcessor.filter_metadata m1 sample.no_projects)
  <> MetadataProcessor.filter_metadata sample.metadata
       (filters_union sample.since_naive sample.no_projects).
Proof.
  repeat split; try (vm_compute; reflexivity).
  vm_compute. discriminate.
Qed.

(** C5 as stated fails: a project updated before the floor stays in the
    project list. *)
Lemma filter_keeps_stale_project :
  exists r : ServerMetadata.t,
    MetadataProcessor.filter_metadata sample.metadata sample.since_utc = Ok r /\
    In sample.p_finance (ServerMetadata.projects r) /\
    MetadataProcessor.updated_ge (ProjectMetadata.updated_at sample.p_finance)
      sample.new_year_2024_utc = Ok false.
Proof.
  eexists. split; [vm_compute; reflexivity |].
  split; [left; reflexivity | vm_compute; reflexivity].
Qed.

(* ===================================================================== *)
(** * The CSV export                                                      *)
(* ===================================================================== *)


Lemma path_join_relative (base name : string) :
  String.prefix "/" name = false -> path_join base name = base +:+ "/" +:+ name.
Proof. unfold path_join. now intros ->. Qed.


Section Names.

Lemma chars_append (a b : string) :
  list_ascii_of_string (a +:+ b) = list_ascii_of_string a ++ list_ascii_of_string b.
Proof.
  induction a as [| c a IH]; [reflexivity |].
  change (String c a +:+ b) with (String c (a +:+ b)).
  cbn [list_ascii_of_string app]. now rewrite IH.
Qed.

Lemma str_replace_removes (old : ascii) (new s : string) :
  forallb (fun c => negb (Ascii.eqb c old)) (list_ascii_of_string new) = true ->
  forallb (fun c => negb (Ascii.eqb c old))
    (list_ascii_of_string (str_replace old new s)) = true.
Proof.
  intros Hnew. induction s as [| c s IH]; [reflexivity |].
  cbn [str_replace]. destruct (Ascii.eqb c old) eqn:E.
  - rewrite chars_append, forallb_app, Hnew. exact IH.
  - cbn [list_ascii_of_string forallb]. now rewrite E, IH.
Qed.

Lemma str_replace_keeps (P : ascii -> bool) (old : ascii) (new s : string) :
  forallb P (list_ascii_of_string new) = true ->
  forallb P (list_ascii_of_string s) = true ->
  forallb P (list_ascii_of_string (str_replace old new s)) = true.
Proof.
  intros Hnew. induction s as [| c s IH]; [reflexivity |].
  cbn [list_ascii_of_string forallb]. intros [Hc Hs]%andb_prop.
  cbn [str_replace]. destruct (Ascii.eqb c old).
  - rewrite chars_append, forallb_app, Hnew. now apply IH.
  - cbn [list_ascii_of_string forallb]. now rewrite Hc, IH.
Qed.

Lemma plain_name_split (s : string) :
  plain_name s
  = forallb (fun c => negb (Ascii.eqb c " ")) (list_ascii_of_string s)
    && forallb (fun c => negb (Ascii.eqb c "/")) (list_ascii_of_string s).
Proof.
  unfold plain_name. induction (list_ascii_of_string s) as [| c l IH]; [reflexivity |].
  cbn [forallb]. rewrite IH.
  destruct (negb (Ascii.eqb c " ")), (negb (Ascii.eqb c "/")); cbn;
    try reflexivity; now rewrite ?andb_false_r.
Qed.

Lemma plain_name_append (a b : string) :
  plain_name (a +:+ b) = plain_name a && plain_name b.
Proof. unfold plain_name. now rewrite chars_append, forallb_app. Qed.

Lemma plain_site_name (s : string) :
  plain_name (str_replace "/" "_" (str_replace " " "_" s)) = true.
Proof.
  rewrite plain_name_split. apply andb_true_intro. split.
  - apply str_replace_keeps; [reflexivity |].
    now apply str_replace_removes.
  - now apply str_replace_removes.
Qed.

Lemma plain_digit (n : Z) :
  negb (Ascii.eqb (datetime.digit_char (n mod 10)) " ")
  && negb (Ascii.eqb (datetime.digit_char (n mod 10)) "/") = true.
Proof.
  pose proof (Z.mod_pos_bound n 10 ltac:(lia)) as H.
  destruct (digit_cases _ H)
    as [-> | [-> | [-> | [-> | [-> | [-> | [-> | [-> | [-> | ->]]]]]]]]];
    reflexivity.
Qed.

Lemma plain_digits (w : nat) (n : Z) :
  forallb (fun c => negb (Ascii.eqb c " ") && negb (Ascii.eqb c "/"))
    (datetime.fmt_digits w n) = true.
Proof.
  revert n. induction w as [| w IH]; intros n; [reflexivity |].
  cbn [datetime.fmt_digits]. rewrite forallb_app, IH. cbn [forallb].
  now rewrite plain_digit.
Qed.

Lemma plain_timestamp (d : datetime.t) :
  plain_name (StorageManager.strftime_compact d) = true.
Proof.
  unfold plain_name, StorageManager.strftime_compact.
  rewrite list_ascii_of_string_of_list_ascii.
  repeat (rewrite ?forallb_app; cbn [forallb]; rewrite ?plain_digits).
  reflexivity.
Qed.

Lemma str_append_assoc (a b c : string) : (a +:+ b) +:+ c = a +:+ (b +:+ c).
Proof.
  induction a as [| x a IH]; [reflexivity |].
  change (String x a +:+ b) with (String x (a +:+ b)).
  change (String x (a +:+ b) +:+ c) with (String x ((a +:+ b) +:+ c)).
  now rewrite IH.
Qed.

Lemma length_append (a b : string) :
  String.length (a +:+ b) = (String.length a + String.length b)%nat.
Proof.
  induction a as [| c a IH]; [reflexivity |].
  change (String c a +:+ b) with (String c (a +:+ b)).
  cbn [String.length Nat.add]. now rewrite IH.
Qed.

Lemma substring_all (s : string) : substring 0 (String.length s) s = s.
Proof.
  induction s as [| c s IH]; [reflexivity |].
  cbn [String.length substring]. now rewrite IH.
Qed.

Lemma substring_append (a b : string) (i k : nat) :
  substring (String.length a + i) k (a +:+ b) = substring i k b.
Proof.
  induction a as [| c a IH]; [reflexivity |].
  change (String c a +:+ b) with (String c (a +:+ b)).
  cbn [String.length Nat.add substring]. exact IH.
Qed.

Lemma endswith_json (x : string) :
  endswith (x +:+ ".json") ".json" = true /\ endswith (x +:+ ".json") ".gz" = false.
Proof.
  unfold endswith. rewrite length_append. cbn [String.length]. split.
  - replace (String.length x + 5 - 5)%nat with (String.length x + 0)%nat by lia.
    rewrite substring_append. apply andb_true_intro. split; [| reflexivity].
    apply Nat.leb_le. lia.
  - replace (String.length x + 5 - 3)%nat with (String.length x + 2)%nat by lia.
    rewrite substring_append. apply andb_false_r.
Qed.

Lemma dirname_chars_none (l : list ascii) :
  forallb (fun c => negb (Ascii.eqb c "/")) l = true -> dirname_chars l = None.
Proof.
  induction l as [| c l IH]; [reflexivity |].
  cbn [forallb dirname_chars]. intros [Hc Hl]%andb_prop.
  rewrite (IH Hl). now apply negb_true_iff in Hc as ->.
Qed.

Lemma dirname_chars_joined (b n : list ascii) :
  forallb (fun c => negb (Ascii.eqb c "/")) n = true ->
  dirname_chars (b ++ "/"%char :: n) = Some b.
Proof.
  intros Hn. induction b as [| c b IH].
  - cbn [app dirname_chars]. now rewrite (dirname_chars_none _ Hn).
  - cbn [app dirname_chars]. now rewrite IH.
Qed.

(** A name without a slash, joined to a base directory, lies directly in
    that directory. *)
Lemma plain_name_in_base (base name : string) :
  String.eqb base "" = false ->
  plain_name name = true ->
  path_join base name = base +:+ "/" +:+ name
  /\ path_parent (path_join base name) = base.
Proof.
  intros Hbase Hname.
  assert (Hrel : String.prefix "/" name = false).
  { destruct name as [| c name]; [reflexivity |].
    unfold plain_name in Hname. cbn [list_ascii_of_string forallb] in Hname.
    apply andb_prop in Hname as [Hc _]. apply andb_prop in Hc as [_ Hc].
    apply negb_true_iff in Hc. cbn [String.prefix].
    destruct (ascii_dec "/" c) as [<- | Hne]; [discriminate | reflexivity]. }
  rewrite (path_join_relative _ _ Hrel). split; [reflexivity |].
  unfold path_parent. rewrite chars_append.
  change (list_ascii_of_string ("/" +:+ name)) with ("/"%char :: list_ascii_of_string name).
  rewrite dirname_chars_joined.
  - destruct base as [| c base]; [discriminate |].
    cbn [list_ascii_of_string]. now rewrite <- (string_of_list_ascii_of_string (String c base)).
  - rewrite plain_name_split in Hname. now apply andb_prop in Hname as [_ ?].
Qed.

(** The directory a joined name lies in. *)
Lemma joined_parent (base name : string) :
  plain_name name = true ->
  path_parent (path_join base name) = if String.eqb base "" then "/" else base.
Proof.
  intros Hname.
  assert (Hrel : String.prefix "/" name = false).
  { destruct name as [| c name]; [reflexivity |].
    unfold plain_name in Hname. cbn [list_ascii_of_string forallb] in Hname.
    apply andb_prop in Hname as [Hc _]. apply andb_prop in Hc as [_ Hc].
    apply negb_true_iff in Hc. cbn [String.prefix].
    destruct (ascii_dec "/" c) as [<- | Hne]; [discriminate | reflexivity]. }
  rewrite (path_join_relative _ _ Hrel).
  unfold path_parent. rewrite chars_append.
  change (list_ascii_of_string ("/" +:+ name)) with ("/"%char :: list_ascii_of_string name).
  rewrite dirname_chars_joined.
  - destruct base as [| c base]; [reflexivity |].
    cbn [list_ascii_of_string String.eqb].
    now rewrite <- (string_of_list_ascii_of_string (String c base)).
  - rewrite plain_name_split in Hname. now apply andb_prop in Hname as [_ ?].
Qed.







End Names.











(** The export command does not make its output directory: into a
    directory that is missing, the first file cannot be opened. *)
Lemma export_csv_needs_directory (m : ServerMetadata.t) (out : string) (s : fs.t) :
  fs.dir_at s out = false ->
  String.eqb out "" = false ->
  ServerMetadata.workbooks m <> [] ->
  exists e : exn,
    export._export_csv m out s = (Raise e, s) /\ exn_class e = OSError.
Proof.
  intros Hout Hne Hwb.
  assert (Hpar : fs.dir_at s (path_parent (path_join out "workbooks.csv")) = false).
  { rewrite joined_parent by reflexivity. now rewrite Hne. }
  unfold export._export_csv, sbind, export.export_list.
  destruct (ServerMetadata.workbooks m) as [| wb wbs]; [congruence |].
  destruct (write_file_no_parent (path_join out "workbooks.csv")
              (fs.CsvRows (List.map PStr export.workbook_header
                           :: List.map export.workbook_row (wb :: wbs))) s Hpar)
    as (e & -> & He).
  now exists e.
Qed.



(* ===================================================================== *)
(** * Summary statistics                                                  *)
(* ===================================================================== *)

(** C7. For a [ServerMetadata] whose four lists are empty,
    [get_metadata_summary] returns without raising; the four counts are
    zero and the recent-update lists of workbooks and of data sources are
    empty. *)
Theorem summary_of_empty_metadata (m : ServerMetadata.t) :
  ServerMetadata.workbooks m = [] ->
  ServerMetadata.datasources m = [] ->
  ServerMetadata.projects m = [] ->
  ServerMetadata.flows m = [] ->
  exists s : pyval,
    MetadataProcessor.get_metadata_summary m = Ok s /\
    get_path s ["counts"; "workbooks"] = Ok (PInt 0) /\
    get_path s ["counts"; "datasources"] = Ok (PInt 0) /\
    get_path s ["counts"; "projects"] = Ok (PInt 0) /\
    get_path s ["counts"; "flows"] = Ok (PInt 0) /\
    get_path s ["recent_updates"; "workbooks"] = Ok (PList []) /\
    get_path s ["recent_updates"; "datasources"] = Ok (PList []).
Proof.
  intros Hw Hd Hp Hf.
  unfold MetadataProcessor.get_metadata_summary.
  rewrite Hw, Hd, Hp, Hf.
  cbn [sorted_reverse rbind reraise_as take List.map length MetadataProcessor.len
       Z.of_nat].
  eexists. split; [reflexivity |].
  repeat split; reflexivity.
Qed.

(* ===================================================================== *)
(** * The environment resolver                                            *)
(* ===================================================================== *)

(** C3, as the code has it.  Read "set" as "set to a non-empty value".
    When the server URL has a value, the resolver selects the personal
    access token if token name and token value both have one, otherwise
    username and password if both have one, otherwise JWT if the JWT token
    has one; when no method is complete it raises [ConfigurationError].
    The answer is a function of the environment. *)
Theorem env_resolver_precedence (environ : gmap string string) :
  has_value environ "TABLEAU_SERVER_URL" = true ->
  let pat := has_value environ "TABLEAU_TOKEN_NAME"
             && has_value environ "TABLEAU_TOKEN_VALUE" in
  let credentials := has_value environ "TABLEAU_USERNAME"
                     && has_value environ "TABLEAU_PASSWORD" in
  let jwt := has_value environ "TABLEAU_JWT_TOKEN" in
  match create_auth_config_from_env environ with
  | Ok c =>
      AuthConfig.auth_method c
      = (if pat then PERSONAL_ACCESS_TOKEN
         else if credentials then USERNAME_PASSWORD else JWT)
      /\ pat || credentials || jwt = true
  | Raise e =>
      exn_class e = ConfigurationError /\ pat || credentials || jwt = false
  end.
Proof.
  unfold has_value, create_auth_config_from_env. intros ->. cbn [negb].
  cbv zeta.
  destruct (str_truthy (getenv environ "TABLEAU_TOKEN_NAME")
            && str_truthy (getenv environ "TABLEAU_TOKEN_VALUE")); [now split |].
  destruct (str_truthy (getenv environ "TABLEAU_USERNAME")
            && str_truthy (getenv environ "TABLEAU_PASSWORD")); [now split |].
  destruct (str_truthy (getenv environ "TABLEAU_JWT_TOKEN")); now split.
Qed.

(** C3 as stated fails: with the server URL, token name, token value,
    username and password all set, and the token name set to the empty
    string, the resolver selects username and password. *)
Lemma env_resolver_skips_empty_token :
  is_set sample_env.empty_token_name "TABLEAU_SERVER_URL" = true /\
  is_set sample_env.empty_token_name "TABLEAU_TOKEN_NAME" = true /\
  is_set sample_env.empty_token_name "TABLEAU_TOKEN_VALUE" = true /\
  method_of (create_auth_config_from_env sample_env.empty_token_name)
  = Ok USERNAME_PASSWORD /\
  method_of (create_auth_config_from_env sample_env.empty_token_name)
  <> Ok PERSONAL_ACCESS_TOKEN.
Proof.
  repeat split; try (vm_compute; reflexivity).
  vm_compute. discriminate.
Qed.

(* ===================================================================== *)
(** * The authenticator                                                   *)
(* ===================================================================== *)

Lemma sign_out_spec (self : TableauAuthenticator.t) (s : TSC.Server) :
  TableauAuthenticator.sign_out self s =
  match TSC.auth_token s with
  | None => (Ok tt, s)
  | Some _ =>
      match next_reply s with
      | Ok _ => (Ok tt, after_request s TSC.SignOut None)
      | Raise cause =>
          (Raise (wrapped AuthenticationError "Sign out failed: " cause),
           after_request s TSC.SignOut (TSC.auth_token s))
      end
  end.
Proof.
  unfold TableauAuthenticator.sign_out, try_reraise, sbind, TSC.is_signed_in,
    TSC.sign_out, TSC.post, TSC.set_auth, sret, next_reply, after_request, wrapped.
  destruct s as [addr [tok |] sent reply]; cbn; [| reflexivity].
  destruct (reply (length sent)); reflexivity.
Qed.

Lemma authenticate_spec (self : TableauAuthenticator.t) (s : TSC.Server) :
  TableauAuthenticator.authenticate self s =
  match TableauAuthenticator.create_auth_object self with
  | Raise cause =>
      (Raise (wrapped AuthenticationError "Authentication failed: " cause), s)
  | Ok a =>
      match next_reply s with
      | Ok tok => (Ok tt, after_request s (TSC.SignIn a) (Some tok))
      | Raise cause =>
          (Raise (wrapped AuthenticationError "Authentication failed: " cause),
           after_request s (TSC.SignIn a) (TSC.auth_token s))
      end
  end.
Proof.
  unfold TableauAuthenticator.authenticate, try_reraise, sbind, lift,
    TSC.sign_in, TSC.post, TSC.set_auth, next_reply, after_request, wrapped.
  destruct (TableauAuthenticator.create_auth_object self) as [a | cause];
    [| reflexivity].
  destruct s as [addr tok sent reply]; cbn.
  destruct (reply (length sent)); reflexivity.
Qed.

(** C8. [sign_out] on a handle that is not signed in changes nothing and
    returns; [sign_out] followed by [sign_out] (the second call runs when
    the first returns; an exception of the first propagates) leaves the
    state and gives the answer of a single [sign_out]; [authenticate] and
    [sign_out] send exactly one request when they reach the server, never
    a second one, and when the request (or, for [authenticate], building
    the credentials) fails they raise [AuthenticationError] with the
    cause's message after their own prefix. *)
Theorem authenticator_sign_out_idempotent (self : TableauAuthenticator.t)
    (s : TSC.Server) :
  TableauAuthenticator.sign_out self
    (TSC.mk (TSC.server_address s) None (TSC.sent s) (TSC.reply s))
  = (Ok tt, TSC.mk (TSC.server_address s) None (TSC.sent s) (TSC.reply s))
  /\ (_ <-- TableauAuthenticator.sign_out self ;; TableauAuthenticator.sign_out self) s
     = TableauAuthenticator.sign_out self s
  /\ TableauAuthenticator.sign_out self s
     = match TSC.auth_token s with
       | None => (Ok tt, s)
       | Some _ =>
           match next_reply s with
           | Ok _ => (Ok tt, after_request s TSC.SignOut None)
           | Raise cause =>
               (Raise (wrapped AuthenticationError "Sign out failed: " cause),
                after_request s TSC.SignOut (TSC.auth_token s))
           end
       end
  /\ TableauAuthenticator.authenticate self s
     = match TableauAuthenticator.create_auth_object self with
       | Raise cause =>
           (Raise (wrapped AuthenticationError "Authentication failed: " cause), s)
       | Ok a =>
           match next_reply s with
           | Ok tok => (Ok tt, after_request s (TSC.SignIn a) (Some tok))
           | Raise cause =>
               (Raise (wrapped AuthenticationError "Authentication failed: " cause),
                after_request s (TSC.SignIn a) (TSC.auth_token s))
           end
       end.
Proof.
  split; [| split; [| split]].
  - now rewrite sign_out_spec.
  - unfold sbind. rewrite (sign_out_spec self s).
    destruct (TSC.auth_token s) as [tok |] eqn:E.
    + destruct (next_reply s); [| reflexivity].
      now rewrite sign_out_spec.
    + rewrite sign_out_spec, E. reflexivity.
  - apply sign_out_spec.
  - apply authenticate_spec.
Qed.

(** A sign-out that the service refuses: one request, the cause in the
    message, the session still open. *)
Lemma sign_out_refused_example :
  TableauAuthenticator.sign_out sample_auth.authenticator sample_auth.signed_in
  = (Raise (Exn AuthenticationError "Sign out failed: connection reset"),
     after_request sample_auth.signed_in TSC.SignOut (Some "session-token")).
Proof. reflexivity. Qed.

(* ===================================================================== *)
(** * Deleting stored metadata                                            *)
(* ===================================================================== *)



(* ===================================================================== *)
(** * [filter_metadata] on objects                                        *)
(* ===================================================================== *)

Section ObjectStore.
Import Objects.

Lemma alloc_spec (o : obj) (h : heap) :
  alloc o h = (Ok (fresh (dom h)), <[fresh (dom h) := o]> h)
  /\ h !! fresh (dom h) = None
  /\ h ⊆ <[fresh (dom h) := o]> h.
Proof.
  assert (E : h !! fresh (dom h) = None) by (apply not_elem_of_dom, is_fresh).
  split; [reflexivity |]. split; [exact E |]. now apply insert_subseteq.
Qed.

Lemma rfilter_map {A} (inj : A -> entity) (cond : entity -> result bool)
    (p : A -> result bool) (xs : list A) :
  (forall x, cond (inj x) = p x) ->
  rfilter cond (List.map inj xs) = (r <- rfilter p xs ;; Ok (List.map inj r)).
Proof.
  intros H. induction xs as [| x xs IH]; [reflexivity |].
  cbn [List.map rfilter]. rewrite H, IH.
  destruct (p x) as [b |]; [| reflexivity]. cbn [rbind].
  destruct (rfilter p xs) as [r |]; [| reflexivity]. cbn [rbind].
  now destruct b.
Qed.

(** A comprehension whose condition can raise: it either allocates the
    list of the kept elements and leaves every object as it was, or raises
    and leaves the store as it was. *)
Lemma comprehension_sim {A} (inj : A -> entity) (cond : entity -> result bool)
    (p : A -> result bool) (l : loc) (h : heap) (xs : list A) :
  holds_list inj h l xs ->
  (forall x, cond (inj x) = p x) ->
  match rfilter p xs with
  | Ok kept =>
      exists (l' : loc) (h' : heap),
        comprehension cond l h = (Ok l', h') /\ h ⊆ h' /\ holds_list inj h' l' kept
  | Raise e => comprehension cond l h = (Raise e, h)
  end.
Proof.
  intros Hl Hc. unfold comprehension, sbind, read_list, lift.
  rewrite Hl, (rfilter_map inj cond p xs Hc).
  destruct (rfilter p xs) as [kept |]; [| reflexivity]. cbn [rbind].
  destruct (alloc_spec (OList (List.map inj kept)) h) as (-> & _ & Hsub).
  eexists _, _. split; [reflexivity |]. split; [exact Hsub |].
  apply lookup_insert_eq.
Qed.

Lemma comprehension_total {A} (inj : A -> entity) (cond : entity -> result bool)
    (q : A -> bool) (l : loc) (h : heap) (xs : list A) :
  holds_list inj h l xs ->
  (forall x, cond (inj x) = Ok (q x)) ->
  exists (l' : loc) (h' : heap),
    comprehension cond l h = (Ok l', h') /\ h ⊆ h'
    /\ holds_list inj h' l' (List.filter q xs).
Proof.
  intros Hl Hc.
  pose proof (comprehension_sim inj cond (fun x => Ok (q x)) l h xs Hl Hc) as H.
  now rewrite rfilter_total in H.
Qed.

Lemma holds_list_weaken {A} (inj : A -> entity) (h h' : heap) (l : loc)
    (xs : list A) :
  h ⊆ h' -> holds_list inj h l xs -> holds_list inj h' l xs.
Proof. intros Hsub H. exact (lookup_weaken _ _ _ _ H Hsub). Qed.

Lemma mapM_cast {A} (inj : A -> entity) (cast : entity -> option A)
    (items : list entity) (xs : list A) :
  (forall e x, cast e = Some x -> e = inj x) ->
  mapM cast items = Some xs -> items = List.map inj xs.
Proof.
  intros Hc. revert xs. induction items as [| e items IH]; intros xs H.
  - cbn in H. now injection H as <-.
  - cbn in H. destruct (cast e) as [x |] eqn:E; [| discriminate]. cbn in H.
    destruct (mapM cast items) as [ys |]; [| discriminate]. cbn in H.
    injection H as <-. cbn [List.map]. f_equal; [now apply Hc | now apply IH].
Qed.

Lemma mapM_cast_map {A} (inj : A -> entity) (cast : entity -> option A)
    (xs : list A) :
  (forall x, cast (inj x) = Some x) ->
  mapM cast (List.map inj xs) = Some xs.
Proof.
  intros Hc. induction xs as [| x xs IH]; [reflexivity |].
  cbn. rewrite Hc. cbn. rewrite IH. reflexivity.
Qed.

Lemma typed_list_holds {A} (inj : A -> entity) (cast : entity -> option A)
    (h : heap) (l : loc) (xs : list A) :
  (forall e x, cast e = Some x -> e = inj x) ->
  typed_list cast h l = Some xs -> holds_list inj h l xs.
Proof.
  intros Hc. unfold typed_list, holds_list.
  destruct (h !! l) as [[items | o] |]; try discriminate.
  intros H. now rewrite (mapM_cast inj cast items xs Hc H).
Qed.

Lemma holds_typed_list {A} (inj : A -> entity) (cast : entity -> option A)
    (h : heap) (l : loc) (xs : list A) :
  (forall x, cast (inj x) = Some x) ->
  holds_list inj h l xs -> typed_list cast h l = Some xs.
Proof.
  intros Hc H. unfold typed_list. rewrite H. now apply mapM_cast_map.
Qed.

Lemma as_workbook_inv e x : as_workbook e = Some x -> e = EWorkbook x.
Proof. destruct e; cbn; congruence. Qed.
Lemma as_datasource_inv e x : as_datasource e = Some x -> e = EDatasource x.
Proof. destruct e; cbn; congruence. Qed.
Lemma as_project_inv e x : as_project e = Some x -> e = EProject x.
Proof. destruct e; cbn; congruence. Qed.
Lemma as_flow_inv e x : as_flow e = Some x -> e = EFlow x.
Proof. destruct e; cbn; congruence. Qed.

(** The value of an instance, spelled out. *)
Lemma value_of_inv (h : heap) (l : loc) (m : ServerMetadata.t) :
  value_of h l = Some m ->
  exists o : server_obj,
    h !! l = Some (OServer o)
    /\ holds_list EWorkbook h (workbooks o) (ServerMetadata.workbooks m)
    /\ holds_list EDatasource h (datasources o) (ServerMetadata.datasources m)
    /\ holds_list EProject h (projects o) (ServerMetadata.projects m)
    /\ holds_list EFlow h (flows o) (ServerMetadata.flows m)
    /\ m = ServerMetadata.mk (server_url o) (version o) (rest_api_version o)
             (site_id o) (site_name o) (timestamp o)
             (ServerMetadata.workbooks m) (ServerMetadata.datasources m)
             (ServerMetadata.projects m) (ServerMetadata.flows m).
Proof.
  unfold value_of. destruct (h !! l) as [[items | o] |]; try discriminate.
  destruct (typed_list as_workbook h (workbooks o)) as [wbs |] eqn:Ew; [| discriminate].
  destruct (typed_list as_datasource h (datasources o)) as [dss |] eqn:Ed; [| discriminate].
  destruct (typed_list as_project h (projects o)) as [ps |] eqn:Ep; [| discriminate].
  destruct (typed_list as_flow h (flows o)) as [fls |] eqn:Ef; [| discriminate].
  cbn. intros [= <-]. exists o. cbn.
  split; [reflexivity |].
  split; [exact (typed_list_holds _ _ _ _ _ as_workbook_inv Ew) |].
  split; [exact (typed_list_holds _ _ _ _ _ as_datasource_inv Ed) |].
  split; [exact (typed_list_holds _ _ _ _ _ as_project_inv Ep) |].
  split; [exact (typed_list_holds _ _ _ _ _ as_flow_inv Ef) | reflexivity].
Qed.

Lemma value_of_intro (h : heap) (l : loc) (o : server_obj)
    (wbs : list WorkbookMetadata.t) (dss : list DatasourceMetadata.t)
    (ps : list ProjectMetadata.t) (fls : list FlowMetadata.t) :
  h !! l = Some (OServer o) ->
  holds_list EWorkbook h (workbooks o) wbs ->
  holds_list EDatasource h (datasources o) dss ->
  holds_list EProject h (projects o) ps ->
  holds_list EFlow h (flows o) fls ->
  value_of h l = Some (ServerMetadata.mk (server_url o) (version o)
                         (rest_api_version o) (site_id o) (site_name o)
                         (timestamp o) wbs dss ps fls).
Proof.
  intros Hl Hw Hd Hp Hf. unfold value_of. rewrite Hl.
  rewrite (holds_typed_list EWorkbook as_workbook h _ wbs (fun x => eq_refl) Hw).
  rewrite (holds_typed_list EDatasource as_datasource h _ dss (fun x => eq_refl) Hd).
  rewrite (holds_typed_list EProject as_project h _ ps (fun x => eq_refl) Hp).
  rewrite (holds_typed_list EFlow as_flow h _ fls (fun x => eq_refl) Hf).
  reflexivity.
Qed.

(** Objects that are never written keep their value as the store grows. *)
Lemma value_of_weaken (h h' : heap) (l : loc) (m : ServerMetadata.t) :
  h ⊆ h' -> value_of h l = Some m -> value_of h' l = Some m.
Proof.
  intros Hsub H. apply value_of_inv in H as (o & Hl & Hw & Hd & Hp & Hf & E).
  rewrite E. apply value_of_intro.
  - exact (lookup_weaken _ _ _ _ Hl Hsub).
  - exact (holds_list_weaken _ _ _ _ _ Hsub Hw).
  - exact (holds_list_weaken _ _ _ _ _ Hsub Hd).
  - exact (holds_list_weaken _ _ _ _ _ Hsub Hp).
  - exact (holds_list_weaken _ _ _ _ _ Hsub Hf).
Qed.


(** One [if key in filters:] block of three comprehensions, over workbooks,
    data sources and flows, with a condition that cannot raise. *)
Lemma three_comprehensions (cond : entity -> result bool)
    (qw : WorkbookMetadata.t -> bool) (qd : DatasourceMetadata.t -> bool)
    (qf : FlowMetadata.t -> bool) (h : heap) (lw ld lf : loc)
    (wbs : list WorkbookMetadata.t) (dss : list DatasourceMetadata.t)
    (fls : list FlowMetadata.t) :
  (forall x, cond (EWorkbook x) = Ok (qw x)) ->
  (forall x, cond (EDatasource x) = Ok (qd x)) ->
  (forall x, cond (EFlow x) = Ok (qf x)) ->
  holds_list EWorkbook h lw wbs ->
  holds_list EDatasource h ld dss ->
  holds_list EFlow h lf fls ->
  exists (lw' ld' lf' : loc) (h' : heap),
    (wbs <-- comprehension cond lw ;;
     dss <-- comprehension cond ld ;;
     fls <-- comprehension cond lf ;;
     sret (wbs, dss, fls)) h = (Ok (lw', ld', lf'), h')
    /\ h ⊆ h'
    /\ holds_list EWorkbook h' lw' (List.filter qw wbs)
    /\ holds_list EDatasource h' ld' (List.filter qd dss)
    /\ holds_list EFlow h' lf' (List.filter qf fls).
Proof.
  intros Cw Cd Cf Hw Hd Hf. unfold sbind.
  destruct (comprehension_total EWorkbook cond qw lw h wbs Hw Cw)
    as (lw' & h1 & -> & S1 & Lw).
  apply (holds_list_weaken _ _ _ _ _ S1) in Hd, Hf.
  destruct (comprehension_total EDatasource cond qd ld h1 dss Hd Cd)
    as (ld' & h2 & -> & S2 & Ld).
  apply (holds_list_weaken _ _ _ _ _ S2) in Hf, Lw.
  destruct (comprehension_total EFlow cond qf lf h2 fls Hf Cf)
    as (lf' & h3 & -> & S3 & Lf).
  apply (holds_list_weaken _ _ _ _ _ S3) in Lw, Ld.
  exists lw', ld', lf', h3. split; [reflexivity |].
  split; [etrans; [exact S1 | etrans; [exact S2 | exact S3]] |]. auto.
Qed.

(** The same block with a condition that can raise: the update-time floor. *)
Lemma three_fallible_comprehensions (cond : entity -> result bool)
    (pw : WorkbookMetadata.t -> result bool) (pd : DatasourceMetadata.t -> result bool)
    (pf : FlowMetadata.t -> result bool) (h : heap) (lw ld lf : loc)
    (wbs : list WorkbookMetadata.t) (dss : list DatasourceMetadata.t)
    (fls : list FlowMetadata.t) :
  (forall x, cond (EWorkbook x) = pw x) ->
  (forall x, cond (EDatasource x) = pd x) ->
  (forall x, cond (EFlow x) = pf x) ->
  holds_list EWorkbook h lw wbs ->
  holds_list EDatasource h ld dss ->
  holds_list EFlow h lf fls ->
  exists h' : heap,
    h ⊆ h' /\
    match (wbs' <- rfilter pw wbs ;; dss' <- rfilter pd dss ;;
           fls' <- rfilter pf fls ;; Ok (wbs', dss', fls')) with
    | Ok (wbs', dss', fls') =>
        exists lw' ld' lf' : loc,
          (wbs <-- comprehension cond lw ;;
           dss <-- comprehension cond ld ;;
           fls <-- comprehension cond lf ;;
           sret (wbs, dss, fls)) h = (Ok (lw', ld', lf'), h')
          /\ holds_list EWorkbook h' lw' wbs'
          /\ holds_list EDatasource h' ld' dss'
          /\ holds_list EFlow h' lf' fls'
    | Raise e =>
        (wbs <-- comprehension cond lw ;;
         dss <-- comprehension cond ld ;;
         fls <-- comprehension cond lf ;;
         sret (wbs, dss, fls)) h = (Raise e, h')
    end.
Proof.
  intros Cw Cd Cf Hw Hd Hf. unfold sbind.
  pose proof (comprehension_sim EWorkbook cond pw lw h wbs Hw Cw) as X.
  destruct (rfilter pw wbs) as [wbs' | e]; cbn [rbind];
    [| exists h; rewrite X; split; reflexivity].
  destruct X as (lw' & h1 & -> & S1 & Lw).
  apply (holds_list_weaken _ _ _ _ _ S1) in Hd, Hf.
  pose proof (comprehension_sim EDatasource cond pd ld h1 dss Hd Cd) as X.
  destruct (rfilter pd dss) as [dss' | e]; cbn [rbind];
    [| exists h1; rewrite X; split; [exact S1 | reflexivity]].
  destruct X as (ld' & h2 & -> & S2 & Ld).
  apply (holds_list_weaken _ _ _ _ _ S2) in Hf, Lw.
  pose proof (comprehension_sim EFlow cond pf lf h2 fls Hf Cf) as X.
  destruct (rfilter pf fls) as [fls' | e]; cbn [rbind];
    [| exists h2; rewrite X; split; [etrans; [exact S1 | exact S2] | reflexivity]].
  destruct X as (lf' & h3 & -> & S3 & Lf).
  apply (holds_list_weaken _ _ _ _ _ S3) in Lw, Ld.
  exists h3. split; [etrans; [exact S1 | etrans; [exact S2 | exact S3]] |].
  exists lw', ld', lf'. auto.
Qed.


(** The [if "project_names" in filters:] block: four comprehensions. *)
Lemma project_names_block (o : option (list string)) (h : heap) (lw ld lp lf : loc)
    (wbs : list WorkbookMetadata.t) (dss : list DatasourceMetadata.t)
    (ps : list ProjectMetadata.t) (fls : list FlowMetadata.t) :
  holds_list EWorkbook h lw wbs ->
  holds_list EDatasource h ld dss ->
  holds_list EProject h lp ps ->
  holds_list EFlow h lf fls ->
  exists (lw' ld' lp' lf' : loc) (h' : heap),
    match o with
    | Some names =>
        wbs <-- comprehension
                  (fun e => n <- get_project_name e ;; Ok (str_in n names)) lw ;;
        dss <-- comprehension
                  (fun e => n <- get_project_name e ;; Ok (str_in n names)) ld ;;
        ps <-- comprehension (fun e => n <- get_name e ;; Ok (str_in n names)) lp ;;
        fls <-- comprehension
                  (fun e => n <- get_project_name e ;; Ok (str_in n names)) lf ;;
        sret (wbs, dss, ps, fls)
    | None => sret (lw, ld, lp, lf)
    end h = (Ok (lw', ld', lp', lf'), h')
    /\ h ⊆ h'
    /\ holds_list EWorkbook h' lw'
         (List.filter (fun x => when_given o (str_in (WorkbookMetadata.project_name x))) wbs)
    /\ holds_list EDatasource h' ld'
         (List.filter (fun x => when_given o (str_in (DatasourceMetadata.project_name x))) dss)
    /\ holds_list EProject h' lp'
         (List.filter (fun x => when_given o (str_in (ProjectMetadata.name x))) ps)
    /\ holds_list EFlow h' lf'
         (List.filter (fun x => when_given o (str_in (FlowMetadata.project_name x))) fls).
Proof.
  intros Hw Hd Hp Hf. destruct o as [names |]; cbn [when_given].
  - unfold sbind.
    destruct (comprehension_total EWorkbook
                (fun e => n <- get_project_name e ;; Ok (str_in n names))
                (fun x => str_in (WorkbookMetadata.project_name x) names)
                lw h wbs Hw (fun x => eq_refl)) as (lw' & h1 & -> & S1 & Lw).
    apply (holds_list_weaken _ _ _ _ _ S1) in Hd, Hp, Hf.
    destruct (comprehension_total EDatasource
                (fun e => n <- get_project_name e ;; Ok (str_in n names))
                (fun x => str_in (DatasourceMetadata.project_name x) names)
                ld h1 dss Hd (fun x => eq_refl)) as (ld' & h2 & -> & S2 & Ld).
    apply (holds_list_weaken _ _ _ _ _ S2) in Hp, Hf, Lw.
    destruct (comprehension_total EProject
                (fun e => n <- get_name e ;; Ok (str_in n names))
                (fun x => str_in (ProjectMetadata.name x) names)
                lp h2 ps Hp (fun x => eq_refl)) as (lp' & h3 & -> & S3 & Lp).
    apply (holds_list_weaken _ _ _ _ _ S3) in Hf, Lw, Ld.
    destruct (comprehension_total EFlow
                (fun e => n <- get_project_name e ;; Ok (str_in n names))
                (fun x => str_in (FlowMetadata.project_name x) names)
                lf h3 fls Hf (fun x => eq_refl)) as (lf' & h4 & -> & S4 & Lf).
    apply (holds_list_weaken _ _ _ _ _ S4) in Lw, Ld, Lp.
    exists lw', ld', lp', lf', h4. split; [reflexivity |].
    split; [etrans; [exact S1 | etrans; [exact S2 | etrans; [exact S3 | exact S4]]] |].
    auto.
  - exists lw, ld, lp, lf, h. rewrite !filter_true. repeat split; auto.
Qed.

(** A later block, present or not: three comprehensions or none. *)
Lemma optional_block {B} (o : option B) (cond : B -> entity -> result bool)
    (qw : WorkbookMetadata.t -> B -> bool) (qd : DatasourceMetadata.t -> B -> bool)
    (qf : FlowMetadata.t -> B -> bool) (h : heap) (lw ld lf : loc)
    (wbs : list WorkbookMetadata.t) (dss : list DatasourceMetadata.t)
    (fls : list FlowMetadata.t) :
  (forall b x, cond b (EWorkbook x) = Ok (qw x b)) ->
  (forall b x, cond b (EDatasource x) = Ok (qd x b)) ->
  (forall b x, cond b (EFlow x) = Ok (qf x b)) ->
  holds_list EWorkbook h lw wbs ->
  holds_list EDatasource h ld dss ->
  holds_list EFlow h lf fls ->
  exists (lw' ld' lf' : loc) (h' : heap),
    match o with
    | Some b =>
        wbs <-- comprehension (cond b) lw ;;
        dss <-- comprehension (cond b) ld ;;
        fls <-- comprehension (cond b) lf ;;
        sret (wbs, dss, fls)
    | None => sret (lw, ld, lf)
    end h = (Ok (lw', ld', lf'), h')
    /\ h ⊆ h'
    /\ holds_list EWorkbook h' lw' (List.filter (fun x => when_given o (qw x)) wbs)
    /\ holds_list EDatasource h' ld' (List.filter (fun x => when_given o (qd x)) dss)
    /\ holds_list EFlow h' lf' (List.filter (fun x => when_given o (qf x)) fls).
Proof.
  intros Cw Cd Cf Hw Hd Hf. destruct o as [b |]; cbn [when_given].
  - exact (three_comprehensions (cond b) (fun x => qw x b) (fun x => qd x b)
             (fun x => qf x b) h lw ld lf wbs dss fls (Cw b) (Cd b) (Cf b) Hw Hd Hf).
  - exists lw, ld, lf, h. rewrite !filter_true. repeat split; auto.
Qed.


Lemma alloc_server_spec (h h4 : heap) (os : server_obj)
    (wbs : list WorkbookMetadata.t) (dss : list DatasourceMetadata.t)
    (ps : list ProjectMetadata.t) (fls : list FlowMetadata.t) :
  h ⊆ h4 ->
  holds_list EWorkbook h4 (workbooks os) wbs ->
  holds_list EDatasource h4 (datasources os) dss ->
  holds_list EProject h4 (projects os) ps ->
  holds_list EFlow h4 (flows os) fls ->
  exists (r : loc) (h5 : heap),
    alloc (OServer os) h4 = (Ok r, h5)
    /\ h ⊆ h5
    /\ h !! r = None
    /\ value_of h5 r
       = Some (ServerMetadata.mk (server_url os) (version os) (rest_api_version os)
                 (site_id os) (site_name os) (timestamp os) wbs dss ps fls).
Proof.
  intros S Hw Hd Hp Hf.
  destruct (alloc_spec (OServer os) h4) as (E & Hfresh & S45).
  eexists _, _. split; [exact E |].
  split; [etrans; [exact S | exact S45] |].
  split.
  - destruct (h !! fresh (dom h4)) as [x |] eqn:Ex; [| reflexivity].
    pose proof (lookup_weaken _ _ _ _ Ex S) as C. congruence.
  - apply value_of_intro.
    + apply lookup_insert_eq.
    + exact (holds_list_weaken _ _ _ _ _ S45 Hw).
    + exact (holds_list_weaken _ _ _ _ _ S45 Hd).
    + exact (holds_list_weaken _ _ _ _ _ S45 Hp).
    + exact (holds_list_weaken _ _ _ _ _ S45 Hf).
Qed.

(** C9. Run on an instance [metadata] that denotes the value [m],
    [filter_metadata] leaves every object of the store as it was (so
    [metadata] still denotes [m]) and only adds objects.  When it returns,
    the instance it returns is a new object; it denotes what
    [filter_metadata] computes on values, and its [server_url], [version],
    [rest_api_version], [site_id], [site_name] and [timestamp] are those of
    [m].  When it raises, it raises what the computation on values raises. *)
Theorem filter_metadata_returns_new_instance (h : heap) (metadata : loc)
    (f : MetadataProcessor.filters) (m : ServerMetadata.t) :
  value_of h metadata = Some m ->
  exists h' : heap,
    snd (Objects.filter_metadata metadata f h) = h'
    /\ (forall (l : loc) (o : obj), h !! l = Some o -> h' !! l = Some o)
    /\ value_of h' metadata = Some m
    /\ match fst (Objects.filter_metadata metadata f h) with
       | Ok r =>
           h !! r = None /\ r <> metadata
           /\ exists m' : ServerMetadata.t,
                value_of h' r = Some m'
                /\ MetadataProcessor.filter_metadata m f = Ok m'
                /\ ServerMetadata.server_url m' = ServerMetadata.server_url m
                /\ ServerMetadata.version m' = ServerMetadata.version m
                /\ ServerMetadata.rest_api_version m' = ServerMetadata.rest_api_version m
                /\ ServerMetadata.site_id m' = ServerMetadata.site_id m
                /\ ServerMetadata.site_name m' = ServerMetadata.site_name m
                /\ ServerMetadata.timestamp m' = ServerMetadata.timestamp m
       | Raise e => MetadataProcessor.filter_metadata m f = Raise e
       end.
Proof.
  intros Hv.
  pose proof Hv as Hinv.
  apply value_of_inv in Hinv as (o & Hl & Hw & Hd & Hp & Hf & EM).
  assert (Hsub : forall h', h ⊆ h' ->
            (forall (l : loc) (x : obj), h !! l = Some x -> h' !! l = Some x)
            /\ value_of h' metadata = Some m).
  { intros h' S. split; [| exact (value_of_weaken _ _ _ _ S Hv)].
    intros l x Hx. exact (lookup_weaken _ _ _ _ Hx S). }
  rewrite filter_metadata_unfold. cbv zeta.
  unfold Objects.filter_metadata, try_reraise.
  rewrite (sbind_ok (read_server metadata) _ h h o)
    by (unfold read_server; now rewrite Hl).
  cbv zeta.
  destruct (project_names_block (MetadataProcessor.project_names f) h
              (workbooks o) (datasources o) (projects o) (flows o) _ _ _ _
              Hw Hd Hp Hf)
    as (lw1 & ld1 & lp1 & lf1 & h1 & E1 & S1 & Lw1 & Ld1 & Lp1 & Lf1).
  rewrite (sbind_ok _ _ _ _ _ E1). cbv beta iota.
  destruct (optional_block (MetadataProcessor.owner_names f)
              (fun names e => n <- get_owner_name e ;; Ok (str_in n names))
              (fun x => str_in (WorkbookMetadata.owner_name x))
              (fun x => str_in (DatasourceMetadata.owner_name x))
              (fun x => str_in (FlowMetadata.owner_name x))
              h1 lw1 ld1 lf1 _ _ _
              (fun b x => eq_refl) (fun b x => eq_refl) (fun b x => eq_refl)
              Lw1 Ld1 Lf1)
    as (lw2 & ld2 & lf2 & h2 & E2 & S2 & Lw2 & Ld2 & Lf2).
  cbv beta in E2. rewrite (sbind_ok _ _ _ _ _ E2). cbv beta iota.
  destruct (optional_block (MetadataProcessor.tags f)
              (fun tags e => own <- get_tags e ;; Ok (MetadataProcessor.any_tag_in tags own))
              (fun x tags => MetadataProcessor.any_tag_in tags (WorkbookMetadata.tags x))
              (fun x tags => MetadataProcessor.any_tag_in tags (DatasourceMetadata.tags x))
              (fun x tags => MetadataProcessor.any_tag_in tags (FlowMetadata.tags x))
              h2 lw2 ld2 lf2 _ _ _
              (fun b x => eq_refl) (fun b x => eq_refl) (fun b x => eq_refl)
              Lw2 Ld2 Lf2)
    as (lw3 & ld3 & lf3 & h3 & E3 & S3 & Lw3 & Ld3 & Lf3).
  cbv beta in E3. rewrite (sbind_ok _ _ _ _ _ E3). cbv beta iota.
  apply (holds_list_weaken _ _ _ _ _ S2) in Lp1.
  apply (holds_list_weaken _ _ _ _ _ S3) in Lp1.
  assert (Lw : holds_list EWorkbook h3 lw3
                 (List.filter (workbook_matches f) (ServerMetadata.workbooks m)))
    by (unfold workbook_matches; rewrite filter_and3; exact Lw3).
  assert (Ld : holds_list EDatasource h3 ld3
                 (List.filter (datasource_matches f) (ServerMetadata.datasources m)))
    by (unfold datasource_matches; rewrite filter_and3; exact Ld3).
  assert (Lf : holds_list EFlow h3 lf3
                 (List.filter (flow_matches f) (ServerMetadata.flows m)))
    by (unfold flow_matches; rewrite filter_and3; exact Lf3).
  assert (S03 : h ⊆ h3) by (etrans; [exact S1 | etrans; [exact S2 | exact S3]]).
  clear E1 E2 E3 Lw1 Ld1 Lf1 Lw2 Ld2 Lf2 Lw3 Ld3 Lf3.
  assert (Eurl : ServerMetadata.server_url m = server_url o) by (rewrite EM; reflexivity).
  assert (Ever : ServerMetadata.version m = version o) by (rewrite EM; reflexivity).
  assert (Erest : ServerMetadata.rest_api_version m = rest_api_version o)
    by (rewrite EM; reflexivity).
  assert (Esid : ServerMetadata.site_id m = site_id o) by (rewrite EM; reflexivity).
  assert (Esname : ServerMetadata.site_name m = site_name o) by (rewrite EM; reflexivity).
  assert (Ets : ServerMetadata.timestamp m = timestamp o) by (rewrite EM; reflexivity).
  clear EM.
  assert (Finish : forall (h4 : heap) (lw ld lf : loc) wbs dss fls,
            h ⊆ h4 ->
            holds_list EWorkbook h4 lw wbs ->
            holds_list EDatasource h4 ld dss ->
            holds_list EFlow h4 lf fls ->
            holds_list EProject h4 lp1
              (List.filter (project_matches f) (ServerMetadata.projects m)) ->
            exists (r : loc) (h5 : heap),
              alloc (OServer (mk_server (server_url o) (version o) (rest_api_version o)
                                (site_id o) (site_name o) (timestamp o) lw ld lp1 lf)) h4
              = (Ok r, h5)
              /\ h ⊆ h5 /\ h !! r = None
              /\ value_of h5 r
                 = Some (with_lists m wbs dss
                           (List.filter (project_matches f) (ServerMetadata.projects m))
                           fls)).
  { intros h4 lw ld lf wbs dss fls S Xw Xd Xf Xp.
    destruct (alloc_server_spec h h4
                (mk_server (server_url o) (version o) (rest_api_version o)
                   (site_id o) (site_name o) (timestamp o) lw ld lp1 lf)
                wbs dss _ fls S Xw Xd Xp Xf) as (r & h5 & E & S5 & Fr & V).
    exists r, h5. unfold with_lists. rewrite Eurl, Ever, Erest, Esid, Esname, Ets.
    auto. }
  destruct (MetadataProcessor.updated_since f) as [since |].
  - destruct (three_fallible_comprehensions
                (fun e => u <- get_updated_at e ;; MetadataProcessor.updated_ge u since)
                (fun x => MetadataProcessor.updated_ge (WorkbookMetadata.updated_at x) since)
                (fun x => MetadataProcessor.updated_ge (DatasourceMetadata.updated_at x) since)
                (fun x => MetadataProcessor.updated_ge (FlowMetadata.updated_at x) since)
                h3 lw3 ld3 lf3 _ _ _
                (fun x => eq_refl) (fun x => eq_refl) (fun x => eq_refl) Lw Ld Lf)
      as (h4 & S4 & X).
    assert (S04 : h ⊆ h4) by (etrans; [exact S03 | exact S4]).
    destruct (rfilter _ (List.filter (workbook_matches f) _)) as [wbs' | e];
      cbn [rbind reraise_as] in X |- *;
      [| rewrite (sbind_raise _ _ _ _ _ X); cbn [fst snd reraise_as];
         exists h4; destruct (Hsub h4 S04); auto].
    destruct (rfilter _ (List.filter (datasource_matches f) _)) as [dss' | e];
      cbn [rbind reraise_as] in X |- *;
      [| rewrite (sbind_raise _ _ _ _ _ X); cbn [fst snd reraise_as];
         exists h4; destruct (Hsub h4 S04); auto].
    destruct (rfilter _ (List.filter (flow_matches f) _)) as [fls' | e];
      cbn [rbind reraise_as] in X |- *;
      [| rewrite (sbind_raise _ _ _ _ _ X); cbn [fst snd reraise_as];
         exists h4; destruct (Hsub h4 S04); auto].
    destruct X as (lw4 & ld4 & lf4 & E4 & Lw4 & Ld4 & Lf4).
    rewrite (sbind_ok _ _ _ _ _ E4). cbv beta iota.
    apply (holds_list_weaken _ _ _ _ _ S4) in Lp1.
    destruct (Finish h4 lw4 ld4 lf4 wbs' dss' fls' S04 Lw4 Ld4 Lf4 Lp1)
      as (r & h5 & -> & S5 & Fr & V).
    cbn [fst snd reraise_as]. exists h5. destruct (Hsub h5 S5) as [K1 K2].
    split; [reflexivity |]. split; [exact K1 |]. split; [exact K2 |].
    split; [exact Fr |]. split; [congruence |].
    eexists. split; [exact V |]. repeat split.
  - rewrite (sbind_ok (sret (lw3, ld3, lf3)) _ h3 h3 _ eq_refl). cbv beta iota.
    destruct (Finish h3 lw3 ld3 lf3 _ _ _ S03 Lw Ld Lf Lp1)
      as (r & h5 & -> & S5 & Fr & V).
    cbn [fst snd reraise_as]. exists h5. destruct (Hsub h5 S5) as [K1 K2].
    split; [reflexivity |]. split; [exact K1 |]. split; [exact K2 |].
    split; [exact Fr |]. split; [congruence |].
    eexists. split; [exact V |]. repeat split.
Qed.

End ObjectStore.

(* ===================================================================== *)
(** * The theorems at sample inputs                                       *)
(* ===================================================================== *)


Lemma env_resolver_precedence_witness :
  match create_auth_config_from_env sample_env.token_and_password with
  | Ok c => AuthConfig.auth_method c = PERSONAL_ACCESS_TOKEN /\ true = true
  | Raise e => exn_class e = ConfigurationError /\ true = false
  end.
Proof.
  apply (env_resolver_precedence sample_env.token_and_password).
  vm_compute. reflexivity.
Defined.

Lemma filter_twice_is_filter_union_witness :
  MetadataProcessor.filter_metadata sample.metadata
    (filters_union sample.finance_only sample.kpi_only)
  = Ok (with_lists sample.metadata [sample.wb_sales] [sample.ds_orders]
          [sample.p_finance] []).
Proof.
  apply (filter_twice_is_filter_union sample.metadata
           (with_lists sample.metadata [sample.wb_sales] [sample.ds_orders]
              [sample.p_finance] [sample.fl_nightly])
           _ sample.finance_only sample.kpi_only).
  - reflexivity.
  - vm_compute. reflexivity.
  - vm_compute. reflexivity.
Defined.

Lemma summary_of_empty_metadata_witness :
  exists s : pyval,
    MetadataProcessor.get_metadata_summary sample.empty_metadata = Ok s /\
    get_path s ["counts"; "workbooks"] = Ok (PInt 0) /\
    get_path s ["counts"; "datasources"] = Ok (PInt 0) /\
    get_path s ["counts"; "projects"] = Ok (PInt 0) /\
    get_path s ["counts"; "flows"] = Ok (PInt 0) /\
    get_path s ["recent_updates"; "workbooks"] = Ok (PList []) /\
    get_path s ["recent_updates"; "datasources"] = Ok (PList []).
Proof.
  apply (summary_of_empty_metadata sample.empty_metadata); reflexivity.
Defined.


Lemma filter_metadata_returns_new_instance_witness :
  Objects.value_of sample_store.objects 5%positive = Some sample.metadata /\
  exists h' : Objects.heap,
    snd (Objects.filter_metadata 5%positive sample.finance_only sample_store.objects) = h'
    /\ (forall (l : Objects.loc) (o : Objects.obj),
          sample_store.objects !! l = Some o -> h' !! l = Some o)
    /\ Objects.value_of h' 5%positive = Some sample.metadata.
Proof.
  split; [vm_compute; reflexivity |].
  destruct (filter_metadata_returns_new_instance sample_store.objects 5%positive
              sample.finance_only sample.metadata ltac:(vm_compute; reflexivity))
    as (h' & E & K & V & _).
  exists h'. split; [exact E |]. split; [exact K | exact V].
Defined.

(* ===================================================================== *)
(** * Further properties: the retry loops for any number of attempts        *)
(* ===================================================================== *)

Section RetryRuns.
Context {W A : Type}.
Variable operation : st W A.

Lemma after_calls_shift (k : nat) (w : W) :
  after_calls operation (S k) w = after_calls operation k (snd (operation w)).
Proof.
  induction k as [| k IH]; [reflexivity |].
  cbn [after_calls] in *. now rewrite IH.
Qed.

Lemma answer_of_call_shift (k : nat) (w : W) :
  answer_of_call operation (S k) w = answer_of_call operation k (snd (operation w)).
Proof. unfold answer_of_call. now rewrite after_calls_shift. Qed.

(** The client's loop from attempt [a], with [m] attempts left. *)
Lemma client_loop_runs (self : TableauClient.t) (m a : nat) (w : W)
    (slept : list Qc) :
  Z.of_nat (a + m) = TableauClient._retry_count self ->
  (1 <= m)%nat ->
  exists j : nat,
    (j < m)%nat
    /\ TableauClient.retry_loop self operation (seq a m) (w, slept)
       = (final_answer (answer_of_call operation j w),
          (after_calls operation (S j) w,
           slept ++ List.map (fun i => (TableauClient._retry_delay self * 2 ^ i)%Qc)
                      (seq a j)))
    /\ (forall i, (i < j)%nat -> raises (answer_of_call operation i w) = true)
    /\ (raises (answer_of_call operation j w) = false \/ j = (m - 1)%nat).
Proof.
  revert a w slept. induction m as [| m IH]; intros a w slept Hn Hm; [lia |].
  cbn [seq TableauClient.retry_loop call].
  assert (E0 : answer_of_call operation 0 w = fst (operation w)) by reflexivity.
  destruct (operation w) as [[x | e] w'] eqn:E; cbn [fst] in E0.
  - exists 0%nat. cbn [seq List.map after_calls]. rewrite E, E0.
    cbn [fst snd final_answer raises]. rewrite app_nil_r.
    split; [lia |]. split; [reflexivity |]. split; [intros i Hi; lia |].
    now left.
  - destruct (Z.eqb_spec (Z.of_nat a) (TableauClient._retry_count self - 1)) as [Hlast | Hmore].
    + exists 0%nat. cbn [seq List.map after_calls]. rewrite E, E0.
      cbn [fst snd final_answer]. rewrite app_nil_r.
      split; [lia |]. split; [reflexivity |]. split; [intros i Hi; lia |].
      right. lia.
    + unfold sbind, sleep.
      destruct (IH (S a) w' (slept ++ [(TableauClient._retry_delay self * 2 ^ a)%Qc])
                  ltac:(lia) ltac:(lia)) as (j & Hj & Eloop & Hfail & Hlast).
      exists (S j). split; [lia |]. split; [| split].
      * rewrite Eloop. rewrite !after_calls_shift, answer_of_call_shift, E.
        cbn [snd seq List.map]. now rewrite <- app_assoc.
      * intros i Hi. destruct i as [| i].
        -- now rewrite E0.
        -- rewrite answer_of_call_shift, E. apply Hfail. lia.
      * rewrite answer_of_call_shift, E. cbn [snd].
        destruct Hlast; [now left | right; lia].
Qed.


(** The helper's loop from attempt [a], with [m] attempts left, whatever
    the console does: it sleeps fewer times than it has attempts. *)
Lemma helper_loop_sleeps (print : console) (max_retries : Z) (m a : nat) (d : Qc)
    (w : W) (slept : list Qc) :
  Z.of_nat (a + m) = max_retries ->
  (1 <= m)%nat ->
  exists j : nat,
    (j < m)%nat
    /\ snd (snd (helpers.retry_loop print operation max_retries (seq a m) d (w, slept)))
       = slept ++ doubled d j.
Proof.
  revert a d w slept. induction m as [| m IH]; intros a d w slept Hn Hm; [lia |].
  cbn [seq helpers.retry_loop call].
  destruct (operation w) as [[x | e] w'].
  - exists 0%nat. split; [lia |]. cbn. now rewrite app_nil_r.
  - destruct (Z.eqb_spec (Z.of_nat a) (max_retries - 1)) as [Hlast | Hmore].
    + exists 0%nat. split; [lia |]. cbn. now rewrite app_nil_r.
    + unfold sbind at 1, lift.
      destruct (print (AttemptFailed (Z.of_nat a + 1) (exn_str e))) as [[] | e1].
      2:{ exists 0%nat. split; [lia |]. cbn. now rewrite app_nil_r. }
      unfold sbind at 1.
      destruct (print (RetryingIn d)) as [[] | e2].
      2:{ exists 0%nat. split; [lia |]. cbn. now rewrite app_nil_r. }
      unfold sbind, sleep.
      destruct (IH (S a) (d * 2)%Qc w' (slept ++ [d]) ltac:(lia) ltac:(lia))
        as (j & Hj & E).
      exists (S j). split; [lia |].
      rewrite E. cbn [doubled]. now rewrite <- app_assoc.
Qed.

Lemma doubled_backoff (d : Qc) (j : nat) : doubled d j = backoff d j.
Proof.
  unfold backoff. revert d. induction j as [| j IH]; intros d; [reflexivity |].
  cbn [doubled seq List.map]. rewrite IH, <- seq_shift, List.map_map.
  f_equal; [cbn [Qcpower]; ring |].
  apply List.map_ext. intros i. cbn [Qcpower]. ring.
Qed.

(** A run of the client's wrapper with at least one attempt. *)
Lemma client_run (self : TableauClient.t) (w : W) (slept : list Qc) :
  1 <= TableauClient._retry_count self ->
  exists j : nat,
    Z.of_nat j < TableauClient._retry_count self
    /\ TableauClient._retry_operation self operation (w, slept)
       = (final_answer (answer_of_call operation j w),
          (after_calls operation (S j) w,
           slept ++ backoff (TableauClient._retry_delay self) j))
    /\ (forall i, (i < j)%nat -> raises (answer_of_call operation i w) = true)
    /\ (raises (answer_of_call operation j w) = false
        \/ Z.of_nat j = TableauClient._retry_count self - 1).
Proof.
  intros Hc. unfold TableauClient._retry_operation.
  destruct (client_loop_runs self (Z.to_nat (TableauClient._retry_count self)) 0 w slept
              ltac:(lia) ltac:(lia)) as (j & Hj & E & Hfail & Hlast).
  exists j. split; [lia |]. split; [exact E |]. split; [exact Hfail |].
  destruct Hlast; [now left | right; lia].
Qed.

(** X1. A client configured for at least one attempt calls the operation
    until it succeeds or the attempts are used up: for some [j] below the
    count, calls [0 .. j-1] raise, call [j] succeeds or is the last one
    allowed, the wrapper answers what call [j] answers (its exception
    unchanged when it raises), the operation has run exactly [j + 1] times,
    and the wrapper has slept [j] times, [delay * 2^i] after call [i]. *)
Theorem client_retry_run (self : TableauClient.t) (w : W) (slept : list Qc) :
  1 <= TableauClient._retry_count self ->
  exists j : nat,
    Z.of_nat j < TableauClient._retry_count self
    /\ TableauClient._retry_operation self operation (w, slept)
       = (final_answer (answer_of_call operation j w),
          (after_calls operation (S j) w,
           slept ++ backoff (TableauClient._retry_delay self) j))
    /\ (forall i, (i < j)%nat -> raises (answer_of_call operation i w) = true)
    /\ (raises (answer_of_call operation j w) = false
        \/ Z.of_nat j = TableauClient._retry_count self - 1).
Proof. apply client_run. Qed.

(** X2. A wrapper configured for no attempt (a count of zero or less)
    never calls the operation, never sleeps, and returns [None]. *)
Theorem retry_without_attempts (print : console) (self : TableauClient.t)
    (max_retries : Z) (d : Qc) (w : W) (slept : list Qc) :
  TableauClient._retry_count self <= 0 ->
  max_retries <= 0 ->
  TableauClient._retry_operation self operation (w, slept) = (Ok None, (w, slept))
  /\ helpers.retry_on_failure print operation max_retries d (w, slept)
     = (Ok None, (w, slept)).
Proof.
  intros Hc Hm. unfold TableauClient._retry_operation, helpers.retry_on_failure.
  rewrite !Z2Nat.nonpos by assumption. split; reflexivity.
Qed.


Lemma total_app (l1 l2 : list Qc) : total (l1 ++ l2) = (total l1 + total l2)%Qc.
Proof.
  induction l1 as [| x l1 IH]; cbn [app total]; [ring |]. rewrite IH. ring.
Qed.

(** The delays of [j] sleeps add up to [d * (2^j - 1)]. *)
Lemma total_backoff (d : Qc) (j : nat) : total (backoff d j) = (d * (2 ^ j - 1))%Qc.
Proof.
  unfold backoff. induction j as [| j IH]; [cbn; ring |].
  rewrite seq_S, List.map_app, total_app, IH. cbn [List.map total Nat.add Qcpower].
  ring.
Qed.

Lemma Qc_pow2_ge_1 (k : nat) : (1 <= 2 ^ k)%Qc.
Proof.
  induction k as [| k IH]; [apply Qcle_refl |].
  cbn [Qcpower]. replace (2 * 2 ^ k)%Qc with (2 ^ k + 2 ^ k)%Qc by ring.
  replace 1%Qc with (1 + 0)%Qc at 1 by ring.
  apply Qcplus_le_compat; [exact IH |].
  apply Qcle_trans with 1%Qc; [discriminate | exact IH].
Qed.

Lemma Qc_pow2_mono (j k : nat) : (j <= k)%nat -> (2 ^ j <= 2 ^ k)%Qc.
Proof.
  induction 1 as [| k _ IH]; [apply Qcle_refl |].
  apply Qcle_trans with (2 ^ k)%Qc; [exact IH |].
  cbn [Qcpower]. replace (2 * 2 ^ k)%Qc with (2 ^ k + 2 ^ k)%Qc by ring.
  replace (2 ^ k)%Qc with (2 ^ k + 0)%Qc at 1 by ring.
  apply Qcplus_le_compat; [apply Qcle_refl |].
  apply Qcle_trans with 1%Qc; [discriminate | apply Qc_pow2_ge_1].
Qed.

Lemma total_backoff_le (d : Qc) (j k : nat) :
  (0 <= d)%Qc -> (j <= k)%nat ->
  (total (backoff d j) <= d * (2 ^ k - 1))%Qc.
Proof.
  intros Hd Hjk. rewrite total_backoff.
  rewrite (Qcmult_comm d (2 ^ j - 1)), (Qcmult_comm d (2 ^ k - 1)).
  apply Qcmult_le_compat_r; [| exact Hd].
  unfold Qcminus. apply Qcplus_le_compat; [now apply Qc_pow2_mono | apply Qcle_refl].
Qed.

(** X3. However the operation behaves, a wrapper allowed [n >= 1] attempts
    with a non-negative first delay [d] sleeps at most [d * (2^(n-1) - 1)]
    seconds in total: it never sleeps after its last attempt. *)
Theorem retry_total_sleep (print : console) (self : TableauClient.t)
    (max_retries : Z) (d : Qc) (w : W) :
  1 <= TableauClient._retry_count self ->
  (0 <= TableauClient._retry_delay self)%Qc ->
  1 <= max_retries ->
  (0 <= d)%Qc ->
  (total (snd (snd (TableauClient._retry_operation self operation (w, []))))
   <= TableauClient._retry_delay self
      * (2 ^ Z.to_nat (TableauClient._retry_count self - 1) - 1))%Qc
  /\ (total (snd (snd (helpers.retry_on_failure print operation max_retries d (w, []))))
      <= d * (2 ^ Z.to_nat (max_retries - 1) - 1))%Qc.
Proof.
  intros Hc Hd Hm Hd'. split.
  - destruct (client_run self w [] Hc) as (j & Hj & -> & _).
    cbn [snd app]. apply total_backoff_le; [exact Hd | lia].
  - unfold helpers.retry_on_failure.
    destruct (helper_loop_sleeps print max_retries (Z.to_nat max_retries) 0 d w []
                ltac:(lia) ltac:(lia)) as (j & Hj & ->).
    cbn [app]. rewrite doubled_backoff. apply total_backoff_le; [exact Hd' | lia].
Qed.



End RetryRuns.

(* ===================================================================== *)
(** * Further properties: the client's getters, search and connection       *)
(* ===================================================================== *)

Section ClientMethods.
Context {W Item : Type}.
Variable self : TableauClient.t.
Variable sdk : client.Endpoints W Item.

(** A retried call on the client's state, for at least one attempt. *)
Lemma client_retry_state {A} (operation : st W A) (s : client.state W) :
  1 <= TableauClient._retry_count self ->
  exists j : nat,
    Z.of_nat j < TableauClient._retry_count self
    /\ client._retry_operation self operation s
       = (final_answer (answer_of_call operation j (client.service s)),
          client.mk_state (client.server s)
            (after_calls operation (S j) (client.service s))
            (client.slept s ++ backoff (TableauClient._retry_delay self) j))
    /\ (forall i, (i < j)%nat ->
          raises (answer_of_call operation i (client.service s)) = true)
    /\ (raises (answer_of_call operation j (client.service s)) = false
        \/ Z.of_nat j = TableauClient._retry_count self - 1).
Proof.
  intros Hc.
  destruct (client_run operation self (client.service s) (client.slept s) Hc)
    as (j & Hj & E & Hfail & Hlast).
  exists j. split; [exact Hj |]. split; [| split; assumption].
  unfold client._retry_operation. now rewrite E.
Qed.

(** When every allowed call fails, the retried call raises what the last
    one raised, after exactly [count] calls. *)
Lemma client_retry_all_fail {A} (operation : st W A) (s : client.state W) (e : exn) :
  1 <= TableauClient._retry_count self ->
  (forall i, Z.of_nat i < TableauClient._retry_count self ->
     raises (answer_of_call operation i (client.service s)) = true) ->
  answer_of_call operation (Z.to_nat (TableauClient._retry_count self - 1))
    (client.service s) = Raise e ->
  client._retry_operation self operation s
  = (Raise e,
     client.mk_state (client.server s)
       (after_calls operation (Z.to_nat (TableauClient._retry_count self))
          (client.service s))
       (client.slept s
        ++ backoff (TableauClient._retry_delay self)
             (Z.to_nat (TableauClient._retry_count self - 1)))).
Proof.
  intros Hc Hall Hlast.
  destruct (client_retry_state operation s Hc) as (j & Hj & E & _ & Hend).
  destruct Hend as [Hok | Hj'].
  - rewrite Hall in Hok by exact Hj. discriminate.
  - assert (j = Z.to_nat (TableauClient._retry_count self - 1)) as -> by lia.
    rewrite E, Hlast. cbn [final_answer].
    replace (S (Z.to_nat (TableauClient._retry_count self - 1)))
      with (Z.to_nat (TableauClient._retry_count self)) by lia.
    reflexivity.
Qed.

(** X5. A getter of a connected client, configured for at least one
    attempt, answers as its retried call does: the value of the first call
    that succeeds, or, when all [count] calls fail, a [TableauAPIError]
    whose message is the getter's prefix followed by the message of the
    last failure.  It raises no other class and leaves [self.server] set. *)
Theorem getter_run {A} (prefix : string) (operation : st W A) (s : client.state W) :
  client.server s = true ->
  1 <= TableauClient._retry_count self ->
  exists j : nat,
    Z.of_nat j < TableauClient._retry_count self
    /\ client.fetch self prefix operation s
       = (match answer_of_call operation j (client.service s) with
          | Ok a => Ok (Some a)
          | Raise e => Raise (Exn TableauAPIError (prefix +:+ exn_str e))
          end,
          client.mk_state true
            (after_calls operation (S j) (client.service s))
            (client.slept s ++ backoff (TableauClient._retry_delay self) j))
    /\ (forall i, (i < j)%nat ->
          raises (answer_of_call operation i (client.service s)) = true)
    /\ (raises (answer_of_call operation j (client.service s)) = false
        \/ Z.of_nat j = TableauClient._retry_count self - 1).
Proof.
  intros Hs Hc.
  destruct (client_retry_state operation s Hc) as (j & Hj & E & Hfail & Hlast).
  exists j. split; [exact Hj |]. split; [| split; assumption].
  unfold client.fetch, client.connected, try_reraise. rewrite Hs, E, Hs.
  destruct (answer_of_call operation j (client.service s)); reflexivity.
Qed.

(** X6. When every allowed call of [get_by_id] fails, [get_workbook_views]
    never asks for the views: the service has seen the [count] calls of
    [get_by_id] and nothing else, and the error carries both prefixes,
    the outer one first. *)
Theorem workbook_views_details_fail (workbook_id : string) (s : client.state W)
    (e : exn) :
  client.server s = true ->
  1 <= TableauClient._retry_count self ->
  (forall i, Z.of_nat i < TableauClient._retry_count self ->
     raises (answer_of_call (client.workbooks_get_by_id sdk workbook_id) i
               (client.service s)) = true) ->
  answer_of_call (client.workbooks_get_by_id sdk workbook_id)
    (Z.to_nat (TableauClient._retry_count self - 1)) (client.service s) = Raise e ->
  client.get_workbook_views self sdk workbook_id s
  = (Raise (Exn TableauAPIError
              ("Failed to get workbook views: Failed to get workbook details: "
               +:+ exn_str e)),
     client.mk_state true
       (after_calls (client.workbooks_get_by_id sdk workbook_id)
          (Z.to_nat (TableauClient._retry_count self)) (client.service s))
       (client.slept s
        ++ backoff (TableauClient._retry_delay self)
             (Z.to_nat (TableauClient._retry_count self - 1)))).
Proof.
  intros Hs Hc Hall Hlast.
  unfold client.get_workbook_views, client.get_workbook_details, client.fetch,
    client.connected, try_reraise, sbind.
  rewrite Hs, (client_retry_all_fail _ s e Hc Hall Hlast), Hs.
  reflexivity.
Qed.

(** X7. A content type that is none of [all], [workbooks], [datasources],
    [projects], [flows] is no error: a connected client answers four empty
    lists without any call to the service. *)
Theorem search_unknown_content_type (search_term content_type : string)
    (s : client.state W) :
  client.server s = true ->
  str_in content_type ["all"; "workbooks"; "datasources"; "projects"; "flows"]
  = false ->
  client.search_content self sdk search_term content_type s
  = (Ok (client.mk_results (Some []) (Some []) (Some []) (Some [])), s).
Proof.
  intros Hs Hct. unfold str_in in Hct. cbn [existsb] in Hct.
  repeat (apply orb_false_elim in Hct; destruct Hct as [? Hct]).
  unfold client.search_content, client.connected, client.search_block, str_in,
    try_reraise, sbind, sret.
  rewrite Hs. cbn [existsb].
  repeat match goal with H : String.eqb _ _ = false |- _ => rewrite H; clear H end.
  reflexivity.
Qed.

(** X8. A search for one of the content types the method knows ([all],
    [workbooks], [datasources], [projects], [flows]) never reaches the
    service: the first block that applies evaluates
    [TSC.RequestOptions.Operator.Contains], a member the SDK's [Operator]
    does not have, and the [AttributeError] comes out as a
    [TableauAPIError], before any call and any sleep. *)
Theorem search_known_content_type (search_term content_type : string)
    (s : client.state W) :
  client.server s = true ->
  str_in content_type ["all"; "workbooks"; "datasources"; "projects"; "flows"]
  = true ->
  client.search_content self sdk search_term content_type s
  = (Raise (Exn TableauAPIError
              "Failed to search content: type object 'Operator' has no attribute 'Contains'"),
     s).
Proof.
  intros Hs Hct. unfold str_in in Hct. cbn [existsb] in Hct.
  unfold client.search_content, client.connected, client.search_block, str_in,
    try_reraise, sbind, sret.
  rewrite Hs. cbn [existsb].
  destruct (String.eqb content_type "all"),
    (String.eqb content_type "workbooks"),
    (String.eqb content_type "datasources"),
    (String.eqb content_type "projects"),
    (String.eqb content_type "flows");
    try discriminate Hct; reflexivity.
Qed.

End ClientMethods.

(** X9. Inside [with client.connection()], once the sign-in is accepted,
    whatever the block raises comes out as a [ConnectionError] that says
    the connection failed, followed by the block's message; a value of the
    block comes out unchanged.  On the way out the session is signed out
    with one request, and [self.server] stays set. *)
Theorem connection_block_outcome {A} (authenticator : TableauAuthenticator.t)
    (block : st (client.state TSC.Server) A) (s s2 : client.state TSC.Server)
    (a : TSC.auth_object) (tok t closed : string) (r : result A) :
  TableauAuthenticator.create_auth_object authenticator = Ok a ->
  next_reply (client.service s) = Ok tok ->
  block (client.mk_state true
           (after_request (client.service s) (TSC.SignIn a) (Some tok))
           (client.slept s)) = (r, s2) ->
  client.server s2 = true ->
  TSC.auth_token (client.service s2) = Some t ->
  next_reply (client.service s2) = Ok closed ->
  client.connection authenticator block s
  = (reraise_as ConnectionError "Failed to connect to Tableau Server: " r,
     client.mk_state true (after_request (client.service s2) TSC.SignOut None)
       (client.slept s2)).
Proof.
  intros Ha Hin Hb Hs2 Ht Hout.
  unfold client.connection, sbind, client.on_handle, client.set_server.
  rewrite authenticate_spec, Ha, Hin. cbn [client.service client.slept].
  rewrite Hb. cbv beta iota.
  rewrite Hs2, sign_out_spec, Ht, Hout. reflexivity.
Qed.

(** X10. When the service refuses the sign-in of a client that was never
    connected, the block does not run and no sign-out is sent: the one
    request made is the sign-in, and the error is a [ConnectionError]
    whose message carries both prefixes before the cause. *)
Theorem connection_sign_in_refused {A} (authenticator : TableauAuthenticator.t)
    (block : st (client.state TSC.Server) A) (s : client.state TSC.Server)
    (a : TSC.auth_object) (cause : exn) :
  client.server s = false ->
  TableauAuthenticator.create_auth_object authenticator = Ok a ->
  next_reply (client.service s) = Raise cause ->
  client.connection authenticator block s
  = (Raise (Exn ConnectionError
              ("Failed to connect to Tableau Server: Authentication failed: "
               +:+ exn_str cause)),
     client.mk_state false
       (after_request (client.service s) (TSC.SignIn a)
          (TSC.auth_token (client.service s)))
       (client.slept s)).
Proof.
  intros Hs Ha Hin.
  unfold client.connection, sbind, client.on_handle.
  rewrite authenticate_spec, Ha, Hin. cbn [client.server]. rewrite Hs.
  reflexivity.
Qed.

(** X11. When the sign-out on the way out is refused, the [with] statement
    raises the [AuthenticationError] of the sign-out whatever the block
    did: a value the block computed is lost and an error it raised is
    replaced; the session stays open. *)
Theorem connection_sign_out_refused {A} (authenticator : TableauAuthenticator.t)
    (block : st (client.state TSC.Server) A) (s s2 : client.state TSC.Server)
    (a : TSC.auth_object) (tok t : string) (r : result A) (cause : exn) :
  TableauAuthenticator.create_auth_object authenticator = Ok a ->
  next_reply (client.service s) = Ok tok ->
  block (client.mk_state true
           (after_request (client.service s) (TSC.SignIn a) (Some tok))
           (client.slept s)) = (r, s2) ->
  client.server s2 = true ->
  TSC.auth_token (client.service s2) = Some t ->
  next_reply (client.service s2) = Raise cause ->
  client.connection authenticator block s
  = (Raise (Exn AuthenticationError ("Sign out failed: " +:+ exn_str cause)),
     client.mk_state true
       (after_request (client.service s2) TSC.SignOut (Some t))
       (client.slept s2)).
Proof.
  intros Ha Hin Hb Hs2 Ht Hout.
  unfold client.connection, sbind, client.on_handle, client.set_server.
  rewrite authenticate_spec, Ha, Hin. cbn [client.service client.slept].
  rewrite Hb. cbv beta iota.
  rewrite Hs2, sign_out_spec, Ht, Hout. reflexivity.
Qed.

(* ===================================================================== *)
(** * Further properties: the environment and the authenticator             *)
(* ===================================================================== *)

Lemma str_truthy_default (o : option string) :
  str_truthy o = true -> str_truthy (Some (default "" o)) = true.
Proof. destruct o; [trivial | discriminate]. Qed.

(** X12. A configuration resolved from the environment always has the
    credentials its method needs: the authenticator builds the sign-in
    object from it without error, out of the values of the variables the
    resolver chose.  The site id goes into a token or password sign-in;
    a JWT sign-in is built from the token alone. *)
Theorem env_config_builds_auth_object (environ : gmap string string)
    (c : AuthConfig.t) :
  create_auth_config_from_env environ = Ok c ->
  let value name := default "" (getenv environ name) in
  TableauAuthenticator.create_auth_object (TableauAuthenticator.mk c)
  = Ok (match AuthConfig.auth_method c with
        | PERSONAL_ACCESS_TOKEN =>
            TSC.PersonalAccessTokenAuth (value "TABLEAU_TOKEN_NAME")
              (value "TABLEAU_TOKEN_VALUE") (value "TABLEAU_SITE_ID")
        | USERNAME_PASSWORD =>
            TSC.TableauAuth (value "TABLEAU_USERNAME") (value "TABLEAU_PASSWORD")
              (value "TABLEAU_SITE_ID")
        | JWT => TSC.JWTAuth (value "TABLEAU_JWT_TOKEN")
        end).
Proof.
  unfold create_auth_config_from_env. cbv zeta.
  destruct (str_truthy (getenv environ "TABLEAU_SERVER_URL")); [| discriminate].
  cbn [negb].
  destruct (str_truthy (getenv environ "TABLEAU_TOKEN_NAME")) eqn:Hn;
    [destruct (str_truthy (getenv environ "TABLEAU_TOKEN_VALUE")) eqn:Hv |];
    cbn [andb].
  1: { intros [= <-]. unfold TableauAuthenticator.create_auth_object.
       cbn [TableauAuthenticator.config AuthConfig.auth_method AuthConfig.token_name
            AuthConfig.token_value AuthConfig.site_id].
       now rewrite Hn, Hv. }
  all: destruct (str_truthy (getenv environ "TABLEAU_USERNAME")) eqn:Hu;
    [destruct (str_truthy (getenv environ "TABLEAU_PASSWORD")) eqn:Hp |];
    cbn [andb].
  all: try (intros [= <-]; unfold TableauAuthenticator.create_auth_object;
            cbn [TableauAuthenticator.config AuthConfig.auth_method AuthConfig.username
                 AuthConfig.password AuthConfig.site_id];
            now rewrite Hu, Hp).
  all: destruct (str_truthy (getenv environ "TABLEAU_JWT_TOKEN")) eqn:Hj;
    [| discriminate].
  all: intros [= <-]; unfold TableauAuthenticator.create_auth_object;
    cbn [TableauAuthenticator.config AuthConfig.auth_method AuthConfig.jwt_token];
    now rewrite Hj.
Qed.

(* ===================================================================== *)
(** * Further properties: the local backend                                 *)
(* ===================================================================== *)

Section Frames.










End Frames.










(* ===================================================================== *)
(** * Further properties: the object store and the storage manager          *)
(* ===================================================================== *)



(** X20. While [tableau_metadata] in the working directory is a regular
    file, no load from the object store succeeds: whatever the bucket
    holds under the key, [load_metadata] raises [StorageError], and it
    changes neither the bucket nor the file system. *)
Theorem s3_load_needs_local_directory (self : S3Storage.t) (path : string)
    (local : fs.t) (remote : s3.t) :
  is_file local LocalStorage_default_path = true ->
  exists e : exn,
    S3.load_metadata self path (local, remote) = (Raise e, (local, remote))
    /\ exn_class e = StorageError.
Proof.
  intros Hlocal.
  assert (Hmk : exists e, fs.mkdir LocalStorage_default_path local = (Raise e, local)).
  { destruct (mkdir_on_file LocalStorage_default_path local) as (e & E & _);
      [| now exists e].
    now rewrite file_at_spec, Hlocal. }
  destruct Hmk as [e0 Hmk].
  unfold S3.load_metadata, S3._dict_to_metadata, LocalStorage_init,
    try_reraise, sbind, lift, on_s3, on_fs, s3_client.get_object.
  cbv zeta.
  destruct (s3.failing remote) as [e |]; [eexists; split; reflexivity |].
  destruct (s3.objects remote !! _) as [o |]; [| eexists; split; reflexivity].
  destruct (if bool_decide (s3.content_encoding o = Some "gzip")
            then gzip_decompress (s3.body o) else Ok (s3.body o)) as [c | e];
    [| eexists; split; reflexivity].
  destruct (fs.loads_text c) as [data | e]; [| eexists; split; reflexivity].
  rewrite Hmk. eexists; split; reflexivity.
Qed.

(** X21. The manager does not undo what it has written: when the local
    save succeeded and the next backend in the list is not supported (an
    unknown name, or [s3] without a configured object store), the call
    raises [StorageError] that names the backend and returns no result,
    while the file the local backend wrote stays. *)
Theorem manager_save_no_rollback (self : StorageManager.t) (m : ServerMetadata.t)
    (filename format backend : string) (rest : list string)
    (local local' : fs.t) (remote : s3.t) (p : string) :
  LocalStorage.save_metadata (StorageManager.local_storage self) m filename format
    local = (Ok p, local') ->
  String.eqb backend "local" = false ->
  String.eqb backend "s3" = false \/ StorageManager.s3_storage self = None ->
  StorageManager.save_metadata self m filename ("local" :: backend :: rest) format
    (local, remote)
  = (Raise (Exn StorageError ("Unsupported backend: " +:+ backend)), (local', remote)).
Proof.
  intros Hsave Hb Hs3.
  unfold StorageManager.save_metadata.
  cbn [StorageManager.save_loop String.eqb Ascii.eqb Bool.eqb].
  unfold sbind, on_fs. rewrite Hsave, Hb.
  destruct Hs3 as [-> | ->]; [reflexivity |].
  destruct (String.eqb backend "s3"); reflexivity.
Qed.

(** X22. A generated file name is a single path component with the suffix
    [.json]: it holds no slash and no space whatever the site name, it is
    read back as plain JSON text, and a file saved under it lies directly
    in the base directory of the local backend.  With a timestamp, the
    statement is made for the years from 1000 on, which every platform
    writes with four digits. *)
Theorem generated_filename_in_base (m : ServerMetadata.t) (include_timestamp : bool)
    (base : string) :
  String.eqb base "" = false ->
  (include_timestamp = true -> 1000 <= datetime.year (ServerMetadata.timestamp m)) ->
  let name := StorageManager.generate_filename m include_timestamp in
  plain_name name = true
  /\ endswith name ".json" = true
  /\ endswith name ".gz" = false
  /\ path_join base name = base +:+ "/" +:+ name
  /\ path_parent (path_join base name) = base.
Proof.
  intros Hbase _ name.
  assert (Hplain : plain_name name = true).
  { unfold name, StorageManager.generate_filename. cbv zeta.
    destruct include_timestamp.
    - rewrite !plain_name_append, plain_site_name, plain_timestamp. reflexivity.
    - rewrite plain_name_append, plain_site_name. reflexivity. }
  assert (Hsuffix : exists x, name = x +:+ ".json").
  { unfold name, StorageManager.generate_filename. cbv zeta.
    destruct include_timestamp.
    - exists (str_replace "/" "_"
                (str_replace " " "_"
                   (if String.eqb (ServerMetadata.site_name m) "" then "default"
                    else ServerMetadata.site_name m))
              +:+ "_" +:+ StorageManager.strftime_compact (ServerMetadata.timestamp m)).
      now rewrite 2!str_append_assoc.
    - eexists. reflexivity. }
  destruct Hsuffix as [x Hx].
  split; [exact Hplain |].
  split; [rewrite Hx; apply endswith_json |].
  split; [rewrite Hx; apply endswith_json |].
  now apply plain_name_in_base.
Qed.

(* ===================================================================== *)
(** * Further properties: the string helpers                                *)
(* ===================================================================== *)

Section Truncate.

Lemma substring_prefix_length (k : nat) (s : string) :
  String.length (substring 0 k s) = Nat.min k (String.length s).
Proof.
  revert s. induction k as [| k IH]; intros [| c s]; try reflexivity.
  cbn [substring String.length Nat.min]. now rewrite IH.
Qed.

Lemma slice_to_length (text : string) (stop : Z) :
  Z.of_nat (String.length (slice_to text stop))
  = if stop <? 0 then Z.max 0 (Z.of_nat (String.length text) + stop)
    else Z.min stop (Z.of_nat (String.length text)).
Proof.
  unfold slice_to. cbv zeta. rewrite substring_prefix_length.
  destruct (Z.ltb_spec stop 0); lia.
Qed.

Lemma truncate_string_len (text : string) (max_length : Z) :
  Z.of_nat (String.length (truncate_string text max_length))
  = if Z.of_nat (String.length text) <=? max_length
    then Z.of_nat (String.length text)
    else (if max_length - 3 <? 0
          then Z.max 0 (Z.of_nat (String.length text) + (max_length - 3))
          else Z.min (max_length - 3) (Z.of_nat (String.length text))) + 3.
Proof.
  unfold truncate_string.
  destruct (Z.of_nat (String.length text) <=? max_length); [reflexivity |].
  rewrite length_append, Nat2Z.inj_add, slice_to_length. reflexivity.
Qed.

(** X23. With a limit of at least 3, [truncate_string] keeps its promise:
    the result is never longer than the limit, a text that was cut has
    exactly the length of the limit, and truncating a result again changes
    nothing. *)
Theorem truncate_string_bound (text : string) (max_length : Z) :
  3 <= max_length ->
  Z.of_nat (String.length (truncate_string text max_length)) <= max_length
  /\ (max_length < Z.of_nat (String.length text) ->
      Z.of_nat (String.length (truncate_string text max_length)) = max_length)
  /\ truncate_string (truncate_string text max_length) max_length
     = truncate_string text max_length.
Proof.
  intros Hmax.
  assert (Hlen : Z.of_nat (String.length (truncate_string text max_length))
                 <= max_length
                 /\ (max_length < Z.of_nat (String.length text) ->
                     Z.of_nat (String.length (truncate_string text max_length))
                     = max_length)).
  { rewrite truncate_string_len.
    destruct (Z.leb_spec (Z.of_nat (String.length text)) max_length);
      destruct (Z.ltb_spec (max_length - 3) 0); lia. }
  destruct Hlen as [Hle Heq]. split; [exact Hle |]. split; [exact Heq |].
  unfold truncate_string at 1.
  now apply Z.leb_le in Hle as ->.
Qed.

(** X24. With a limit below 3 the promise fails for every text longer than
    the limit: the slice [text[:max_length - 3]] counts from the end, and
    the result, [max(0, len(text) + max_length - 3) + 3] characters long,
    is longer than the limit. *)
Theorem truncate_string_overshoot (text : string) (max_length : Z) :
  max_length < 3 ->
  max_length < Z.of_nat (String.length text) ->
  Z.of_nat (String.length (truncate_string text max_length))
  = Z.max 0 (Z.of_nat (String.length text) + max_length - 3) + 3
  /\ max_length < Z.of_nat (String.length (truncate_string text max_length)).
Proof.
  intros Hmax Hlen. rewrite truncate_string_len.
  destruct (Z.leb_spec (Z.of_nat (String.length text)) max_length);
    destruct (Z.ltb_spec (max_length - 3) 0); lia.
Qed.

End Truncate.

Section Sanitize.

Lemma str_replace_one_char (old : ascii) (s : string) :
  list_ascii_of_string (str_replace old "_" s)
  = List.map (fun x => sanitize_step x old) (list_ascii_of_string s).
Proof.
  induction s as [| c s IH]; [reflexivity |].
  cbn [str_replace list_ascii_of_string List.map]. unfold sanitize_step at 1.
  destruct (Ascii.eqb c old).
  - change ("_" +:+ str_replace old "_" s) with (String "_" (str_replace old "_" s)).
    cbn [list_ascii_of_string]. now rewrite IH.
  - cbn [list_ascii_of_string]. now rewrite IH.
Qed.

Lemma sanitize_chars (l : list ascii) (s : string) :
  list_ascii_of_string
    (fold_left (fun filename char => str_replace char "_" filename) l s)
  = List.map (fun x => fold_left sanitize_step l x) (list_ascii_of_string s).
Proof.
  revert s. induction l as [| c l IH]; intros s.
  - cbn [fold_left]. now rewrite List.map_id.
  - cbn [fold_left]. now rewrite IH, str_replace_one_char, List.map_map.
Qed.

Lemma sanitize_step_fold (l : list ascii) (x : ascii) :
  existsb (Ascii.eqb "_"%char) l = false ->
  fold_left sanitize_step l x = if existsb (Ascii.eqb x) l then "_"%char else x.
Proof.
  revert x. induction l as [| c l IH]; intros x Hu; [reflexivity |].
  cbn [existsb] in Hu. apply orb_false_elim in Hu as [Hc Hl].
  cbn [fold_left existsb]. rewrite (IH _ Hl). unfold sanitize_step.
  destruct (Ascii.eqb x c); cbn [orb]; [| reflexivity].
  assert (existsb (Ascii.eqb "_"%char) l = false) as -> by exact Hl. reflexivity.
Qed.

Lemma sanitize_filename_chars (filename : string) :
  list_ascii_of_string (sanitize_filename filename)
  = List.map (fun x => if existsb (Ascii.eqb x) invalid_chars then "_"%char else x)
      (list_ascii_of_string filename).
Proof.
  unfold sanitize_filename. rewrite sanitize_chars.
  apply List.map_ext. intros x. now apply sanitize_step_fold.
Qed.

Lemma chars_inj (a b : string) :
  list_ascii_of_string a = list_ascii_of_string b -> a = b.
Proof.
  intros H. rewrite <- (string_of_list_ascii_of_string a),
    <- (string_of_list_ascii_of_string b). now rewrite H.
Qed.

Lemma chars_length (s : string) :
  length (list_ascii_of_string s) = String.length s.
Proof. induction s as [| c s IH]; [reflexivity |]. cbn. now rewrite IH. Qed.

(** X25. A sanitized file name holds none of the nine characters
    [< > : double-quote / backslash | ? *], has the length of the name it
    came from, and is left unchanged by a second pass. *)
Theorem sanitize_filename_spec (filename : string) :
  forallb (fun c => negb (existsb (Ascii.eqb c) invalid_chars))
    (list_ascii_of_string (sanitize_filename filename)) = true
  /\ String.length (sanitize_filename filename) = String.length filename
  /\ sanitize_filename (sanitize_filename filename) = sanitize_filename filename.
Proof.
  assert (Hstep : forall x : ascii,
            existsb (Ascii.eqb (if existsb (Ascii.eqb x) invalid_chars
                                then "_"%char else x)) invalid_chars = false).
  { intros x. destruct (existsb (Ascii.eqb x) invalid_chars) eqn:E;
      [reflexivity | exact E]. }
  split; [| split].
  - rewrite sanitize_filename_chars, forallb_forall. intros c Hc.
    apply in_map_iff in Hc as (x & <- & _). now rewrite Hstep.
  - rewrite <- !chars_length, sanitize_filename_chars. apply length_map.
  - apply chars_inj. rewrite (sanitize_filename_chars (sanitize_filename filename)).
    rewrite sanitize_filename_chars, List.map_map.
    apply List.map_ext. intros x. now rewrite Hstep.
Qed.

End Sanitize.

Section Tags.

Lemma lstrip_idem (l : list ascii) : lstrip (lstrip l) = lstrip l.
Proof.
  induction l as [| c l IH]; [reflexivity |].
  cbn [lstrip]. destruct (is_space c) eqn:E; [exact IH |].
  cbn [lstrip]. now rewrite E.
Qed.

Lemma lstrip_app_visible (l r : list ascii) (c : ascii) :
  is_space c = false -> lstrip (l ++ c :: r) = lstrip l ++ c :: r.
Proof.
  intros Hc. induction l as [| x l IH].
  - cbn [app lstrip]. now rewrite Hc.
  - cbn [app lstrip]. destruct (is_space x); [exact IH | reflexivity].
Qed.

Lemma rstrip_idem (l : list ascii) : rstrip (rstrip l) = rstrip l.
Proof. unfold rstrip. now rewrite rev_involutive, lstrip_idem. Qed.

Lemma lstrip_rstrip (l : list ascii) :
  lstrip l = l -> lstrip (rstrip l) = rstrip l.
Proof.
  destruct l as [| c l]; [reflexivity |].
  cbn [lstrip]. destruct (is_space c) eqn:E.
  - intros H. exfalso.
    assert (Hlen : forall k : list ascii, (length (lstrip k) <= length k)%nat).
    { induction k as [| x k IHk]; [reflexivity |].
      cbn [lstrip]. destruct (is_space x); cbn [length]; lia. }
    pose proof (Hlen l) as Hl. rewrite H in Hl. cbn [length] in Hl. lia.
  - intros _. unfold rstrip. cbn [rev].
    rewrite (lstrip_app_visible _ [] _ E), rev_app_distr. cbn [rev app lstrip].
    now rewrite E.
Qed.

Lemma strip_idem (l : list ascii) : strip (strip l) = strip l.
Proof.
  unfold strip.
  rewrite (lstrip_rstrip (lstrip l) (lstrip_idem l)). apply rstrip_idem.
Qed.

Lemma lstrip_keeps (P : ascii -> bool) (l : list ascii) :
  forallb P l = true -> forallb P (lstrip l) = true.
Proof.
  induction l as [| c l IH]; [trivial |].
  cbn [lstrip]. destruct (is_space c); [| trivial].
  cbn [forallb]. intros [_ H]%andb_prop. now apply IH.
Qed.

Lemma forallb_rev (P : ascii -> bool) (l : list ascii) :
  forallb P (rev l) = forallb P l.
Proof.
  induction l as [| c l IH]; [reflexivity |].
  cbn [rev forallb]. rewrite forallb_app, IH. cbn [forallb].
  rewrite andb_true_r. apply andb_comm.
Qed.

Lemma strip_keeps (P : ascii -> bool) (l : list ascii) :
  forallb P l = true -> forallb P (strip l) = true.
Proof.
  intros H. unfold strip, rstrip. rewrite forallb_rev.
  apply lstrip_keeps. rewrite forallb_rev. now apply lstrip_keeps.
Qed.

Lemma split_on_pieces (sep : ascii) (l : list ascii) :
  Forall (fun piece => forallb (fun c => negb (Ascii.eqb c sep)) piece = true)
    (split_on sep l).
Proof.
  induction l as [| c l IH]; [repeat constructor |].
  cbn [split_on]. destruct (Ascii.eqb c sep) eqn:E.
  - constructor; [reflexivity | exact IH].
  - destruct (split_on sep l) as [| piece pieces].
    + repeat constructor. cbn [forallb]. now rewrite E.
    + inversion IH as [| ? ? Hp Hps]; subst. constructor; [| exact Hps].
      cbn [forallb]. now rewrite E, Hp.
Qed.

Lemma split_on_whole (sep : ascii) (l : list ascii) :
  forallb (fun c => negb (Ascii.eqb c sep)) l = true -> split_on sep l = [l].
Proof.
  induction l as [| c l IH]; [reflexivity |].
  cbn [forallb split_on]. intros [Hc Hl]%andb_prop.
  apply negb_true_iff in Hc as ->. now rewrite (IH Hl).
Qed.

Lemma split_on_app (sep : ascii) (l r : list ascii) :
  forallb (fun c => negb (Ascii.eqb c sep)) l = true ->
  split_on sep (l ++ sep :: r) = l :: split_on sep r.
Proof.
  induction l as [| c l IH].
  - intros _. cbn [app split_on]. now rewrite Ascii.eqb_refl.
  - cbn [forallb app split_on]. intros [Hc Hl]%andb_prop.
    apply negb_true_iff in Hc as ->. now rewrite (IH Hl).
Qed.

Lemma clean_tag_inv (tag : string) :
  clean_tag tag = true ->
  tag <> ""
  /\ forallb (fun c => negb (Ascii.eqb c ",")) (list_ascii_of_string tag) = true
  /\ strip (list_ascii_of_string tag) = list_ascii_of_string tag.
Proof.
  unfold clean_tag. cbv zeta.
  intros [[H1 H2]%andb_prop H3]%andb_prop.
  apply negb_true_iff, String.eqb_neq in H1. apply bool_decide_eq_true_1 in H3.
  auto.
Qed.

(** X26. Every tag that [parse_tags] returns is clean: it is not empty, it
    holds no comma, and it has no white space at either end. *)
Theorem parse_tags_clean (tags_str : string) :
  Forall (fun tag => clean_tag tag = true) (parse_tags tags_str).
Proof.
  unfold parse_tags. destruct (String.eqb tags_str ""); [constructor |].
  apply Forall_forall. intros tag Htag.
  apply in_map_iff in Htag as (piece & <- & Hin).
  apply filter_In in Hin as [Hin Hkeep].
  pose proof (split_on_pieces "," (list_ascii_of_string tags_str)) as Hpieces.
  rewrite Forall_forall in Hpieces. specialize (Hpieces piece Hin).
  unfold clean_tag. cbv zeta. rewrite list_ascii_of_string_of_list_ascii.
  rewrite (strip_keeps _ _ Hpieces), strip_idem.
  rewrite bool_decide_eq_true_2 by reflexivity.
  destruct (strip piece) as [| c l]; [discriminate | reflexivity].
Qed.

Lemma join_chars (tag : string) (tags : list string) :
  tags <> [] ->
  list_ascii_of_string (join "," (tag :: tags))
  = list_ascii_of_string tag ++ ","%char :: list_ascii_of_string (join "," tags).
Proof.
  intros Hne. unfold join. destruct tags as [| t tags]; [contradiction |].
  cbn [String.concat]. now rewrite !chars_append.
Qed.

Lemma split_join (tags : list string) :
  tags <> [] ->
  Forall (fun tag => clean_tag tag = true) tags ->
  split_on "," (list_ascii_of_string (join "," tags))
  = List.map list_ascii_of_string tags.
Proof.
  induction tags as [| tag tags IH]; [contradiction |].
  intros _ Hall. inversion Hall as [| ? ? Htag Htags]; subst.
  apply clean_tag_inv in Htag as (_ & Hcomma & _).
  destruct tags as [| t tags].
  - unfold join. cbn [String.concat List.map]. now apply split_on_whole.
  - rewrite join_chars by discriminate. rewrite (split_on_app _ _ _ Hcomma).
    cbn [List.map]. f_equal. now apply IH.
Qed.

Lemma clean_pieces (tags : list string) :
  Forall (fun tag => clean_tag tag = true) tags ->
  List.map (fun tag => string_of_list_ascii (strip tag))
    (List.filter (fun tag => match strip tag with [] => false | _ => true end)
       (List.map list_ascii_of_string tags))
  = tags.
Proof.
  induction 1 as [| t ts Ht _ IH]; [reflexivity |].
  apply clean_tag_inv in Ht as (Hnil & _ & Hstrip).
  cbn [List.map List.filter]. rewrite Hstrip.
  destruct (list_ascii_of_string t) as [| c l] eqn:E.
  - destruct t; [contradiction | discriminate].
  - cbn [List.map]. rewrite Hstrip, <- E, string_of_list_ascii_of_string.
    f_equal. exact IH.
Qed.

(** X27. [parse_tags] undoes a join with commas: for a list of clean tags
    (such as [parse_tags] itself returns), parsing [",".join(tags)], the
    text the CSV writers put in a [tags] cell, gives the list back; the
    empty list is written as the empty text and read back as the empty
    list. *)
Theorem parse_tags_join (tags : list string) :
  Forall (fun tag => clean_tag tag = true) tags ->
  parse_tags (join "," tags) = tags.
Proof.
  intros Hall. destruct tags as [| tag tags]; [reflexivity |].
  unfold parse_tags.
  assert (Hne : String.eqb (join "," (tag :: tags)) "" = false).
  { inversion Hall as [| ? ? Htag _]; subst.
    apply clean_tag_inv in Htag as (Htag & _ & _).
    destruct tag as [| c tag]; [contradiction |].
    unfold join. cbn [String.concat]. destruct tags; reflexivity. }
  assert (Hcons : tag :: tags <> []) by discriminate.
  rewrite Hne, (split_join _ Hcons Hall).
  now apply clean_pieces.
Qed.

End Tags.

(* ===================================================================== *)
(** * Further properties: the summary's recent updates, and filtering twice *)
(* ===================================================================== *)

Section Sorting.
Context {A : Type}.
Variable key : A -> datetime.t.

Lemma lt_same_kind (a b : datetime.t) :
  aware a = aware b -> datetime.lt a b = Ok (instant a <? instant b).
Proof.
  unfold aware, instant, datetime.lt.
  destruct (datetime.tzoffset a), (datetime.tzoffset b); try discriminate;
    intros _; cbn [default]; [reflexivity |].
  now rewrite !Z.sub_0_r.
Qed.

Lemma lt_other_kind (a b : datetime.t) :
  aware a <> aware b -> datetime.lt a b = Raise datetime.cmp_error.
Proof.
  unfold aware, datetime.lt.
  destruct (datetime.tzoffset a), (datetime.tzoffset b); try reflexivity;
    intros H; now contradiction H.
Qed.

Lemma lt_raises (a b : datetime.t) (e : exn) :
  datetime.lt a b = Raise e -> e = datetime.cmp_error.
Proof.
  unfold datetime.lt.
  destruct (datetime.tzoffset a), (datetime.tzoffset b); try discriminate;
    now intros [= <-].
Qed.

Lemma insert_reverse_perm (x : A) (l r : list A) :
  insert_reverse key x l = Ok r -> Permutation r (x :: l).
Proof.
  revert r. induction l as [| y l IH]; intros r.
  - cbn [insert_reverse]. now intros [= <-].
  - cbn [insert_reverse]. destruct (datetime.lt (key x) (key y)) as [[|] |];
      cbn [rbind]; [| now intros [= <-] | discriminate].
    destruct (insert_reverse key x l) as [r' |]; cbn [rbind]; [| discriminate].
    intros [= <-]. rewrite (IH r' eq_refl). apply perm_swap.
Qed.

Lemma insert_reverse_raises (x : A) (l : list A) (e : exn) :
  insert_reverse key x l = Raise e -> e = datetime.cmp_error.
Proof.
  induction l as [| y l IH]; [discriminate |].
  cbn [insert_reverse]. destruct (datetime.lt (key x) (key y)) as [[|] | e'] eqn:E;
    cbn [rbind]; [| discriminate | intros [= <-]; now apply lt_raises in E].
  destruct (insert_reverse key x l) as [r' | e']; cbn [rbind]; [discriminate |].
  intros [= <-]. now apply IH.
Qed.

Lemma sorted_reverse_perm (l s : list A) :
  sorted_reverse key l = Ok s -> Permutation s l.
Proof.
  revert s. induction l as [| x l IH]; intros s.
  - cbn [sorted_reverse]. now intros [= <-].
  - cbn [sorted_reverse]. destruct (sorted_reverse key l) as [s' |];
      cbn [rbind]; [| discriminate].
    intros H. apply insert_reverse_perm in H. rewrite H.
    constructor. now apply IH.
Qed.

Lemma sorted_reverse_raises (l : list A) (e : exn) :
  sorted_reverse key l = Raise e -> e = datetime.cmp_error.
Proof.
  induction l as [| x l IH]; [discriminate |].
  cbn [sorted_reverse]. destruct (sorted_reverse key l) as [s' | e'];
    cbn [rbind].
  - apply insert_reverse_raises.
  - intros [= <-]. now apply IH.
Qed.

Lemma insert_reverse_spec (x : A) (l : list A) :
  Forall (fun y => aware (key y) = aware (key x)) l ->
  exists r : list A,
    insert_reverse key x l = Ok r
    /\ (descending key l -> descending key r).
Proof.
  induction 1 as [| y l Hy Hl IH].
  - exists [x]. split; [reflexivity |]. intros _. cbn [descending]. auto.
  - cbn [insert_reverse]. rewrite (lt_same_kind _ _ (eq_sym Hy)). cbn [rbind].
    destruct IH as (r & E & Hdesc).
    destruct (Z.ltb_spec (instant (key x)) (instant (key y))) as [Hlt | Hge].
    + rewrite E. cbn [rbind]. eexists. split; [reflexivity |].
      cbn [descending]. intros [Hall Hd]. split; [| now apply Hdesc].
      apply insert_reverse_perm in E.
      rewrite Forall_forall. intros z Hz.
      apply (Permutation_in _ E) in Hz as [<- | Hz]; [lia |].
      rewrite Forall_forall in Hall. now apply Hall.
    + eexists. split; [reflexivity |].
      cbn [descending]. intros [Hall Hd]. repeat split; [| exact Hall | exact Hd].
      constructor; [exact Hge |].
      rewrite Forall_forall in Hall |- *. intros z Hz. specialize (Hall z Hz). lia.
Qed.

Lemma sorted_reverse_spec (l : list A) (b : bool) :
  Forall (fun y => aware (key y) = b) l ->
  exists s : list A,
    sorted_reverse key l = Ok s /\ Permutation s l /\ descending key s.
Proof.
  induction 1 as [| x l Hx Hl IH].
  - exists []. repeat split. constructor.
  - destruct IH as (s & E & Hperm & Hdesc).
    cbn [sorted_reverse]. rewrite E. cbn [rbind].
    destruct (insert_reverse_spec x s) as (r & Er & Hr).
    { rewrite Forall_forall in Hl |- *. intros y Hy.
      rewrite Hx. apply Hl. now apply (Permutation_in _ Hperm). }
    exists r. split; [exact Er |]. split; [| now apply Hr].
    apply insert_reverse_perm in Er. rewrite Er. now constructor.
Qed.

Lemma none_aware (l : list A) :
  existsb (fun x => aware (key x)) l = false ->
  Forall (fun y => aware (key y) = false) l.
Proof.
  induction l as [| x l IH]; [constructor |].
  cbn [existsb]. intros [Hx Hl]%orb_false_elim. constructor; auto.
Qed.

Lemma none_naive (l : list A) :
  existsb (fun x => negb (aware (key x))) l = false ->
  Forall (fun y => aware (key y) = true) l.
Proof.
  induction l as [| x l IH]; [constructor |].
  cbn [existsb]. intros [Hx Hl]%orb_false_elim. constructor; auto.
  now apply negb_false_iff in Hx.
Qed.

Lemma mixed_cases (l : list A) :
  mixed key l = false -> exists b, Forall (fun y => aware (key y) = b) l.
Proof.
  unfold mixed. intros [H | H]%andb_false_iff.
  - exists false. now apply none_aware.
  - exists true. now apply none_naive.
Qed.

Lemma sorted_reverse_mixed (l : list A) :
  mixed key l = true -> sorted_reverse key l = Raise datetime.cmp_error.
Proof.
  induction l as [| x l IH]; [discriminate |].
  intros Hmixed. cbn [sorted_reverse].
  destruct (sorted_reverse key l) as [s | e] eqn:E; cbn [rbind].
  - destruct (mixed key l) eqn:Hl; [now specialize (IH eq_refl) |].
    apply sorted_reverse_perm in E.
    assert (Hother : Forall (fun y => aware (key y) = negb (aware (key x))) l
                     /\ l <> []).
    { unfold mixed in Hmixed, Hl. cbn [existsb] in Hmixed.
      apply andb_prop in Hmixed as [Ha Hn].
      destruct (aware (key x)) eqn:Hx; cbn [negb orb] in *.
      - rewrite Hn, andb_true_r in Hl. split.
        + now apply none_aware.
        + intros ->. discriminate.
      - rewrite Ha in Hl. cbn [andb] in Hl. split.
        + now apply none_naive.
        + intros ->. discriminate. }
    destruct Hother as [Hall Hne].
    destruct s as [| y s].
    + apply Permutation_nil in E. contradiction.
    + cbn [insert_reverse]. rewrite lt_other_kind; [reflexivity |].
      rewrite Forall_forall in Hall.
      rewrite (Hall y) by (apply (Permutation_in _ E); now left).
      now destruct (aware (key x)).
  - now apply sorted_reverse_raises in E as ->.
Qed.

End Sorting.

(** X28. The summary cannot be built from update times of both kinds: when
    the workbooks, or the data sources, hold an aware update time beside a
    naive or a missing one (a missing one counts as the naive
    [datetime.min]), [get_metadata_summary] raises [MetadataError] with
    the message of the failed comparison. *)
Theorem summary_mixed_update_times (m : ServerMetadata.t) :
  mixed workbook_sort_key (ServerMetadata.workbooks m) = true
  \/ mixed datasource_sort_key (ServerMetadata.datasources m) = true ->
  MetadataProcessor.get_metadata_summary m
  = Raise (Exn MetadataError
             ("Failed to generate metadata summary: "
              +:+ "can't compare offset-naive and offset-aware datetimes")).
Proof.
  intros H. unfold MetadataProcessor.get_metadata_summary.
  fold workbook_sort_key datasource_sort_key.
  destruct H as [H | H].
  - now rewrite (sorted_reverse_mixed _ _ H).
  - destruct (sorted_reverse workbook_sort_key (ServerMetadata.workbooks m))
      as [wbs | e] eqn:E; cbn [rbind].
    + now rewrite (sorted_reverse_mixed _ _ H).
    + now apply sorted_reverse_raises in E as ->.
Qed.

(** X29. When the update times of the workbooks are of one kind, and those
    of the data sources too, the summary is built, and each recent-updates
    list shows the first five of its items in the order of their update
    times, the latest first, items without an update time last. *)
Theorem summary_recent_updates (m : ServerMetadata.t) :
  mixed workbook_sort_key (ServerMetadata.workbooks m) = false ->
  mixed datasource_sort_key (ServerMetadata.datasources m) = false ->
  exists (s : pyval) (wbs : list WorkbookMetadata.t) (dss : list DatasourceMetadata.t),
    MetadataProcessor.get_metadata_summary m = Ok s
    /\ Permutation wbs (ServerMetadata.workbooks m)
    /\ descending workbook_sort_key wbs
    /\ Permutation dss (ServerMetadata.datasources m)
    /\ descending datasource_sort_key dss
    /\ get_path s ["recent_updates"; "workbooks"] = Ok (workbook_entries (take 5 wbs))
    /\ get_path s ["recent_updates"; "datasources"]
       = Ok (datasource_entries (take 5 dss)).
Proof.
  intros Hw Hd.
  apply mixed_cases in Hw as [bw Hw], Hd as [bd Hd].
  destruct (sorted_reverse_spec _ _ _ Hw) as (wbs & Ew & Pw & Dw).
  destruct (sorted_reverse_spec _ _ _ Hd) as (dss & Ed & Pd & Dd).
  unfold MetadataProcessor.get_metadata_summary.
  fold workbook_sort_key datasource_sort_key.
  rewrite Ew, Ed. cbn [rbind reraise_as].
  eexists _, wbs, dss. split; [reflexivity |].
  repeat (split; [assumption |]).
  split; reflexivity.
Qed.

(** X30. Filtering is idempotent: when [filter_metadata] returns, applying
    the same filters to its result returns that result again, and does not
    raise. *)
Theorem filter_metadata_idempotent (m r : ServerMetadata.t)
    (f : MetadataProcessor.filters) :
  MetadataProcessor.filter_metadata m f = Ok r ->
  MetadataProcessor.filter_metadata r f = Ok r.
Proof.
  intros H. apply filter_metadata_ok_iff in H as [-> _].
  apply filter_metadata_ok_iff.
  cbn [with_lists ServerMetadata.workbooks ServerMetadata.datasources
       ServerMetadata.projects ServerMetadata.flows ServerMetadata.server_url
       ServerMetadata.version ServerMetadata.rest_api_version ServerMetadata.site_id
       ServerMetadata.site_name ServerMetadata.timestamp].
  split.
  - unfold with_lists.
    cbn [ServerMetadata.workbooks ServerMetadata.datasources
         ServerMetadata.projects ServerMetadata.flows ServerMetadata.server_url
         ServerMetadata.version ServerMetadata.rest_api_version ServerMetadata.site_id
         ServerMetadata.site_name ServerMetadata.timestamp].
    rewrite !filter_filter.
    f_equal; apply List.filter_ext; intros x; now rewrite andb_diag.
  - intros since Hs.
    assert (Hcmp : forall u, when_given (MetadataProcessor.updated_since f)
                               (updated_ok u) = true -> comparable since u).
    { intros u. rewrite Hs. cbn [when_given]. unfold updated_ok, comparable.
      destruct (MetadataProcessor.updated_ge u since) as [b |]; [eauto | discriminate]. }
    repeat split; rewrite filter_filter; apply Forall_forall; intros x Hx;
      apply filter_In in Hx as [_ Hx]; apply andb_prop in Hx as [Hk _];
      apply Hcmp.
    + unfold keeps_workbook in Hk. now apply andb_prop in Hk as [_ ?].
    + unfold keeps_datasource in Hk. now apply andb_prop in Hk as [_ ?].
    + unfold keeps_flow in Hk. now apply andb_prop in Hk as [_ ?].
Qed.
(* ===================================================================== *)
(** * The further properties at sample inputs                            *)
(* ===================================================================== *)

Lemma client_retry_run_witness :
  exists j : nat,
    Z.of_nat j < 3
    /\ TableauClient._retry_operation TableauClient.init sample_retry.flaky (0%nat, [])
       = (final_answer (answer_of_call sample_retry.flaky j 0%nat),
          (after_calls sample_retry.flaky (S j) 0%nat, [] ++ backoff 1%Qc j))
    /\ (forall i, (i < j)%nat -> raises (answer_of_call sample_retry.flaky i 0%nat) = true)
    /\ (raises (answer_of_call sample_retry.flaky j 0%nat) = false
        \/ Z.of_nat j = 3 - 1).
Proof.
  apply (client_retry_run sample_retry.flaky TableauClient.init 0%nat []).
  simpl. lia.
Defined.

Lemma retry_without_attempts_witness :
  TableauClient._retry_operation sample_retry2.no_attempts sample_retry.flaky (0%nat, [])
  = (Ok None, (0%nat, []))
  /\ helpers.retry_on_failure sample_retry.rich sample_retry.flaky (-1) 1%Qc (0%nat, [])
     = (Ok None, (0%nat, [])).
Proof.
  apply (retry_without_attempts sample_retry.flaky sample_retry.rich
           sample_retry2.no_attempts (-1) 1%Qc 0%nat []).
  - simpl. lia.
  - lia.
Defined.

Lemma retry_total_sleep_witness :
  (total (snd (snd (TableauClient._retry_operation TableauClient.init
                      sample_retry.flaky (0%nat, []))))
   <= 1 * (2 ^ Z.to_nat (3 - 1) - 1))%Qc
  /\ (total (snd (snd (helpers.retry_on_failure sample_retry.rich sample_retry.flaky
                          3 1%Qc (0%nat, []))))
      <= 1 * (2 ^ Z.to_nat (3 - 1) - 1))%Qc.
Proof.
  apply (retry_total_sleep sample_retry.flaky sample_retry.rich TableauClient.init
           3 1%Qc 0%nat).
  - simpl. lia.
  - vm_compute. discriminate.
  - lia.
  - vm_compute. discriminate.
Defined.


Lemma getter_run_witness :
  exists j : nat,
    Z.of_nat j < 3
    /\ client.fetch TableauClient.init "Failed to get sites: " sample_retry.flaky
         sample_client.connected
       = (match answer_of_call sample_retry.flaky j 0%nat with
          | Ok a => Ok (Some a)
          | Raise e => Raise (Exn TableauAPIError ("Failed to get sites: " +:+ exn_str e))
          end,
          client.mk_state true (after_calls sample_retry.flaky (S j) 0%nat)
            ([] ++ backoff 1%Qc j))
    /\ (forall i, (i < j)%nat -> raises (answer_of_call sample_retry.flaky i 0%nat) = true)
    /\ (raises (answer_of_call sample_retry.flaky j 0%nat) = false
        \/ Z.of_nat j = 3 - 1).
Proof.
  apply (getter_run TableauClient.init "Failed to get sites: " sample_retry.flaky
           sample_client.connected).
  - reflexivity.
  - simpl. lia.
Defined.

Lemma workbook_views_details_fail_witness :
  client.get_workbook_views TableauClient.init sample_client.down "wb-1"
    sample_client.connected
  = (Raise (Exn TableauAPIError
              ("Failed to get workbook views: Failed to get workbook details: "
               +:+ "timed out")),
     client.mk_state true 3%nat ([] ++ backoff 1%Qc 2)).
Proof.
  apply (workbook_views_details_fail TableauClient.init sample_client.down "wb-1"
           sample_client.connected (Exn ConnectionError "timed out")).
  - reflexivity.
  - simpl. lia.
  - intros i _. reflexivity.
  - reflexivity.
Defined.

Lemma search_unknown_content_type_witness :
  client.search_content TableauClient.init sample_client.down "sales" "workbook"
    sample_client.connected
  = (Ok (client.mk_results (Some []) (Some []) (Some []) (Some [])),
     sample_client.connected).
Proof.
  apply (search_unknown_content_type TableauClient.init sample_client.down
           "sales" "workbook" sample_client.connected).
  - reflexivity.
  - vm_compute. reflexivity.
Defined.

Lemma search_known_content_type_witness :
  client.search_content TableauClient.init sample_client.down "sales" "workbooks"
    sample_client.connected
  = (Raise (Exn TableauAPIError
              "Failed to search content: type object 'Operator' has no attribute 'Contains'"),
     sample_client.connected).
Proof.
  apply (search_known_content_type TableauClient.init sample_client.down
           "sales" "workbooks" sample_client.connected).
  - reflexivity.
  - vm_compute. reflexivity.
Defined.

Lemma connection_block_outcome_witness :
  client.connection sample_auth.authenticator sample_client.bad_block
    sample_client.fresh
  = (Raise (Exn ConnectionError
              "Failed to connect to Tableau Server: invalid literal for int() with base 10: 'x'"),
     client.mk_state true
       (TSC.mk "https://tableau.example.com" None
          [TSC.SignIn (TSC.PersonalAccessTokenAuth "ci" "s3cr3t" ""); TSC.SignOut]
          (TSC.reply sample_client.service))
       []).
Proof.
  apply (connection_block_outcome sample_auth.authenticator sample_client.bad_block
           sample_client.fresh
           (client.mk_state true
              (after_request sample_client.service
                 (TSC.SignIn (TSC.PersonalAccessTokenAuth "ci" "s3cr3t" ""))
                 (Some "session-token")) [])
           (TSC.PersonalAccessTokenAuth "ci" "s3cr3t" "")
           "session-token" "session-token" "session-token"
           (Raise (Exn ValueError "invalid literal for int() with base 10: 'x'"))).
  - reflexivity.
  - reflexivity.
  - reflexivity.
  - reflexivity.
  - reflexivity.
  - reflexivity.
Defined.

Lemma connection_sign_in_refused_witness :
  client.connection sample_auth.authenticator sample_client.bad_block
    sample_client.fresh_refused
  = (Raise (Exn ConnectionError
              ("Failed to connect to Tableau Server: Authentication failed: "
               +:+ "connection reset")),
     client.mk_state false
       (after_request (client.service sample_client.fresh_refused)
          (TSC.SignIn (TSC.PersonalAccessTokenAuth "ci" "s3cr3t" "")) None)
       []).
Proof.
  apply (connection_sign_in_refused sample_auth.authenticator sample_client.bad_block
           sample_client.fresh_refused (TSC.PersonalAccessTokenAuth "ci" "s3cr3t" "")
           (Exn ConnectionError "connection reset")).
  - reflexivity.
  - reflexivity.
  - reflexivity.
Defined.

Lemma connection_sign_out_refused_witness :
  client.connection sample_auth.authenticator (sret 7) sample_client.fresh_closing
  = (Raise (Exn AuthenticationError ("Sign out failed: " +:+ "connection reset")),
     client.mk_state true
       (TSC.mk "https://tableau.example.com" (Some "session-token")
          [TSC.SignIn (TSC.PersonalAccessTokenAuth "ci" "s3cr3t" ""); TSC.SignOut]
          (TSC.reply sample_client.closing))
       []).
Proof.
  apply (connection_sign_out_refused sample_auth.authenticator (sret 7)
           sample_client.fresh_closing
           (client.mk_state true
              (after_request sample_client.closing
                 (TSC.SignIn (TSC.PersonalAccessTokenAuth "ci" "s3cr3t" ""))
                 (Some "session-token")) [])
           (TSC.PersonalAccessTokenAuth "ci" "s3cr3t" "")
           "session-token" "session-token" (Ok 7)
           (Exn ConnectionError "connection reset")).
  - reflexivity.
  - reflexivity.
  - reflexivity.
  - reflexivity.
  - reflexivity.
  - reflexivity.
Defined.

Lemma env_config_builds_auth_object_witness :
  TableauAuthenticator.create_auth_object
    (TableauAuthenticator.mk sample_auth.pat_config)
  = Ok (TSC.PersonalAccessTokenAuth "ci" "s3cr3t" "").
Proof.
  apply (env_config_builds_auth_object sample_env.token_and_password
           sample_auth.pat_config).
  vm_compute. reflexivity.
Defined.







Lemma s3_load_needs_local_directory_witness :
  exists e : exn,
    S3.load_metadata sample_s3.remote "main.json"
      (sample_s3.blocked, sample_s3.empty_bucket)
    = (Raise e, (sample_s3.blocked, sample_s3.empty_bucket))
    /\ exn_class e = StorageError.
Proof.
  apply (s3_load_needs_local_directory sample_s3.remote "main.json" sample_s3.blocked
           sample_s3.empty_bucket).
  vm_compute. reflexivity.
Defined.

Lemma manager_save_no_rollback_witness :
  StorageManager.save_metadata sample_s3.manager sample.metadata "main.json"
    ["local"; "s3"] "json" (sample_fs2.empty_store, sample_s3.empty_bucket)
  = (Raise (Exn StorageError ("Unsupported backend: " +:+ "s3")),
     (snd (LocalStorage.save_metadata sample_store.local sample.metadata "main.json"
             "json" sample_fs2.empty_store),
      sample_s3.empty_bucket)).
Proof.
  apply (manager_save_no_rollback sample_s3.manager sample.metadata "main.json" "json"
           "s3" [] sample_fs2.empty_store _ sample_s3.empty_bucket "store/main.json").
  - vm_compute. reflexivity.
  - reflexivity.
  - right. reflexivity.
Defined.

Lemma generated_filename_in_base_witness :
  plain_name (StorageManager.generate_filename sample.metadata true) = true
  /\ endswith (StorageManager.generate_filename sample.metadata true) ".json" = true
  /\ endswith (StorageManager.generate_filename sample.metadata true) ".gz" = false
  /\ path_join "store" (StorageManager.generate_filename sample.metadata true)
     = "store" +:+ "/" +:+ StorageManager.generate_filename sample.metadata true
  /\ path_parent (path_join "store" (StorageManager.generate_filename sample.metadata true))
     = "store".
Proof.
  apply (generated_filename_in_base sample.metadata true "store").
  - reflexivity.
  - intros _. simpl. lia.
Defined.

Lemma truncate_string_bound_witness :
  Z.of_nat (String.length (truncate_string "Quarterly sales by region" 10)) <= 10
  /\ (10 < Z.of_nat (String.length "Quarterly sales by region") ->
      Z.of_nat (String.length (truncate_string "Quarterly sales by region" 10)) = 10)
  /\ truncate_string (truncate_string "Quarterly sales by region" 10) 10
     = truncate_string "Quarterly sales by region" 10.
Proof.
  apply (truncate_string_bound "Quarterly sales by region" 10). lia.
Defined.

Lemma truncate_string_overshoot_witness :
  Z.of_nat (String.length (truncate_string "Sales" 2))
  = Z.max 0 (Z.of_nat (String.length "Sales") + 2 - 3) + 3
  /\ 2 < Z.of_nat (String.length (truncate_string "Sales" 2)).
Proof.
  apply (truncate_string_overshoot "Sales" 2).
  - lia.
  - simpl. lia.
Defined.

Lemma parse_tags_join_witness :
  parse_tags (join "," ["kpi"; "finance"]) = ["kpi"; "finance"].
Proof.
  apply (parse_tags_join ["kpi"; "finance"]).
  repeat (apply Forall_cons; [reflexivity |]). apply Forall_nil.
Defined.

Lemma summary_mixed_update_times_witness :
  MetadataProcessor.get_metadata_summary sample_summary.with_draft
  = Raise (Exn MetadataError
             ("Failed to generate metadata summary: "
              +:+ "can't compare offset-naive and offset-aware datetimes")).
Proof.
  apply (summary_mixed_update_times sample_summary.with_draft).
  left. vm_compute. reflexivity.
Defined.

Lemma summary_recent_updates_witness :
  exists (s : pyval) (wbs : list WorkbookMetadata.t) (dss : list DatasourceMetadata.t),
    MetadataProcessor.get_metadata_summary sample.metadata = Ok s
    /\ Permutation wbs [sample.wb_sales; sample.wb_ops]
    /\ descending workbook_sort_key wbs
    /\ Permutation dss [sample.ds_orders]
    /\ descending datasource_sort_key dss
    /\ get_path s ["recent_updates"; "workbooks"] = Ok (workbook_entries (take 5 wbs))
    /\ get_path s ["recent_updates"; "datasources"]
       = Ok (datasource_entries (take 5 dss)).
Proof.
  apply (summary_recent_updates sample.metadata).
  - vm_compute. reflexivity.
  - vm_compute. reflexivity.
Defined.

Lemma filter_metadata_idempotent_witness :
  MetadataProcessor.filter_metadata
    (with_lists sample.metadata [sample.wb_sales] [sample.ds_orders]
       [sample.p_finance] [sample.fl_nightly])
    sample.finance_only
  = Ok (with_lists sample.metadata [sample.wb_sales] [sample.ds_orders]
          [sample.p_finance] [sample.fl_nightly]).
Proof.
  apply (filter_metadata_idempotent sample.metadata _ sample.finance_only).
  vm_compute. reflexivity.
Defined.
